(** * Bundly Agent SDK: the pump.fun graduation estimator

    A shallow embedding of [calculateMinTokensForGraduation] and of its
    consumer [buildFinalizePumpfunInstruction] (src/instructions.js), with the
    address derivations of src/accounts.js that the consumer calls.

    - [BN] values are integers of unbounded size, as in bn.js: they are [Z].
      The constructor is partial on JavaScript numbers: it accepts an
      integer below 2^53 in absolute value and throws otherwise.
    - The console and the RPC connection are the two effects of the code.
      Both are recorded, in program order, in a trace that is threaded
      through a small exception-and-trace monad.
    - A rejected promise and a thrown exception are the same outcome here:
      the [await]ed computation yields no value. *)

From Stdlib Require Import ZArith List String Lia QArith Lqa Bool.
Import ListNotations.
Local Open Scope string_scope.
Local Open Scope Z_scope.

(** ** bn.js *)

(** The operations of bn.js that the estimator uses.

    [new BN(n)], for a JavaScript number holding the integer [n], yields
    that integer when [|n| < 2^53]; from 2^53 on the constructor fails its
    assertion [number < 0x20000000000000] and throws.  The constants that
    the source writes as decimal text ([new BN('30000000000')]) are parsed
    digit by digit and meet no such bound: they are written as integer
    literals below.

    [div] truncates toward zero and fails (an assertion of the library) on a
    zero divisor. *)
Module BN.
Definition t : Type := Z.

Definition new (n : Z) : option t :=
  if Z.abs n <? 2 ^ 53 then Some n else None.
Definition add (a b : t) : t := a + b.
Definition sub (a b : t) : t := a - b.
Definition mul (a b : t) : t := a * b.
Definition div (a b : t) : option t :=
  if b =? 0 then None else Some (Z.quot a b).
Definition lt (a b : t) : bool := a <? b.
Definition lte (a b : t) : bool := a <=? b.
Definition gt (a b : t) : bool := b <? a.
End BN.

(** ** Public keys and program addresses *)

(** A public key is identified by its base58 text, the form in which the
    source writes every key literal. *)
Definition PublicKey : Type := string.

Inductive Seed : Type :=
| Seed_text (s : string)          (* Buffer.from('...') *)
| Seed_key (k : PublicKey).       (* key.toBuffer() *)

(** ** Effects: console lines and RPC requests *)

(** The values interpolated by the eight [console.log] lines that follow the
    arithmetic (lines 505-512).  The balance is printed in SOL there
    ([escrowBalance / 1e9]); the record keeps the lamports it is printed
    from. *)
Record Calculation : Type := {
  calc_escrowBalance : Z;
  calc_SOL_TO_SPEND : BN.t;
  calc_initialSol : BN.t;
  calc_initialTokens : BN.t;
  calc_k : BN.t;
  calc_finalSol : BN.t;
  calc_finalTokens : BN.t;
  calc_tokensOut : BN.t;
  calc_tokensOut_M : BN.t;
  calc_minTokensOut : BN.t;
  calc_minTokensOut_M : BN.t
}.

Inductive Event : Type :=
| Rpc_getBalance (account : PublicKey)      (* connection.getBalance, line 463 *)
| Log_calculation (c : Calculation)         (* console.log, lines 505-512 *)
| Warn_no_graduation (escrowBalance : Z)    (* console.warn, lines 517-518 *)
| Warn_tokens_out_not_positive              (* console.warn, line 523 *)
| Warn_tokens_out_capped                    (* console.warn, line 528 *)
| Error_calculating                         (* console.error, lines 534-535 *)
| Warn_no_slippage_protection.              (* console.warn, line 536 *)

Definition Trace : Type := list Event.

(** ** The exception-and-trace monad *)

Module Eff.
(** [None] in the first component: the computation threw. *)
Definition M (A : Type) : Type := Trace -> option A * Trace.

Definition ret {A} (a : A) : M A := fun tr => (Some a, tr).

Definition bind {A B} (m : M A) (f : A -> M B) : M B :=
  fun tr =>
    match m tr with
    | (Some a, tr') => f a tr'
    | (None, tr') => (None, tr')
    end.

Definition emit (e : Event) : M unit := fun tr => (Some tt, (tr ++ [e])%list).

(** A library call that may throw and leaves no trace. *)
Definition lift {A} (o : option A) : M A := fun tr => (o, tr).

(** [try { body } catch (error) { handler }] *)
Definition try_catch {A} (body handler : M A) : M A :=
  fun tr =>
    match body tr with
    | (Some a, tr') => (Some a, tr')
    | (None, tr') => handler tr'
    end.

Definition when (b : bool) (m : M unit) : M unit :=
  if b then m else ret tt.
End Eff.

Notation "x <- m ;; k" := (Eff.bind m (fun x => k))
  (at level 61, m at next level, right associativity).
Notation "m ;;; k" := (Eff.bind m (fun _ => k))
  (at level 61, right associativity).

(** An RPC connection: the balance it reports for each account, or no answer
    (the request is rejected). *)
Record Connection : Type := {
  balanceOf : PublicKey -> option Z
}.

Definition getBalance (connection : Connection) (account : PublicKey) : Eff.M Z :=
  Eff.emit (Rpc_getBalance account) ;;;
  Eff.lift (balanceOf connection account).

(** ** The graduation estimator (src/instructions.js, lines 460-539) *)

Definition VIRTUAL_SOL_RESERVES : BN.t := 30000000000.
Definition VIRTUAL_TOKEN_RESERVES : BN.t := 1073000000000000.
Definition INITIAL_REAL_TOKEN_RESERVES : BN.t := 793100000000000.
Definition ESTIMATED_COSTS : BN.t := 14500000.
Definition GRADUATION_THRESHOLD : BN.t := 85000000000.

Definition initialSol : BN.t := VIRTUAL_SOL_RESERVES.
Definition initialTokens : BN.t := VIRTUAL_TOKEN_RESERVES.
Definition k : BN.t := BN.mul initialSol initialTokens.

(** The body of the [try] block. *)
Definition calculateMinTokensForGraduation_try
    (connection : Connection) (bundlePda escrowPda pumpfunMintPubkey : PublicKey)
    : Eff.M BN.t :=
  escrowBalance <- getBalance connection escrowPda ;;
  escrowBalanceBN <- Eff.lift (BN.new escrowBalance) ;;
  let SOL_TO_SPEND := BN.sub escrowBalanceBN ESTIMATED_COSTS in
  let finalSol := BN.add VIRTUAL_SOL_RESERVES SOL_TO_SPEND in
  finalTokens <- Eff.lift (BN.div k finalSol) ;;
  let tokensOut := BN.sub initialTokens finalTokens in
  ninety <- Eff.lift (BN.new 90) ;;
  hundred <- Eff.lift (BN.new 100) ;;
  minTokensOut <- Eff.lift (BN.div (BN.mul tokensOut ninety) hundred) ;;
  million <- Eff.lift (BN.new 1000000) ;;
  tokensOut_M <- Eff.lift (BN.div tokensOut million) ;;
  million' <- Eff.lift (BN.new 1000000) ;;
  minTokensOut_M <- Eff.lift (BN.div minTokensOut million') ;;
  Eff.emit (Log_calculation {|
    calc_escrowBalance := escrowBalance;
    calc_SOL_TO_SPEND := SOL_TO_SPEND;
    calc_initialSol := initialSol;
    calc_initialTokens := initialTokens;
    calc_k := k;
    calc_finalSol := finalSol;
    calc_finalTokens := finalTokens;
    calc_tokensOut := tokensOut;
    calc_tokensOut_M := tokensOut_M;
    calc_minTokensOut := minTokensOut;
    calc_minTokensOut_M := minTokensOut_M |}) ;;;
  Eff.when (BN.lt SOL_TO_SPEND GRADUATION_THRESHOLD)
    (Eff.emit (Warn_no_graduation escrowBalance)) ;;;
  zero <- Eff.lift (BN.new 0) ;;
  if BN.lte tokensOut zero then
    Eff.emit Warn_tokens_out_not_positive ;;;
    Eff.lift (BN.new 0)
  else if BN.gt tokensOut INITIAL_REAL_TOKEN_RESERVES then
    Eff.emit Warn_tokens_out_capped ;;;
    ninety' <- Eff.lift (BN.new 90) ;;
    hundred' <- Eff.lift (BN.new 100) ;;
    Eff.lift (BN.div (BN.mul INITIAL_REAL_TOKEN_RESERVES ninety') hundred')
  else
    Eff.ret minTokensOut.

(** The [catch] block. *)
Definition calculateMinTokensForGraduation_catch : Eff.M BN.t :=
  Eff.emit Error_calculating ;;;
  Eff.emit Warn_no_slippage_protection ;;;
  Eff.lift (BN.new 0).

Definition calculateMinTokensForGraduation
    (connection : Connection) (bundlePda escrowPda pumpfunMintPubkey : PublicKey)
    : Eff.M BN.t :=
  Eff.try_catch
    (calculateMinTokensForGraduation_try connection bundlePda escrowPda pumpfunMintPubkey)
    calculateMinTokensForGraduation_catch.

(** A connection on which every account holds [escrowBalance]. *)
Definition connection_with (escrowBalance : Z) : Connection :=
  {| balanceOf := fun _ => Some escrowBalance |}.

Definition connection_down : Connection :=
  {| balanceOf := fun _ => None |}.

(** The estimator with the graduation warning of lines 514-519 deleted and
    every other line kept: the comparison object of the advisory check. *)
Definition calculateMinTokensForGraduation_try_without_threshold
    (connection : Connection) (bundlePda escrowPda pumpfunMintPubkey : PublicKey)
    : Eff.M BN.t :=
  escrowBalance <- getBalance connection escrowPda ;;
  escrowBalanceBN <- Eff.lift (BN.new escrowBalance) ;;
  let SOL_TO_SPEND := BN.sub escrowBalanceBN ESTIMATED_COSTS in
  let finalSol := BN.add VIRTUAL_SOL_RESERVES SOL_TO_SPEND in
  finalTokens <- Eff.lift (BN.div k finalSol) ;;
  let tokensOut := BN.sub initialTokens finalTokens in
  ninety <- Eff.lift (BN.new 90) ;;
  hundred <- Eff.lift (BN.new 100) ;;
  minTokensOut <- Eff.lift (BN.div (BN.mul tokensOut ninety) hundred) ;;
  million <- Eff.lift (BN.new 1000000) ;;
  tokensOut_M <- Eff.lift (BN.div tokensOut million) ;;
  million' <- Eff.lift (BN.new 1000000) ;;
  minTokensOut_M <- Eff.lift (BN.div minTokensOut million') ;;
  Eff.emit (Log_calculation {|
    calc_escrowBalance := escrowBalance;
    calc_SOL_TO_SPEND := SOL_TO_SPEND;
    calc_initialSol := initialSol;
    calc_initialTokens := initialTokens;
    calc_k := k;
    calc_finalSol := finalSol;
    calc_finalTokens := finalTokens;
    calc_tokensOut := tokensOut;
    calc_tokensOut_M := tokensOut_M;
    calc_minTokensOut := minTokensOut;
    calc_minTokensOut_M := minTokensOut_M |}) ;;;
  zero <- Eff.lift (BN.new 0) ;;
  if BN.lte tokensOut zero then
    Eff.emit Warn_tokens_out_not_positive ;;;
    Eff.lift (BN.new 0)
  else if BN.gt tokensOut INITIAL_REAL_TOKEN_RESERVES then
    Eff.emit Warn_tokens_out_capped ;;;
    ninety' <- Eff.lift (BN.new 90) ;;
    hundred' <- Eff.lift (BN.new 100) ;;
    Eff.lift (BN.div (BN.mul INITIAL_REAL_TOKEN_RESERVES ninety') hundred')
  else
    Eff.ret minTokensOut.

Definition calculateMinTokensForGraduation_without_threshold
    (connection : Connection) (bundlePda escrowPda pumpfunMintPubkey : PublicKey)
    : Eff.M BN.t :=
  Eff.try_catch
    (calculateMinTokensForGraduation_try_without_threshold
       connection bundlePda escrowPda pumpfunMintPubkey)
    calculateMinTokensForGraduation_catch.

(** What a run returned, and the trace it left. *)
Definition returned {A} (r : option A * Trace) : option A := fst r.
Definition trace_of {A} (r : option A * Trace) : Trace := snd r.

Definition is_graduation_warning (e : Event) : bool :=
  match e with
  | Warn_no_graduation _ => true
  | _ => false
  end.

(** ** The estimator's locals as functions of the amount to spend *)

(** The values that lines 480-503 bind when the constructor of line 464
    accepts the balance and the division of line 496 does not throw. *)
Definition SOL_TO_SPEND (escrowBalance : Z) : Z := escrowBalance - ESTIMATED_COSTS.
Definition finalSol (spend : Z) : Z := VIRTUAL_SOL_RESERVES + spend.
Definition finalTokens (spend : Z) : Z := Z.quot k (finalSol spend).
Definition tokensOut (spend : Z) : Z := initialTokens - finalTokens spend.
Definition minTokensOut (spend : Z) : Z := Z.quot (tokensOut spend * 90) 100.

(** The ceiling that line 529 returns. *)
Definition cappedTokensOut : Z := Z.quot (INITIAL_REAL_TOKEN_RESERVES * 90) 100.

Definition calculation_of (escrowBalance : Z) : Calculation :=
  let spend := SOL_TO_SPEND escrowBalance in
  {| calc_escrowBalance := escrowBalance;
     calc_SOL_TO_SPEND := spend;
     calc_initialSol := initialSol;
     calc_initialTokens := initialTokens;
     calc_k := k;
     calc_finalSol := finalSol spend;
     calc_finalTokens := finalTokens spend;
     calc_tokensOut := tokensOut spend;
     calc_tokensOut_M := Z.quot (tokensOut spend) 1000000;
     calc_minTokensOut := minTokensOut spend;
     calc_minTokensOut_M := Z.quot (minTokensOut spend) 1000000 |}.

Definition graduation_warning (escrowBalance : Z) : Trace :=
  if SOL_TO_SPEND escrowBalance <? GRADUATION_THRESHOLD
  then [Warn_no_graduation escrowBalance] else [].

(** The trace when control reaches the tests of lines 522-530. *)
Definition trace_before_exit (tr : Trace) (escrowPda : PublicKey) (escrowBalance : Z)
    : Trace :=
  (tr ++ [Rpc_getBalance escrowPda; Log_calculation (calculation_of escrowBalance)]
      ++ graduation_warning escrowBalance)%list.

(** The trace after the [catch] block. *)
Definition trace_after_catch (tr : Trace) (escrowPda : PublicKey) : Trace :=
  (tr ++ [Rpc_getBalance escrowPda; Error_calculating;
          Warn_no_slippage_protection])%list.

(** ** The curve over the rationals *)

(** The quotient of line 496 and the difference of line 499 without
    truncation, for comparison with [finalTokens] and [tokensOut]. *)
Definition exact_finalTokens (spend : Z) : Q :=
  (inject_Z k / inject_Z (finalSol spend))%Q.
Definition exact_tokensOut (spend : Z) : Q :=
  (inject_Z initialTokens - exact_finalTokens spend)%Q.

(** ** The finalize instruction builder (src/instructions.js, lines 544-658) *)

(** Constants of src/constants.js. *)
Definition BUNDLY_PROGRAM_ID : PublicKey := "GVGCNqUUrix5RLph9kVtzdMYkZLEvzvHEkYvC6vJ9dzZ".
Definition PUMPFUN_PROGRAM_ID : PublicKey := "6EF8rrecthR5Dkzon8Nwu78hRvfCKubJ14M5uBEwF6P".
Definition METADATA_PROGRAM_ID : PublicKey := "metaqbxxUerdq28cj1RbAWkYQm3ybzjb6a8bt518x1s".

(** Seeds of src/accounts.js. *)
Definition BUNDLE_SEED : string := "bundle_v2".
Definition ESCROW_SEED : string := "escrow_v2".
Definition FEE_VAULT_SEED : string := "fee_vault_v1".
Definition STAKING_VAULT_SEED : string := "staking_vault_v1".

(** The [minTokensOut] property of the parameter object: absent, [null], or a
    number. *)
Inductive MinTokensOutArg : Type :=
| Arg_undefined
| Arg_null
| Arg_number (n : Z).

(** The destructuring default [minTokensOut = null]: it replaces an absent
    property only.  The result is [None] for [null]. *)
Definition default_null (a : MinTokensOutArg) : option Z :=
  match a with
  | Arg_undefined => None
  | Arg_null => None
  | Arg_number n => Some n
  end.

Record Program : Type := {
  provider_connection : Connection
}.

Record FinalizeParams : Type := {
  param_program : Program;
  param_mint : PublicKey;
  param_payer : PublicKey;
  param_pumpfunMint : PublicKey;
  param_tokenName : string;
  param_tokenSymbol : string;
  param_tokenUri : string;
  param_minTokensOut : MinTokensOutArg
}.

(** What [program.methods.finalizePumpfun(...).accounts({...}).instruction()]
    is given: the four arguments and the named accounts, in source order. *)
Record Instruction : Type := {
  ix_tokenName : string;
  ix_tokenSymbol : string;
  ix_tokenUri : string;
  ix_minTokensOut : BN.t;
  ix_accounts : list (string * PublicKey)
}.

Record Built : Type := {
  instruction : Instruction
}.

Section Builder.
(** Collaborators from @solana/web3.js and @solana/spl-token. *)
Variable findProgramAddress : list Seed -> PublicKey -> PublicKey.
Variables TOKEN_PROGRAM_ID ASSOCIATED_TOKEN_PROGRAM_ID : PublicKey.
Variables SystemProgram_programId SYSVAR_RENT_PUBKEY : PublicKey.

Definition deriveBundlePda (mint : PublicKey) : PublicKey :=
  findProgramAddress [Seed_text BUNDLE_SEED; Seed_key mint] BUNDLY_PROGRAM_ID.

Definition deriveEscrowPda (mint : PublicKey) : PublicKey :=
  findProgramAddress [Seed_text ESCROW_SEED; Seed_key mint] BUNDLY_PROGRAM_ID.

Definition deriveFeeVaultPda (bundlePda : PublicKey) : PublicKey :=
  findProgramAddress [Seed_text FEE_VAULT_SEED; Seed_key bundlePda] BUNDLY_PROGRAM_ID.

Definition deriveStakingVaultPda (bundlePda : PublicKey) : PublicKey :=
  findProgramAddress [Seed_text STAKING_VAULT_SEED; Seed_key bundlePda] BUNDLY_PROGRAM_ID.

Definition finalize_accounts (payer mint pumpfunMint : PublicKey)
    : list (string * PublicKey) :=
  let bundlePda := deriveBundlePda mint in
  let escrowPda := deriveEscrowPda mint in
  let stakingVaultPda := deriveStakingVaultPda bundlePda in
  let feeVaultPda := deriveFeeVaultPda bundlePda in
  let PUMPFUN_GLOBAL := "4wTV1YmiEkRvAtNtsSGPtUrqRYQMe5SKy2uB4Jjaxnjf" in
  let PUMPFUN_MINT_AUTHORITY := "TSLvdd1pWpHVjahSpsvCXUbgwsL3JAcvokwaKt1eokM" in
  let PUMPFUN_FEE_RECIPIENT := "62qc2CNXwrYqQScmEdiZFFAnJR262PxWEuNQtxfafNgV" in
  let PUMPFUN_GLOBAL_VOLUME := "Hq2wp8uJ9jCPsYgNHex8RtqdvMPfVGoYwjvF1ATiwn2Y" in
  let PUMPFUN_FEE_PROGRAM := "pfeeUxB6jkeY1Hxd7CsFCAjcbHA9rWtchMGdZ6VojVZ" in
  let PUMPFUN_EVENT_AUTHORITY := "Ce6TQqeHC9p8KetsN6JsjHK7UTZk7nasjjnr7XxXp9F1" in
  let bondingCurve :=
    findProgramAddress [Seed_text "bonding-curve"; Seed_key pumpfunMint]
      PUMPFUN_PROGRAM_ID in
  let associatedBondingCurve :=
    findProgramAddress
      [Seed_key bondingCurve; Seed_key TOKEN_PROGRAM_ID; Seed_key pumpfunMint]
      ASSOCIATED_TOKEN_PROGRAM_ID in
  let metadata :=
    findProgramAddress
      [Seed_text "metadata"; Seed_key METADATA_PROGRAM_ID; Seed_key pumpfunMint]
      METADATA_PROGRAM_ID in
  let creatorVault :=
    findProgramAddress [Seed_text "creator-vault"; Seed_key bundlePda]
      PUMPFUN_PROGRAM_ID in
  let userVolume :=
    findProgramAddress [Seed_text "user_volume_accumulator"; Seed_key payer]
      PUMPFUN_PROGRAM_ID in
  let feeConfig :=
    findProgramAddress [Seed_text "fee_config"; Seed_key PUMPFUN_PROGRAM_ID]
      PUMPFUN_FEE_PROGRAM in
  [ ("payer", payer);
    ("bundle", bundlePda);
    ("mint", mint);
    ("escrow", escrowPda);
    ("pumpfunMint", pumpfunMint);
    ("bondingCurve", bondingCurve);
    ("associatedBondingCurve", associatedBondingCurve);
    ("metadata", metadata);
    ("stakingVault", stakingVaultPda);
    ("feeVault", feeVaultPda);
    ("pumpfunGlobal", PUMPFUN_GLOBAL);
    ("pumpfunMintAuthority", PUMPFUN_MINT_AUTHORITY);
    ("pumpfunFeeRecipientBuy", PUMPFUN_FEE_RECIPIENT);
    ("pumpfunGlobalVolume", PUMPFUN_GLOBAL_VOLUME);
    ("pumpfunFeeProgram", PUMPFUN_FEE_PROGRAM);
    ("pumpfunCreatorVault", creatorVault);
    ("pumpfunUserVolume", userVolume);
    ("pumpfunFeeConfig", feeConfig);
    ("pumpfunEventAuthority", PUMPFUN_EVENT_AUTHORITY);
    ("metadataProgram", METADATA_PROGRAM_ID);
    ("systemProgram", SystemProgram_programId);
    ("tokenProgram", TOKEN_PROGRAM_ID);
    ("associatedTokenProgram", ASSOCIATED_TOKEN_PROGRAM_ID);
    ("rent", SYSVAR_RENT_PUBKEY);
    ("pumpfunProgram", PUMPFUN_PROGRAM_ID) ].

Definition buildFinalizePumpfunInstruction (params : FinalizeParams) : Eff.M Built :=
  let program := param_program params in
  let mint := param_mint params in
  let payer := param_payer params in
  let pumpfunMint := param_pumpfunMint params in
  let minTokensOut := default_null (param_minTokensOut params) in
  let bundlePda := deriveBundlePda mint in
  let escrowPda := deriveEscrowPda mint in
  minTokensBN <-
    match minTokensOut with
    | None =>
        calculateMinTokensForGraduation (provider_connection program)
          bundlePda escrowPda pumpfunMint
    | Some n => Eff.lift (BN.new n)
    end ;;
  let ix :=
    {| ix_tokenName := param_tokenName params;
       ix_tokenSymbol := param_tokenSymbol params;
       ix_tokenUri := param_tokenUri params;
       ix_minTokensOut := minTokensBN;
       ix_accounts := finalize_accounts payer mint pumpfunMint |} in
  Eff.ret {| instruction := ix |}.

(** The parameter object with its [minTokensOut] property replaced. *)
Definition with_minTokensOut (params : FinalizeParams) (a : MinTokensOutArg)
    : FinalizeParams :=
  {| param_program := param_program params;
     param_mint := param_mint params;
     param_payer := param_payer params;
     param_pumpfunMint := param_pumpfunMint params;
     param_tokenName := param_tokenName params;
     param_tokenSymbol := param_tokenSymbol params;
     param_tokenUri := param_tokenUri params;
     param_minTokensOut := a |}.
End Builder.

(** The fourth argument of the built instruction, when one was built. *)
Definition minTokens_of (r : option Built * Trace) : option BN.t :=
  option_map (fun b => ix_minTokensOut (instruction b)) (returned r).

(** * Further code: observations on traces *)

Definition is_balance_request (e : Event) : bool :=
  match e with
  | Rpc_getBalance _ => true
  | _ => false
  end.

(** The figure printed by the [Min Tokens (90%)] line, when a trace holds
    one. *)
Fixpoint logged_minTokensOut (tr : Trace) : option BN.t :=
  match tr with
  | [] => None
  | Log_calculation c :: _ => Some (calc_minTokensOut c)
  | _ :: rest => logged_minTokensOut rest
  end.

From Stdlib Require Import Ascii.

(** * Exceptions as values *)

(** What a [throw], or a rejected promise, carries. *)
Inductive Error : Type :=
| TypeError_of_undefined (property : string)  (* a property of undefined or null *)
| RangeError_out_of_range                     (* a value outside the accepted range *)
| Error_message (message : string)            (* new Error(message) *)
| Collaborator_error (name : string).         (* thrown inside a library call *)

Inductive Result (A : Type) : Type :=
| Ok (a : A)
| Throw (e : Error).
Arguments Ok {A} a.
Arguments Throw {A} e.

Definition Result_bind {A B} (m : Result A) (f : A -> Result B) : Result B :=
  match m with
  | Ok a => f a
  | Throw e => Throw e
  end.

Notation "'let!' x ':=' m 'in' k" := (Result_bind m (fun x => k))
  (at level 10, x name, m at level 100, k at level 200).

(** [new BN(n)] where a throw is a value: the failed assertion of bn.js is
    an [Error] with the message [Assertion failed]. *)
Definition BN_new (n : Z) : Result BN.t :=
  match BN.new n with
  | Some b => Ok b
  | None => Throw (Error_message "Assertion failed")
  end.

(** * Address derivation (src/accounts.js, lines 1-192) *)

Definition TOKEN_VAULT_SEED : string := "vault_v2".
Definition UNSTAKE_VAULT_SEED : string := "unstake_vault_v2".
Definition UNSTAKE_REQUEST_SEED : string := "unstake_request_v1".
Definition USER_STAKE_SEED : string := "user_stake_v1".
Definition MINT_SEED : string := "bundle_mint_v1".
Definition ORDER_SEED : string := "order_v1".
Definition ORDER_VAULT_SEED : string := "vault_v2".

(** Constant of src/constants.js. *)
Definition GLOBAL_FEE_WALLET : PublicKey := "6XFV7TXxD28m7h3Ty483TH3thhsUoKhNF5dTHdF5JMSu".

(** [count] bytes of [n], least significant first.  A buffer is the string
    of its bytes. *)
Fixpoint le_bytes (count : nat) (n : Z) : string :=
  match count with
  | O => EmptyString
  | S count' =>
      String (ascii_of_N (Z.to_N (n mod 256))) (le_bytes count' (n / 256))
  end.

(** [Buffer.alloc(8)] followed by [writeBigUInt64LE(BigInt(n))], for an
    integer [n]: the write throws outside the unsigned 64-bit range. *)
Definition writeBigUInt64LE (n : Z) : Result string :=
  if (0 <=? n) && (n <? 2 ^ 64) then Ok (le_bytes 8 n)
  else Throw RangeError_out_of_range.

(** The integer a little-endian buffer holds: what the reader of the seed
    recovers. *)
Fixpoint le_value (buffer : string) : Z :=
  match buffer with
  | EmptyString => 0
  | String byte rest => Z.of_N (N_of_ascii byte) + 256 * le_value rest
  end.

Record AllBundlePdas : Type := {
  all_bundlePda : PublicKey;
  all_escrowPda : PublicKey;
  all_tokenVaultPda : PublicKey;
  all_feeVaultPda : PublicKey;
  all_stakingVaultPda : PublicKey
}.

(** * The other instruction builders (src/instructions.js) *)

Inductive IxArg : Type :=
| Ix_BN (n : BN.t)          (* new BN(...) *)
| Ix_number (n : Z)
| Ix_bool (b : bool).

(** [program.methods.<name>(<args>).accounts({...})]: the method, its
    arguments and the named accounts in source order. *)
Record MethodCall : Type := {
  call_name : string;
  call_args : list IxArg;
  call_accounts : list (string * PublicKey)
}.

(** The account listed under a name. *)
Fixpoint account_named (name : string) (accounts : list (string * PublicKey))
    : option PublicKey :=
  match accounts with
  | [] => None
  | (n, key) :: rest => if String.eqb n name then Some key else account_named name rest
  end.

Record InitBundleBuilt : Type := {
  init_instruction : MethodCall;
  init_mint : PublicKey;
  init_bundle : PublicKey
}.

Record CreateOrderBuilt : Type := {
  order_instruction : MethodCall;
  order_order : PublicKey
}.

Record AccountMeta : Type := {
  pubkey : PublicKey;
  isSigner : bool;
  isWritable : bool
}.

Record TransactionInstruction : Type := {
  ti_programId : PublicKey;
  ti_keys : list AccountMeta;
  ti_data : list Init.Byte.byte
}.

(** An entry of [idl.instructions]; the IDL file is read when the module is
    loaded. *)
Record IdlInstruction : Type := {
  idl_name : string;
  idl_discriminator : list Init.Byte.byte
}.

Definition getInstructionDiscriminator (idl_instructions : list IdlInstruction)
    (name : string) : Result (list Init.Byte.byte) :=
  match find (fun ix => String.eqb (idl_name ix) name) idl_instructions with
  | Some instruction => Ok (idl_discriminator instruction)
  | None => Throw (Error_message ("Instruction " ++ name ++ " not found in IDL"))
  end.

Section Builders.
(** Collaborators from @solana/web3.js and @solana/spl-token.  The
    associated-token address takes the mint, the owner and
    [allowOwnerOffCurve]; it throws for an owner it does not accept. *)
Variable findProgramAddress : list Seed -> PublicKey -> PublicKey.
Variable getAssociatedTokenAddressSync :
  PublicKey -> PublicKey -> bool -> Result PublicKey.
Variables TOKEN_PROGRAM_ID ASSOCIATED_TOKEN_PROGRAM_ID : PublicKey.
Variables SystemProgram_programId SYSVAR_RENT_PUBKEY : PublicKey.
Variable idl_instructions : list IdlInstruction.

Definition deriveTokenVaultPda (mint : PublicKey) : PublicKey :=
  findProgramAddress [Seed_text TOKEN_VAULT_SEED; Seed_key mint] BUNDLY_PROGRAM_ID.

(** [user] is [None] when the caller passes no second argument:
    [user.toBuffer()] then throws. *)
Definition deriveUnstakeVaultPda (mint : PublicKey) (user : option PublicKey)
    : Result PublicKey :=
  match user with
  | None => Throw (TypeError_of_undefined "toBuffer")
  | Some user' =>
      Ok (findProgramAddress
            [Seed_text UNSTAKE_VAULT_SEED; Seed_key mint; Seed_key user']
            BUNDLY_PROGRAM_ID)
  end.

Definition deriveUnstakeRequestPda (mint user : PublicKey) : PublicKey :=
  findProgramAddress
    [Seed_text UNSTAKE_REQUEST_SEED; Seed_key mint; Seed_key user] BUNDLY_PROGRAM_ID.

Definition deriveUserStakePda (bundlePda user : PublicKey) : PublicKey :=
  findProgramAddress
    [Seed_text USER_STAKE_SEED; Seed_key bundlePda; Seed_key user] BUNDLY_PROGRAM_ID.

Definition deriveMintPda (creator : PublicKey) (nonce : Z) : Result PublicKey :=
  let! nonceBuffer := writeBigUInt64LE nonce in
  Ok (findProgramAddress
        [Seed_text MINT_SEED; Seed_key creator; Seed_text nonceBuffer]
        BUNDLY_PROGRAM_ID).

Definition deriveOrderPda (mint maker : PublicKey) (idSeed : Z) : Result PublicKey :=
  let! idSeedBuffer := writeBigUInt64LE idSeed in
  Ok (findProgramAddress
        [Seed_text ORDER_SEED; Seed_key mint; Seed_key maker; Seed_text idSeedBuffer]
        BUNDLY_PROGRAM_ID).

Definition deriveOrderVaultPda (orderPda : PublicKey) : PublicKey :=
  findProgramAddress [Seed_text ORDER_VAULT_SEED; Seed_key orderPda] BUNDLY_PROGRAM_ID.

Definition deriveGlobalFeeTokenAccount (mint : PublicKey) : Result PublicKey :=
  getAssociatedTokenAddressSync mint GLOBAL_FEE_WALLET false.

Definition deriveAllBundlePdas (mint : PublicKey) : AllBundlePdas :=
  let bundlePda := deriveBundlePda findProgramAddress mint in
  let escrowPda := deriveEscrowPda findProgramAddress mint in
  let tokenVaultPda := deriveTokenVaultPda mint in
  let feeVaultPda := deriveFeeVaultPda findProgramAddress mint in
  let stakingVaultPda := deriveStakingVaultPda findProgramAddress bundlePda in
  {| all_bundlePda := bundlePda;
     all_escrowPda := escrowPda;
     all_tokenVaultPda := tokenVaultPda;
     all_feeVaultPda := feeVaultPda;
     all_stakingVaultPda := stakingVaultPda |}.

(** [a || b] on an optional key. *)
Definition or_else (a : option PublicKey) (b : PublicKey) : PublicKey :=
  match a with
  | Some key => key
  | None => b
  end.

(** The default value of a numeric parameter. *)
Definition default_number (a : option Z) (d : Z) : Z :=
  match a with
  | Some n => n
  | None => d
  end.

Definition buildInitBundleInstruction
    (creator : PublicKey) (nonce : Z) (decimals : option Z)
    (capLamports totalSupply : Z) (unstakeCooldown : option Z)
    : Result InitBundleBuilt :=
  let decimals := default_number decimals 6 in
  let unstakeCooldown := default_number unstakeCooldown 86400 in
  let! mintPda := deriveMintPda creator nonce in
  let bundlePda := deriveBundlePda findProgramAddress mintPda in
  let escrowPda := deriveEscrowPda findProgramAddress mintPda in
  let! nonceBN := BN_new nonce in
  let! capLamportsBN := BN_new capLamports in
  let! totalSupplyBN := BN_new totalSupply in
  let! unstakeCooldownBN := BN_new unstakeCooldown in
  let ix :=
    {| call_name := "initBundle";
       call_args := [Ix_BN nonceBN; Ix_number decimals;
                     Ix_BN capLamportsBN; Ix_BN totalSupplyBN;
                     Ix_BN unstakeCooldownBN];
       call_accounts :=
         [ ("creator", creator);
           ("mint", mintPda);
           ("bundle", bundlePda);
           ("escrow", escrowPda);
           ("systemProgram", SystemProgram_programId);
           ("tokenProgram", TOKEN_PROGRAM_ID);
           ("rent", SYSVAR_RENT_PUBKEY) ] |} in
  Ok {| init_instruction := ix; init_mint := mintPda; init_bundle := bundlePda |}.

Definition buildSwapInstruction
    (mint user : PublicKey) (amountLamports : Z) (minTokensOut : option Z)
    : Result MethodCall :=
  let minTokensOut := default_number minTokensOut 0 in
  let bundlePda := deriveBundlePda findProgramAddress mint in
  let escrowPda := deriveEscrowPda findProgramAddress mint in
  let userStakePda := deriveUserStakePda bundlePda user in
  let! userTokenAccount := getAssociatedTokenAddressSync mint user false in
  let! amountLamportsBN := BN_new amountLamports in
  let! minTokensOutBN := BN_new minTokensOut in
  Ok {| call_name := "swap";
        call_args := [Ix_BN amountLamportsBN; Ix_BN minTokensOutBN];
        call_accounts :=
          [ ("buyer", user);
            ("bundle", bundlePda);
            ("escrow", escrowPda);
            ("mint", mint);
            ("buyerTokens", userTokenAccount);
            ("tokenProgram", TOKEN_PROGRAM_ID);
            ("systemProgram", SystemProgram_programId);
            ("globalFeeWallet", GLOBAL_FEE_WALLET);
            ("userStake", userStakePda) ] |}.

Definition buildPresaleExitInstruction
    (mint user : PublicKey) (amountBtoken : Z) : Result MethodCall :=
  let bundlePda := deriveBundlePda findProgramAddress mint in
  let escrowPda := deriveEscrowPda findProgramAddress mint in
  let userStakePda := deriveUserStakePda bundlePda user in
  let! userBtokenAccount := getAssociatedTokenAddressSync mint user false in
  let! amountBtokenBN := BN_new amountBtoken in
  Ok {| call_name := "presaleExit";
        call_args := [Ix_BN amountBtokenBN];
        call_accounts :=
          [ ("user", user);
            ("bundle", bundlePda);
            ("mint", mint);
            ("userBtoken", userBtokenAccount);
            ("escrow", escrowPda);
            ("userStake", userStakePda);
            ("globalFeeWallet", GLOBAL_FEE_WALLET);
            ("systemProgram", SystemProgram_programId);
            ("tokenProgram", TOKEN_PROGRAM_ID);
            ("associatedTokenProgram", ASSOCIATED_TOKEN_PROGRAM_ID) ] |}.

Definition buildDepositStakeInstruction
    (mint user : PublicKey) (amount : Z) (realMint : option PublicKey)
    : Result MethodCall :=
  let bundlePda := deriveBundlePda findProgramAddress mint in
  let userStakePda := deriveUserStakePda bundlePda user in
  let stakingVaultPda := deriveStakingVaultPda findProgramAddress bundlePda in
  let feeVaultPda := deriveFeeVaultPda findProgramAddress bundlePda in
  let resolvedRealMint := or_else realMint mint in
  let! userBtokenAccount := getAssociatedTokenAddressSync mint user false in
  let! userRealTokenAccount :=
    getAssociatedTokenAddressSync resolvedRealMint user false in
  let! amountBN := BN_new amount in
  Ok {| call_name := "depositStake";
        call_args := [Ix_BN amountBN];
        call_accounts :=
          [ ("user", user);
            ("bundle", bundlePda);
            ("mint", mint);
            ("realMint", resolvedRealMint);
            ("userRealToken", userRealTokenAccount);
            ("userBtoken", userBtokenAccount);
            ("stakingVault", stakingVaultPda);
            ("feeVault", feeVaultPda);
            ("userStake", userStakePda);
            ("tokenProgram", TOKEN_PROGRAM_ID);
            ("systemProgram", SystemProgram_programId) ] |}.

Definition buildPrepareUnstakeInstruction (mint user : PublicKey) : Result MethodCall :=
  let bundlePda := deriveBundlePda findProgramAddress mint in
  let userStakePda := deriveUserStakePda bundlePda user in
  let unstakeRequestPda := deriveUnstakeRequestPda bundlePda user in
  Ok {| call_name := "prepareUnstake";
        call_args := [];
        call_accounts :=
          [ ("user", user);
            ("bundle", bundlePda);
            ("mint", mint);
            ("unstakeRequest", unstakeRequestPda);
            ("userStake", userStakePda);
            ("systemProgram", SystemProgram_programId) ] |}.

Definition buildExecuteUnstakeInstruction
    (mint user : PublicKey) (amountBtoken : Z) (realMint : option PublicKey)
    : Result MethodCall :=
  let bundlePda := deriveBundlePda findProgramAddress mint in
  let userStakePda := deriveUserStakePda bundlePda user in
  let unstakeRequestPda := deriveUnstakeRequestPda bundlePda user in
  let! unstakeVaultPda := deriveUnstakeVaultPda mint None in
  let stakingVaultPda := deriveStakingVaultPda findProgramAddress bundlePda in
  let feeVaultPda := deriveFeeVaultPda findProgramAddress bundlePda in
  let resolvedRealMint := or_else realMint mint in
  let! globalFeeTokenAccount := deriveGlobalFeeTokenAccount resolvedRealMint in
  let! userBtokenAccount := getAssociatedTokenAddressSync mint user false in
  let! amountBtokenBN := BN_new amountBtoken in
  Ok {| call_name := "executeUnstake";
        call_args := [Ix_BN amountBtokenBN];
        call_accounts :=
          [ ("user", user);
            ("bundle", bundlePda);
            ("mint", mint);
            ("realMint", resolvedRealMint);
            ("userBtoken", userBtokenAccount);
            ("stakingVault", stakingVaultPda);
            ("feeVault", feeVaultPda);
            ("unstakeRequest", unstakeRequestPda);
            ("unstakeVault", unstakeVaultPda);
            ("userStake", userStakePda);
            ("tokenProgram", TOKEN_PROGRAM_ID);
            ("globalFeeTokenAccount", globalFeeTokenAccount);
            ("globalFeeWallet", GLOBAL_FEE_WALLET) ] |}.

Definition buildWithdrawUnstakedInstruction
    (mint user : PublicKey) (destination realMint : option PublicKey)
    : Result MethodCall :=
  let bundlePda := deriveBundlePda findProgramAddress mint in
  let userStakePda := deriveUserStakePda bundlePda user in
  let unstakeRequestPda := deriveUnstakeRequestPda bundlePda user in
  let! unstakeVaultPda := deriveUnstakeVaultPda mint None in
  let resolvedRealMint := or_else realMint mint in
  let! destinationAccount :=
    match destination with
    | Some account => Ok account
    | None => getAssociatedTokenAddressSync resolvedRealMint user false
    end in
  Ok {| call_name := "withdrawUnstaked";
        call_args := [];
        call_accounts :=
          [ ("user", user);
            ("bundle", bundlePda);
            ("mint", mint);
            ("realMint", resolvedRealMint);
            ("unstakeRequest", unstakeRequestPda);
            ("unstakeVault", unstakeVaultPda);
            ("destination", destinationAccount);
            ("userStake", userStakePda);
            ("tokenProgram", TOKEN_PROGRAM_ID);
            ("systemProgram", SystemProgram_programId) ] |}.

Definition buildClaimRewardsInstruction
    (mint user : PublicKey) (realMint : option PublicKey) : Result MethodCall :=
  let bundlePda := deriveBundlePda findProgramAddress mint in
  let userStakePda := deriveUserStakePda bundlePda user in
  let stakingVaultPda := deriveStakingVaultPda findProgramAddress bundlePda in
  let feeVaultPda := deriveFeeVaultPda findProgramAddress bundlePda in
  let resolvedRealMint := or_else realMint mint in
  let! globalFeeTokenAccount := deriveGlobalFeeTokenAccount resolvedRealMint in
  let! userBtokenAccount := getAssociatedTokenAddressSync mint user false in
  let! userRealTokenAccount :=
    getAssociatedTokenAddressSync resolvedRealMint user false in
  Ok {| call_name := "claimRewards";
        call_args := [];
        call_accounts :=
          [ ("user", user);
            ("bundle", bundlePda);
            ("mint", mint);
            ("realMint", resolvedRealMint);
            ("userBtoken", userBtokenAccount);
            ("userRealToken", userRealTokenAccount);
            ("stakingVault", stakingVaultPda);
            ("feeVault", feeVaultPda);
            ("userStake", userStakePda);
            ("tokenProgram", TOKEN_PROGRAM_ID);
            ("associatedTokenProgram", ASSOCIATED_TOKEN_PROGRAM_ID);
            ("systemProgram", SystemProgram_programId);
            ("globalFeeTokenAccount", globalFeeTokenAccount);
            ("globalFeeWallet", GLOBAL_FEE_WALLET) ] |}.

Definition account_meta (key : PublicKey) (signer writable : bool) : AccountMeta :=
  {| pubkey := key; isSigner := signer; isWritable := writable |}.

Definition buildClaimRewardsInstructionRaw
    (programId : option PublicKey) (mint user : PublicKey)
    (realMint : option PublicKey) : Result TransactionInstruction :=
  let bundlePda := deriveBundlePda findProgramAddress mint in
  let userStakePda := deriveUserStakePda bundlePda user in
  let stakingVaultPda := deriveStakingVaultPda findProgramAddress bundlePda in
  let feeVaultPda := deriveFeeVaultPda findProgramAddress bundlePda in
  let resolvedRealMint := or_else realMint mint in
  let! globalFeeTokenAccount := deriveGlobalFeeTokenAccount resolvedRealMint in
  let! userBtokenAccount := getAssociatedTokenAddressSync mint user false in
  let! userRealTokenAccount :=
    getAssociatedTokenAddressSync resolvedRealMint user false in
  let! data := getInstructionDiscriminator idl_instructions "claim_rewards" in
  let keys :=
    [ account_meta user true true;
      account_meta bundlePda false true;
      account_meta mint false true;
      account_meta resolvedRealMint false false;
      account_meta userBtokenAccount false true;
      account_meta userRealTokenAccount false true;
      account_meta stakingVaultPda false true;
      account_meta feeVaultPda false true;
      account_meta userStakePda false true;
      account_meta TOKEN_PROGRAM_ID false false;
      account_meta ASSOCIATED_TOKEN_PROGRAM_ID false false;
      account_meta SystemProgram_programId false false;
      account_meta globalFeeTokenAccount false true;
      account_meta GLOBAL_FEE_WALLET false false ] in
  Ok {| ti_programId := or_else programId BUNDLY_PROGRAM_ID;
        ti_keys := keys;
        ti_data := data |}.

Definition buildCreateOrderInstruction
    (mint maker : PublicKey) (amount price : Z) (isBuySide : bool) (idSeed : Z)
    : Result CreateOrderBuilt :=
  let bundlePda := deriveBundlePda findProgramAddress mint in
  let userStakePda := deriveUserStakePda bundlePda maker in
  let! orderPda := deriveOrderPda mint maker idSeed in
  let orderVaultPda := deriveOrderVaultPda orderPda in
  let! makerTokenAccount := getAssociatedTokenAddressSync mint maker false in
  let! amountBN := BN_new amount in
  let! priceBN := BN_new price in
  let! idSeedBN := BN_new idSeed in
  let ix :=
    {| call_name := "createOrder";
       call_args := [Ix_BN amountBN; Ix_BN priceBN;
                     Ix_bool isBuySide; Ix_BN idSeedBN];
       call_accounts :=
         [ ("maker", maker);
           ("order", orderPda);
           ("orderVault", orderVaultPda);
           ("makerTokenAccount", makerTokenAccount);
           ("mint", mint);
           ("bundle", bundlePda);
           ("userStake", userStakePda);
           ("systemProgram", SystemProgram_programId);
           ("tokenProgram", TOKEN_PROGRAM_ID) ] |} in
  Ok {| order_instruction := ix; order_order := orderPda |}.

Definition buildFillOrderInstruction
    (mint taker maker orderPda : PublicKey) : Result MethodCall :=
  let bundlePda := deriveBundlePda findProgramAddress mint in
  let takerStakePda := deriveUserStakePda bundlePda taker in
  let makerStakePda := deriveUserStakePda bundlePda maker in
  let orderVaultPda := deriveOrderVaultPda orderPda in
  let! takerTokenAccount := getAssociatedTokenAddressSync mint taker false in
  let! makerTokenAccount := getAssociatedTokenAddressSync mint maker false in
  Ok {| call_name := "fillOrder";
        call_args := [];
        call_accounts :=
          [ ("taker", taker);
            ("maker", maker);
            ("order", orderPda);
            ("orderVault", orderVaultPda);
            ("mint", mint);
            ("bundle", bundlePda);
            ("takerStake", takerStakePda);
            ("makerStake", makerStakePda);
            ("takerTokenAccount", takerTokenAccount);
            ("makerTokenAccount", makerTokenAccount);
            ("tokenProgram", TOKEN_PROGRAM_ID);
            ("associatedTokenProgram", ASSOCIATED_TOKEN_PROGRAM_ID);
            ("systemProgram", SystemProgram_programId) ] |}.

Definition buildCancelOrderInstruction
    (mint maker orderPda : PublicKey) : Result MethodCall :=
  let orderVaultPda := deriveOrderVaultPda orderPda in
  let! makerTokenAccount := getAssociatedTokenAddressSync mint maker false in
  Ok {| call_name := "cancelOrder";
        call_args := [];
        call_accounts :=
          [ ("maker", maker);
            ("order", orderPda);
            ("orderVault", orderVaultPda);
            ("mint", mint);
            ("makerTokenAccount", makerTokenAccount);
            ("tokenProgram", TOKEN_PROGRAM_ID);
            ("systemProgram", SystemProgram_programId) ] |}.
End Builders.

(** A collision-free stand-in for [findProgramAddress] on concrete keys: the
    seeds written one after the other. *)
Fixpoint concat_findProgramAddress (seeds : list Seed) (programId : PublicKey)
    : PublicKey :=
  match seeds with
  | [] => EmptyString
  | Seed_text s :: rest => s ++ concat_findProgramAddress rest programId
  | Seed_key key :: rest => key ++ concat_findProgramAddress rest programId
  end.

(** An associated-token address that accepts every owner. *)
Definition concat_getAssociatedTokenAddressSync
    (mint owner : PublicKey) (allowOwnerOffCurve : bool) : Result PublicKey :=
  Ok (owner ++ ":" ++ mint).

(** * JavaScript values and the outside world *)

(** Parsed JSON, and the values of optional properties.  Numbers are the
    integers. *)
#[warnings="-register-all"]
Inductive Json : Type :=
| J_null
| J_bool (b : bool)
| J_number (n : Z)
| J_string (s : string)
| J_array (items : list Json)
| J_object (fields : list (string * Json)).

(** A property that may be absent: [None] is [undefined]. *)
Definition JsValue : Type := option Json.

(** Truthiness, as [!v], [a || b] and [if (v)] see it. *)
Definition truthy (v : JsValue) : bool :=
  match v with
  | None => false
  | Some J_null => false
  | Some (J_bool b) => b
  | Some (J_number n) => negb (n =? 0)
  | Some (J_string s) => negb (String.eqb s "")
  | Some (J_array _) => true
  | Some (J_object _) => true
  end.

(** [a || b] *)
Definition js_or (a b : JsValue) : JsValue := if truthy a then a else b.

Fixpoint lookup_field (name : string) (fields : list (string * Json)) : JsValue :=
  match fields with
  | [] => None
  | (n, v) :: rest => if String.eqb n name then Some v else lookup_field name rest
  end.

(** [data.name]: reading a property of [null] throws; strings, numbers,
    booleans and arrays have none of the properties read here. *)
Definition get_property (data : Json) (name : string) : Result JsValue :=
  match data with
  | J_null => Throw (TypeError_of_undefined name)
  | J_object fields => Ok (lookup_field name fields)
  | _ => Ok None
  end.

(** An object literal whose [undefined] properties [JSON.stringify] drops. *)
Fixpoint object_of (fields : list (string * JsValue)) : list (string * Json) :=
  match fields with
  | [] => []
  | (n, Some v) :: rest => (n, v) :: object_of rest
  | (_, None) :: rest => object_of rest
  end.

Inductive HttpBody : Type :=
| Body_absent
| Body_form_file (path : string)     (* FormData with one file stream *)
| Body_json (value : Json).          (* JSON.stringify(value) *)

Record HttpRequest : Type := {
  req_method : string;
  req_url : string;
  req_headers : list (string * string);
  req_body : HttpBody
}.

(** [resp_json] is [None] when [response.json()] rejects. *)
Record HttpResponse : Type := {
  resp_ok : bool;
  resp_status : Z;
  resp_statusText : string;
  resp_json : option Json
}.

(** Console statements of src/metadata.js (the second part of
    src/accounts.js, lines 193-350), with the values they print. *)
Inductive ConsoleLine : Type :=
| Warn_no_upload_key (what : string)          (* lines 218-219, 260-261 *)
| Error_upload (label : string) (e : Error)   (* lines 242, 304 *)
| Log_uploading (name symbol imagePath : JsValue)   (* lines 321-325 *)
| Log_uploading_image                         (* line 328 *)
| Log_image_uploaded (imageUri : string)      (* line 330 *)
| Log_uploading_metadata                      (* line 333 *)
| Log_metadata_uploaded (metadataUri : string). (* lines 340-341 *)

Inductive IoEvent : Type :=
| Http (request : HttpRequest)
| Console (line : ConsoleLine).

(** ** Computations that send requests, print and throw *)

Module IO.
Definition M (A : Type) : Type := list IoEvent -> Result A * list IoEvent.

Definition ret {A} (a : A) : M A := fun tr => (Ok a, tr).

Definition throw {A} (e : Error) : M A := fun tr => (Throw e, tr).

Definition bind {A B} (m : M A) (f : A -> M B) : M B :=
  fun tr =>
    match m tr with
    | (Ok a, tr') => f a tr'
    | (Throw e, tr') => (Throw e, tr')
    end.

Definition emit (e : IoEvent) : M unit := fun tr => (Ok tt, (tr ++ [e])%list).

Definition lift {A} (r : Result A) : M A := fun tr => (r, tr).

(** [try { body } catch (error) { handler(error) }] *)
Definition try_catch {A} (body : M A) (handler : Error -> M A) : M A :=
  fun tr =>
    match body tr with
    | (Ok a, tr') => (Ok a, tr')
    | (Throw e, tr') => handler e tr'
    end.
End IO.

Notation "x <~ m ;; k" := (IO.bind m (fun x => k))
  (at level 61, m at next level, right associativity).
Notation "m ~;; k" := (IO.bind m (fun _ => k))
  (at level 61, right associativity).

Definition result_of_io {A} (r : Result A * list IoEvent) : Result A := fst r.
Definition trace_of_io {A} (r : Result A * list IoEvent) : list IoEvent := snd r.

(** The requests a run sent, in order. *)
Fixpoint requests_of (tr : list IoEvent) : list HttpRequest :=
  match tr with
  | [] => []
  | Http r :: rest => r :: requests_of rest
  | Console _ :: rest => requests_of rest
  end.

(** The network: the answer to each request, or none when [fetch] rejects. *)
Record Network : Type := {
  respond : HttpRequest -> option HttpResponse
}.

Definition fetch (network : Network) (request : HttpRequest) : IO.M HttpResponse :=
  IO.emit (Http request) ~;;
  match respond network request with
  | Some response => IO.ret response
  | None => IO.throw (Collaborator_error "fetch")
  end.

(** [await response.json()] *)
Definition response_json (response : HttpResponse) : IO.M Json :=
  match resp_json response with
  | Some data => IO.ret data
  | None => IO.throw (Collaborator_error "json")
  end.

(** The process environment and the file system, as far as they are read. *)
Record Environment : Type := {
  PINATA_JWT : JsValue;
  NFT_STORAGE_KEY : JsValue;
  existsSync : string -> bool
}.

Section JavaScript.
(** [String(v)] and [`${v}`] for a value that is not a string. *)
Variable ToString : JsValue -> string.

(** A value inside a template literal. *)
Definition template (v : JsValue) : string :=
  match v with
  | Some (J_string s) => s
  | _ => ToString v
  end.

(** * Metadata upload (src/accounts.js, lines 193-350) *)

Variable network : Network.
Variable env : Environment.

(** What one request to the pinning service comes to, as lines 227-240 and
    283-302 treat the answer: the address returned, or the error thrown.
    [failure] is the text put before the status of a refused request. *)
Definition pin_outcome (failure : string) (request : HttpRequest) : Result string :=
  match respond network request with
  | None => Throw (Collaborator_error "fetch")
  | Some response =>
      if negb (resp_ok response) then
        Throw (Error_message (failure ++ resp_statusText response))
      else
        match resp_json response with
        | None => Throw (Collaborator_error "json")
        | Some data =>
            match get_property data "IpfsHash" with
            | Throw e => Throw e
            | Ok IpfsHash => Ok ("ipfs://" ++ template IpfsHash)
            end
        end
  end.

(** The request of lines 227-233. *)
Definition pinFile_request (JWT : JsValue) (imagePath : string) : HttpRequest :=
  {| req_method := "POST";
     req_url := "https://api.pinata.cloud/pinning/pinFileToIPFS";
     req_headers := [("Authorization", "Bearer " ++ template JWT)];
     req_body := Body_form_file imagePath |}.

Definition uploadImageToIPFS (imagePath : string) : IO.M string :=
  if negb (existsSync env imagePath) then
    IO.throw (Error_message ("Image file not found: " ++ imagePath))
  else
    let JWT := js_or (PINATA_JWT env) (NFT_STORAGE_KEY env) in
    if negb (truthy JWT) then
      IO.emit (Console (Warn_no_upload_key "IPFS")) ~;;
      IO.ret "ipfs://QmTest123456789"
    else
      IO.try_catch
        (response <~ fetch network
           (pinFile_request JWT imagePath) ;;
         if negb (resp_ok response) then
           IO.throw (Error_message ("IPFS upload failed: " ++ resp_statusText response))
         else
           data <~ response_json response ;;
           IpfsHash <~ IO.lift (get_property data "IpfsHash") ;;
           IO.ret ("ipfs://" ++ template IpfsHash))
        (fun error =>
           IO.emit (Console (Error_upload "IPFS upload error:" error)) ~;;
           IO.throw error).

(** The [metadata] argument of [uploadMetadataToIPFS]. *)
Record Metadata : Type := {
  meta_name : JsValue;
  meta_symbol : JsValue;
  meta_description : JsValue;
  meta_image : JsValue;
  meta_attributes : JsValue;
  meta_creators : JsValue
}.

Definition metadataJson (metadata : Metadata) : Json :=
  J_object (object_of
    [ ("name", meta_name metadata);
      ("symbol", meta_symbol metadata);
      ("description", meta_description metadata);
      ("image", meta_image metadata);
      ("attributes", js_or (meta_attributes metadata) (Some (J_array [])));
      ("properties",
       Some (J_object (object_of
         [ ("files",
            Some (J_array
              [ J_object (object_of
                  [ ("uri", meta_image metadata);
                    ("type", Some (J_string "image/png")) ]) ]));
           ("category", Some (J_string "image"));
           ("creators", js_or (meta_creators metadata) (Some (J_array []))) ]))) ]).

(** The request of lines 283-295. *)
Definition pinJSON_request (JWT : JsValue) (metadata : Metadata) : HttpRequest :=
  {| req_method := "POST";
     req_url := "https://api.pinata.cloud/pinning/pinJSONToIPFS";
     req_headers := [ ("Authorization", "Bearer " ++ template JWT);
                      ("Content-Type", "application/json") ];
     req_body :=
       Body_json (J_object
         [ ("pinataContent", metadataJson metadata);
           ("pinataMetadata",
            J_object
              [ ("name",
                 J_string (template (meta_symbol metadata) ++ "_metadata.json")) ]) ]) |}.

Definition uploadMetadataToIPFS (metadata : Metadata) : IO.M string :=
  let JWT := js_or (PINATA_JWT env) (NFT_STORAGE_KEY env) in
  if negb (truthy JWT) then
    IO.emit (Console (Warn_no_upload_key "metadata")) ~;;
    IO.ret "ipfs://QmTestMetadata123456789"
  else
    IO.try_catch
      (response <~ fetch network
         (pinJSON_request JWT metadata) ;;
       if negb (resp_ok response) then
         IO.throw (Error_message ("Metadata upload failed: " ++ resp_statusText response))
       else
         data <~ response_json response ;;
         IpfsHash <~ IO.lift (get_property data "IpfsHash") ;;
         IO.ret ("ipfs://" ++ template IpfsHash))
      (fun error =>
         IO.emit (Console (Error_upload "Metadata upload error:" error)) ~;;
         IO.throw error).

(** The [options] argument of [uploadBundleMetadata]. *)
Record UploadOptions : Type := {
  opt_imagePath : string;
  opt_name : JsValue;
  opt_symbol : JsValue;
  opt_description : JsValue
}.

(** The object of lines 334-339. *)
Definition bundle_metadata (name symbol description : JsValue) (imageUri : string)
    : Metadata :=
  {| meta_name := name;
     meta_symbol := symbol;
     meta_description := description;
     meta_image := Some (J_string imageUri);
     meta_attributes := None;
     meta_creators := None |}.

Definition uploadBundleMetadata (options : UploadOptions) : IO.M string :=
  let imagePath := opt_imagePath options in
  let name := opt_name options in
  let symbol := opt_symbol options in
  let description := opt_description options in
  IO.emit (Console (Log_uploading name symbol (Some (J_string imagePath)))) ~;;
  IO.emit (Console Log_uploading_image) ~;;
  imageUri <~ uploadImageToIPFS imagePath ;;
  IO.emit (Console (Log_image_uploaded imageUri)) ~;;
  IO.emit (Console Log_uploading_metadata) ~;;
  metadataUri <~ uploadMetadataToIPFS
    (bundle_metadata name symbol description imageUri) ;;
  IO.emit (Console (Log_metadata_uploaded metadataUri)) ~;;
  IO.ret metadataUri.
End JavaScript.

(** Concrete collaborators for checking statements on examples. *)
Definition example_ToString (v : JsValue) : string := "undefined".

Definition example_pin_response (hash : string) : HttpResponse :=
  {| resp_ok := true;
     resp_status := 200;
     resp_statusText := "OK";
     resp_json := Some (J_object [("IpfsHash", J_string hash)]) |}.

Definition example_network : Network :=
  {| respond := fun request =>
       if String.eqb (req_url request)
            "https://api.pinata.cloud/pinning/pinFileToIPFS"
       then Some (example_pin_response "QmImage")
       else Some (example_pin_response "QmDocument") |}.

Definition example_env (key : JsValue) : Environment :=
  {| PINATA_JWT := None;
     NFT_STORAGE_KEY := key;
     existsSync := fun _ => true |}.

Definition example_options : UploadOptions :=
  {| opt_imagePath := "logo.png";
     opt_name := Some (J_string "Token");
     opt_symbol := Some (J_string "TKN");
     opt_description := None |}.

(** * Wallet authentication headers (src/clawAuth.js) *)

Record Keypair : Type := {
  kp_publicKey : option PublicKey;
  kp_secretKey : option string
}.

Definition header_named (name : string) (headers : list (string * string))
    : option string :=
  match find (fun h => String.eqb (fst h) name) headers with
  | Some h => Some (snd h)
  | None => None
  end.

(** [s.startsWith('/')] *)
Definition starts_with_slash (s : string) : bool :=
  match s with
  | String c _ => Ascii.eqb c "/"
  | EmptyString => false
  end.

(** [baseUrl.replace(/\/$/, '')]: one slash at the very end is removed. *)
Fixpoint strip_trailing_slash (s : string) : string :=
  match s with
  | EmptyString => EmptyString
  | String c EmptyString => if Ascii.eqb c "/" then EmptyString else s
  | String c rest => String c (strip_trailing_slash rest)
  end.

(** * The HTTP client (src/ClawClient.js) *)

Record ClawClient : Type := {
  baseUrl : string;
  wallet : Keypair;
  apiKey : JsValue
}.

Definition ClawClient_new (baseUrl : option string) (wallet : option Keypair)
    : Result ClawClient :=
  let baseUrl :=
    match baseUrl with
    | Some url => url
    | None => "https://claw.bundly.fun"
    end in
  match wallet with
  | None => Throw (Error_message "wallet keypair is required")
  | Some wallet =>
      Ok {| baseUrl := strip_trailing_slash baseUrl;
            wallet := wallet;
            apiKey := Some J_null |}
  end.

Definition withApiKey (client : ClawClient) (apiKey : JsValue) : ClawClient :=
  {| baseUrl := baseUrl client; wallet := wallet client; apiKey := apiKey |}.

Section Claw.
Variable ToString : JsValue -> string.
(** [String(n)] and [`${n}`] for a number. *)
Variable Number_toString : Z -> string.
(** tweetnacl's detached signature of a message under a secret key, and the
    base58 text of bytes. *)
Variable sign_detached : string -> string -> string.
Variable bs58_encode : string -> string.
(** [new URL(base)], the search parameters set in order, [toString()]. *)
Variable URL_with_params : string -> list (string * string) -> Result string.
Variable network : Network.

(** The signed text of line 23. *)
Definition auth_message (action timestamp nonce : string) : string :=
  "bundly-auth:" ++ action ++ ":" ++ timestamp ++ ":" ++ nonce.

(** [timestamp] and [nonce] are the values the parameters have after their
    defaults ([Date.now()] and sixteen random bytes in hexadecimal). *)
Definition buildClawWalletAuthHeaders
    (keypair : option Keypair) (action : JsValue) (timestamp : Z) (nonce : string)
    : Result (list (string * string)) :=
  match keypair with
  | Some {| kp_publicKey := Some publicKey; kp_secretKey := Some secretKey |} =>
      match action with
      | Some (J_string path) =>
          if starts_with_slash path then
            let message := auth_message path (Number_toString timestamp) nonce in
            let sigBytes := sign_detached message secretKey in
            Ok [ ("x-wallet-address", publicKey);
                 ("x-wallet-signature", bs58_encode sigBytes);
                 ("x-wallet-timestamp", Number_toString timestamp);
                 ("x-wallet-nonce", nonce);
                 ("x-wallet-action", path) ]
          else Throw (Error_message "action must be a path like /api/v1/agents/login")
      | _ => Throw (Error_message "action must be a path like /api/v1/agents/login")
      end
  | _ => Throw (Error_message "keypair is required")
  end.

(** [await res.json().catch(() => ({}))] *)
Definition json_or_empty (response : HttpResponse) : Json :=
  match resp_json response with
  | Some data => data
  | None => J_object []
  end.

(** [new Error(data.details || data.error || fallback)] *)
Definition failure_of (data : Json) (fallback : string) : Result Error :=
  let! details := get_property data "details" in
  let! error := get_property data "error" in
  Ok (Error_message
        (template ToString (js_or (js_or details error) (Some (J_string fallback))))).

(** The request of [registerAgent] and of [loginAgent]: the JSON content
    type followed by the authentication headers. *)
Definition agent_http_request (action : string) (body : Json)
    (client : ClawClient) (auth : list (string * string)) : HttpRequest :=
  {| req_method := "POST";
     req_url := baseUrl client ++ action;
     req_headers := (("Content-Type", "application/json") :: auth)%list;
     req_body := Body_json body |}.

(** The common part of [registerAgent] and [loginAgent]. *)
Definition agent_request (what action : string) (body : Json)
    (now : Z) (random_nonce : string) (client : ClawClient)
    : IO.M (Json * ClawClient) :=
  auth <~ IO.lift (buildClawWalletAuthHeaders (Some (wallet client))
                     (Some (J_string action)) now random_nonce) ;;
  res <~ fetch network (agent_http_request action body client auth) ;;
  let data := json_or_empty res in
  if negb (resp_ok res) then
    e <~ IO.lift (failure_of data
                    (what ++ " failed (" ++ Number_toString (resp_status res) ++ ")")) ;;
    IO.throw e
  else
    api_key <~ IO.lift (get_property data "api_key") ;;
    IO.ret (data, withApiKey client api_key).

Definition registerAgent (name description : JsValue)
    (now : Z) (random_nonce : string) (client : ClawClient)
    : IO.M (Json * ClawClient) :=
  agent_request "Register" "/api/v1/agents/register"
    (J_object (object_of [("name", name); ("description", description)]))
    now random_nonce client.

Definition loginAgent (now : Z) (random_nonce : string) (client : ClawClient)
    : IO.M (Json * ClawClient) :=
  agent_request "Login" "/api/v1/agents/login" (J_object [])
    now random_nonce client.

Definition _authHeaders (client : ClawClient) : Result (list (string * string)) :=
  if negb (truthy (apiKey client)) then
    Throw (Error_message "Missing apiKey. Call loginAgent() or registerAgent() first.")
  else Ok [("Authorization", "Bearer " ++ template ToString (apiKey client))].

(** The tail shared by [getMe], [listBundles] and [createPost]. *)
Definition data_or_failure (what : string) (res : HttpResponse) : IO.M Json :=
  let data := json_or_empty res in
  if negb (resp_ok res) then
    e <~ IO.lift (failure_of data
                    (what ++ " failed (" ++ Number_toString (resp_status res) ++ ")")) ;;
    IO.throw e
  else IO.ret data.

Definition getMe (client : ClawClient) : IO.M Json :=
  auth <~ IO.lift (_authHeaders client) ;;
  res <~ fetch network
    {| req_method := "GET";
       req_url := baseUrl client ++ "/api/v1/agents/me";
       req_headers := auth;
       req_body := Body_absent |} ;;
  data_or_failure "getMe" res.

(** The entries of [params] that are neither [undefined] nor [null], as
    text. *)
Fixpoint search_params (params : list (string * JsValue)) : list (string * string) :=
  match params with
  | [] => []
  | (_, None) :: rest => search_params rest
  | (_, Some J_null) :: rest => search_params rest
  | (k, v) :: rest => (k, template ToString v) :: search_params rest
  end.

Definition listBundles (params : list (string * JsValue)) (client : ClawClient)
    : IO.M Json :=
  url <~ IO.lift (URL_with_params (baseUrl client ++ "/api/v1/bundles")
                    (search_params params)) ;;
  auth <~ IO.lift (_authHeaders client) ;;
  res <~ fetch network
    {| req_method := "GET";
       req_url := url;
       req_headers := auth;
       req_body := Body_absent |} ;;
  data_or_failure "listBundles" res.

Definition createPost (bundleMint content : JsValue) (client : ClawClient)
    : IO.M Json :=
  if negb (truthy bundleMint) then IO.throw (Error_message "bundleMint is required")
  else
    match content with
    | Some (J_string text) =>
        if String.eqb text "" then IO.throw (Error_message "content must be a string")
        else
          auth <~ IO.lift (_authHeaders client) ;;
          res <~ fetch network
            {| req_method := "POST";
               req_url := baseUrl client ++ "/api/v1/posts/"
                            ++ template ToString bundleMint;
               req_headers := (("Content-Type", "application/json") :: auth)%list;
               req_body := Body_json (J_object [("content", J_string text)]) |} ;;
          data_or_failure "createPost" res
    | _ => IO.throw (Error_message "content must be a string")
    end.
End Claw.

(** Concrete collaborators for checking statements on examples. *)
Definition example_Number_toString (n : Z) : string :=
  if n =? 1700000000000 then "1700000000000" else "0".

Definition example_sign (message secretKey : string) : string :=
  secretKey ++ "|" ++ message.

Definition example_bs58 (bytes : string) : string := bytes.

Definition example_wallet : Keypair :=
  {| kp_publicKey := Some "AgentPublicKey"; kp_secretKey := Some "secret" |}.

Definition example_client : ClawClient :=
  {| baseUrl := "https://claw.bundly.fun";
     wallet := example_wallet;
     apiKey := Some J_null |}.

Definition example_login_response (ok : bool) (fields : list (string * Json))
    : HttpResponse :=
  {| resp_ok := ok;
     resp_status := if ok then 200 else 401;
     resp_statusText := if ok then "OK" else "Unauthorized";
     resp_json := Some (J_object fields) |}.

Definition example_login_network (ok : bool) (fields : list (string * Json)) : Network :=
  {| respond := fun _ => Some (example_login_response ok fields) |}.

(** * The agent (src/BundlyAgent.js) *)

(** A [mint] argument: base58 text, turned into a key by [new PublicKey],
    or a key. *)
Inductive KeyArg : Type :=
| Key_text (text : string)
| Key_object (key : PublicKey).

Inductive TxInstruction : Type :=
| Tx_call (call : MethodCall)
| Tx_finalize (ix : Instruction)
| Tx_setComputeUnitLimit (units : Z).

(** A transaction as it is handed to [serialize]: the instructions added,
    the block hash and fee payer set, and the keys it was signed with. *)
Record Transaction : Type := {
  tx_instructions : list TxInstruction;
  tx_recentBlockhash : string;
  tx_feePayer : PublicKey;
  tx_signers : list PublicKey
}.

Inductive RpcCall : Type :=
| Call_getLatestBlockhash
| Call_sendRawTransaction (transaction : Transaction)
| Call_confirmTransaction (signature blockhash : string) (lastValidBlockHeight : Z)
| Call_getAccountInfo (account : PublicKey).

(** Console statements of the methods modelled, with the values printed. *)
Inductive AgentLine : Type :=
| Line_finalizing (mint : PublicKey) (name symbol : string)   (* lines 200-204 *)
| Line_metadata_uri (tokenUri : string)                       (* line 221 *)
| Line_generated_mint (pumpfunMint : PublicKey)               (* lines 225-226 *)
| Line_building_finalize                                      (* lines 229-230 *)
| Line_transaction_sent (signature : string)         (* lines 260-261, 708-709 *)
| Line_finalized (pumpfunMint : PublicKey) (tokenUri : string)  (* lines 269-271 *)
| Line_executing_unstake (mint : PublicKey)                   (* lines 441-443 *)
| Line_unstake_executed                                       (* line 455 *)
| Line_withdrawing (mint : PublicKey)                         (* lines 465-466 *)
| Line_withdrawn                                              (* line 478 *)
| Line_transaction_confirmed.                                 (* line 717 *)

Inductive AgentEvent : Type :=
| Agent_console (line : AgentLine)
| Agent_rpc (call : RpcCall)
| Agent_keygen (generated : PublicKey)     (* Keypair.generate() *)
| Agent_estimator (e : Event)              (* inside buildFinalizePumpfunInstruction *)
| Agent_upload (e : IoEvent).              (* inside uploadBundleMetadata *)

Definition is_rpc (e : AgentEvent) : bool :=
  match e with
  | Agent_rpc _ => true
  | _ => false
  end.

Definition is_upload (e : AgentEvent) : bool :=
  match e with
  | Agent_upload _ => true
  | _ => false
  end.

(** The transactions a run handed to [sendRawTransaction], in order. *)
Fixpoint sent_transactions (tr : list AgentEvent) : list Transaction :=
  match tr with
  | [] => []
  | Agent_rpc (Call_sendRawTransaction t) :: rest => t :: sent_transactions rest
  | _ :: rest => sent_transactions rest
  end.

(** The upload events of a run, in order. *)
Fixpoint uploads_of (tr : list AgentEvent) : list IoEvent :=
  match tr with
  | [] => []
  | Agent_upload e :: rest => e :: uploads_of rest
  | _ :: rest => uploads_of rest
  end.

Module Agent.
Definition M (A : Type) : Type := list AgentEvent -> Result A * list AgentEvent.

Definition ret {A} (a : A) : M A := fun tr => (Ok a, tr).

Definition throw {A} (e : Error) : M A := fun tr => (Throw e, tr).

Definition bind {A B} (m : M A) (f : A -> M B) : M B :=
  fun tr =>
    match m tr with
    | (Ok a, tr') => f a tr'
    | (Throw e, tr') => (Throw e, tr')
    end.

Definition emit (e : AgentEvent) : M unit := fun tr => (Ok tt, (tr ++ [e])%list).

Definition lift {A} (r : Result A) : M A := fun tr => (r, tr).

Definition try_catch {A} (body : M A) (handler : Error -> M A) : M A :=
  fun tr =>
    match body tr with
    | (Ok a, tr') => (Ok a, tr')
    | (Throw e, tr') => handler e tr'
    end.

(** An upload, with the requests and console lines it leaves. *)
Definition of_io {A} (m : IO.M A) : M A :=
  fun tr =>
    let (r, events) := m [] in
    (r, (tr ++ map Agent_upload events)%list).

(** An instruction builder that runs the estimator. *)
Definition of_eff {A} (m : Eff.M A) : M A :=
  fun tr =>
    match m [] with
    | (Some a, events) => (Ok a, (tr ++ map Agent_estimator events)%list)
    | (None, events) =>
        (Throw (Collaborator_error "builder"),
         (tr ++ map Agent_estimator events)%list)
    end.
End Agent.

Notation "x <~~ m ;; k" := (Agent.bind m (fun x => k))
  (at level 61, m at next level, right associativity).
Notation "m ~~;; k" := (Agent.bind m (fun _ => k))
  (at level 61, right associativity).

(** The other methods of the connection: the answer, or the error, of each
    request. *)
Record Chain : Type := {
  latestBlockhash : Result (string * Z);
  sendRaw : string -> Result string;
  confirm : string -> Result unit;
  accountInfo : PublicKey -> Result (option string)
}.

Record BundlyAgent : Type := {
  agent_publicKey : PublicKey;
  agent_network : string;
  agent_program : Program;
  agent_chain : Chain
}.

(** The [options] of [finalize].  The name and the symbol are strings
    (possibly empty), as the instruction takes them; the other properties
    are strings or absent. *)
Record FinalizeOptions : Type := {
  fo_imagePath : option string;
  fo_name : string;
  fo_symbol : string;
  fo_description : option string;
  fo_metadataUri : option string
}.

(** [!s] on an optional string. *)
Definition falsy_text (s : option string) : bool :=
  match s with
  | Some text => String.eqb text ""
  | None => true
  end.

Definition text_or_empty (s : option string) : string :=
  match s with
  | Some text => text
  | None => EmptyString
  end.

Definition text_value (s : option string) : JsValue :=
  match s with
  | Some text => Some (J_string text)
  | None => None
  end.

Definition result_of_agent {A} (r : Result A * list AgentEvent) : Result A := fst r.
Definition trace_of_agent {A} (r : Result A * list AgentEvent) : list AgentEvent :=
  snd r.

Record Finalized : Type := {
  fin_signature : string;
  fin_pumpfunMint : PublicKey;
  fin_metadataUri : string
}.

Record StakingInfo : Type := {
  staked : Z;
  rewards : Z;
  raw : option string
}.

Section AgentMethods.
Variable findProgramAddress : list Seed -> PublicKey -> PublicKey.
Variable getAssociatedTokenAddressSync :
  PublicKey -> PublicKey -> bool -> Result PublicKey.
Variables TOKEN_PROGRAM_ID ASSOCIATED_TOKEN_PROGRAM_ID : PublicKey.
Variables SystemProgram_programId SYSVAR_RENT_PUBKEY : PublicKey.
Variable ToString : JsValue -> string.
Variable network : Network.
Variable env : Environment.
(** [new PublicKey(text)], which throws on text that is no key. *)
Variable PublicKey_new : string -> Result PublicKey.
(** [transaction.sign(...)] followed by [transaction.serialize()]. *)
Variable sign_and_serialize : Transaction -> Result string.
(** An amount as the caller writes it (a JavaScript number), the test
    [!amount || amount <= 0] and [Math.floor(amount * Math.pow(10, 6))]. *)
Variable Amount : Type.
Variable amount_rejected : Amount -> bool.
Variable to_base_units : Amount -> Z.

Definition resolve_key (mint : KeyArg) : Result PublicKey :=
  match mint with
  | Key_text text => PublicKey_new text
  | Key_object key => Ok key
  end.

Definition sendAndConfirm (agent : BundlyAgent) (instructions : list TxInstruction)
    : Agent.M string :=
  Agent.emit (Agent_rpc Call_getLatestBlockhash) ~~;;
  latest <~~ Agent.lift (latestBlockhash (agent_chain agent)) ;;
  let blockhash := fst latest in
  let lastValidBlockHeight := snd latest in
  let transaction :=
    {| tx_instructions := instructions;
       tx_recentBlockhash := blockhash;
       tx_feePayer := agent_publicKey agent;
       tx_signers := [agent_publicKey agent] |} in
  serialized <~~ Agent.lift (sign_and_serialize transaction) ;;
  Agent.emit (Agent_rpc (Call_sendRawTransaction transaction)) ~~;;
  signature <~~ Agent.lift (sendRaw (agent_chain agent) serialized) ;;
  Agent.emit (Agent_console (Line_transaction_sent signature)) ~~;;
  Agent.emit (Agent_rpc (Call_confirmTransaction signature blockhash
                           lastValidBlockHeight)) ~~;;
  Agent.lift (confirm (agent_chain agent) signature) ~~;;
  Agent.emit (Agent_console Line_transaction_confirmed) ~~;;
  Agent.ret signature.

(** The parameter object of lines 231-240: no [minTokensOut]. *)
Definition finalize_params (agent : BundlyAgent) (mintPubkey generated : PublicKey)
    (name symbol tokenUri : string) : FinalizeParams :=
  {| param_program := agent_program agent;
     param_mint := mintPubkey;
     param_payer := agent_publicKey agent;
     param_pumpfunMint := generated;
     param_tokenName := name;
     param_tokenSymbol := symbol;
     param_tokenUri := tokenUri;
     param_minTokensOut := Arg_undefined |}.

(** The finalize instruction for a given fourth argument, with the accounts
    of the builder. *)
Definition finalize_instruction (agent : BundlyAgent) (mintPubkey generated : PublicKey)
    (name symbol tokenUri : string) (minTokens : BN.t) : Instruction :=
  {| ix_tokenName := name;
     ix_tokenSymbol := symbol;
     ix_tokenUri := tokenUri;
     ix_minTokensOut := minTokens;
     ix_accounts :=
       finalize_accounts findProgramAddress TOKEN_PROGRAM_ID
         ASSOCIATED_TOKEN_PROGRAM_ID SystemProgram_programId SYSVAR_RENT_PUBKEY
         (agent_publicKey agent) mintPubkey generated |}.

(** The transaction of lines 243-254. *)
Definition finalize_transaction (agent : BundlyAgent) (generated : PublicKey)
    (ix : Instruction) (blockhash : string) : Transaction :=
  {| tx_instructions := [Tx_setComputeUnitLimit 1400000; Tx_finalize ix];
     tx_recentBlockhash := blockhash;
     tx_feePayer := agent_publicKey agent;
     tx_signers := [agent_publicKey agent; generated] |}.

(** Lines 221-277 of [finalize]: what follows once the metadata address is
    known.  [generated] is the public key of the pair that
    [Keypair.generate()] yields in this call. *)
Definition finalize_launch (agent : BundlyAgent) (generated mintPubkey : PublicKey)
    (name symbol tokenUri : string) : Agent.M Finalized :=
  Agent.emit (Agent_console (Line_metadata_uri tokenUri)) ~~;;
  Agent.emit (Agent_keygen generated) ~~;;
  Agent.emit (Agent_console (Line_generated_mint generated)) ~~;;
  Agent.emit (Agent_console Line_building_finalize) ~~;;
  built <~~ Agent.of_eff
    (buildFinalizePumpfunInstruction findProgramAddress
       TOKEN_PROGRAM_ID ASSOCIATED_TOKEN_PROGRAM_ID
       SystemProgram_programId SYSVAR_RENT_PUBKEY
       (finalize_params agent mintPubkey generated name symbol tokenUri)) ;;
  Agent.emit (Agent_rpc Call_getLatestBlockhash) ~~;;
  latest <~~ Agent.lift (latestBlockhash (agent_chain agent)) ;;
  let blockhash := fst latest in
  let lastValidBlockHeight := snd latest in
  let transaction :=
    finalize_transaction agent generated (instruction built) blockhash in
  serialized <~~ Agent.lift (sign_and_serialize transaction) ;;
  Agent.emit (Agent_rpc (Call_sendRawTransaction transaction)) ~~;;
  signature <~~ Agent.lift (sendRaw (agent_chain agent) serialized) ;;
  Agent.emit (Agent_console (Line_transaction_sent signature)) ~~;;
  Agent.emit (Agent_rpc (Call_confirmTransaction signature blockhash
                           lastValidBlockHeight)) ~~;;
  Agent.lift (confirm (agent_chain agent) signature) ~~;;
  Agent.emit (Agent_console (Line_finalized generated tokenUri)) ~~;;
  Agent.ret {| fin_signature := signature;
               fin_pumpfunMint := generated;
               fin_metadataUri := tokenUri |}.

(** Lines 206-219: the metadata address given, or the one the upload
    returns. *)
Definition finalize_tokenUri (options : FinalizeOptions) : Agent.M string :=
  let imagePath := fo_imagePath options in
  let name := fo_name options in
  let symbol := fo_symbol options in
  let description := fo_description options in
  let metadataUri := fo_metadataUri options in
  if falsy_text metadataUri then
    if falsy_text imagePath || String.eqb name "" || String.eqb symbol ""
       || falsy_text description
    then Agent.throw (Error_message
           "Either metadataUri OR (imagePath + name + symbol + description) required")
    else Agent.of_io
           (uploadBundleMetadata ToString network env
              {| opt_imagePath := text_or_empty imagePath;
                 opt_name := Some (J_string name);
                 opt_symbol := Some (J_string symbol);
                 opt_description := text_value description |})
  else Agent.ret (text_or_empty metadataUri).

Definition finalize (agent : BundlyAgent) (generated : PublicKey)
    (mint : KeyArg) (options : FinalizeOptions) : Agent.M Finalized :=
  mintPubkey <~~ Agent.lift (resolve_key mint) ;;
  Agent.emit (Agent_console
                (Line_finalizing mintPubkey (fo_name options) (fo_symbol options))) ~~;;
  tokenUri <~~ finalize_tokenUri options ;;
  finalize_launch agent generated mintPubkey (fo_name options) (fo_symbol options)
    tokenUri.

Definition executeUnstake (agent : BundlyAgent) (mint : KeyArg)
    (amount : option Amount) : Agent.M string :=
  match amount with
  | None => Agent.throw (Error_message "amount must be positive")
  | Some amount =>
      if amount_rejected amount then
        Agent.throw (Error_message "amount must be positive")
      else
        mintPubkey <~~ Agent.lift (resolve_key mint) ;;
        let tokenAmount := to_base_units amount in
        Agent.emit (Agent_console (Line_executing_unstake mintPubkey)) ~~;;
        call <~~ Agent.lift
          (buildExecuteUnstakeInstruction findProgramAddress
             getAssociatedTokenAddressSync TOKEN_PROGRAM_ID
             mintPubkey (agent_publicKey agent) tokenAmount None) ;;
        signature <~~ sendAndConfirm agent [Tx_call call] ;;
        Agent.emit (Agent_console Line_unstake_executed) ~~;;
        Agent.ret signature
  end.

Definition withdrawUnstaked (agent : BundlyAgent) (mint : KeyArg)
    (destination : option PublicKey) : Agent.M string :=
  mintPubkey <~~ Agent.lift (resolve_key mint) ;;
  Agent.emit (Agent_console (Line_withdrawing mintPubkey)) ~~;;
  call <~~ Agent.lift
    (buildWithdrawUnstakedInstruction findProgramAddress
       getAssociatedTokenAddressSync TOKEN_PROGRAM_ID SystemProgram_programId
       mintPubkey (agent_publicKey agent) destination None) ;;
  signature <~~ sendAndConfirm agent [Tx_call call] ;;
  Agent.emit (Agent_console Line_withdrawn) ~~;;
  Agent.ret signature.

Definition getStakingInfo (agent : BundlyAgent) (mint : KeyArg)
    : Agent.M StakingInfo :=
  mintPubkey <~~ Agent.lift (resolve_key mint) ;;
  let userStakePda :=
    deriveUserStakePda findProgramAddress mintPubkey (agent_publicKey agent) in
  Agent.try_catch
    (Agent.emit (Agent_rpc (Call_getAccountInfo userStakePda)) ~~;;
     info <~~ Agent.lift (accountInfo (agent_chain agent) userStakePda) ;;
     match info with
     | None => Agent.ret {| staked := 0; rewards := 0; raw := None |}
     | Some data => Agent.ret {| staked := 0; rewards := 0; raw := Some data |}
     end)
    (fun _ => Agent.ret {| staked := 0; rewards := 0; raw := None |}).
End AgentMethods.

(** Concrete collaborators for checking statements on examples. *)
Definition example_PublicKey_new (text : string) : Result PublicKey := Ok text.

Definition example_serialize (transaction : Transaction) : Result string := Ok "raw".

Definition example_chain : Chain :=
  {| latestBlockhash := Ok ("blockhash", 100);
     sendRaw := fun _ => Ok "signature";
     confirm := fun _ => Ok tt;
     accountInfo := fun _ => Ok None |}.

Definition example_agent : BundlyAgent :=
  {| agent_publicKey := "agent";
     agent_network := "devnet";
     agent_program := {| provider_connection := connection_with 50000000000 |};
     agent_chain := example_chain |}.

Definition example_finalize_options (metadataUri : option string) : FinalizeOptions :=
  {| fo_imagePath := Some "logo.png";
     fo_name := "Token";
     fo_symbol := "TKN";
     fo_description := Some "A token";
     fo_metadataUri := metadataUri |}.

(** * Properties *)

(** ** Truncating division on the curve *)

Lemma BN_div_nonzero (a b : Z) : b <> 0 -> BN.div a b = Some (Z.quot a b).
Proof.
  intros Hb. unfold BN.div.
  destruct (Z.eqb_spec b 0) as [E | _]; [contradiction | reflexivity].
Qed.

Lemma k_value : k = 32190000000000000000000000.
Proof. reflexivity. Qed.

Lemma cappedTokensOut_value : cappedTokensOut = 713790000000000.
Proof. reflexivity. Qed.

Lemma finalTokens_div (spend : Z) :
  0 < finalSol spend -> finalTokens spend = k / finalSol spend.
Proof.
  intros Hpos. unfold finalTokens.
  apply Z.quot_div_nonneg; [rewrite k_value; lia | assumption].
Qed.

(** The truncated quotient brackets [k]: it is the largest integer whose
    product with [finalSol] does not exceed [k]. *)
Lemma finalTokens_bracket (spend : Z) :
  0 < finalSol spend ->
  finalTokens spend * finalSol spend <= k
  /\ k < (finalTokens spend + 1) * finalSol spend.
Proof.
  intros Hpos. rewrite (finalTokens_div _ Hpos). split.
  - rewrite Z.mul_comm. apply Z.mul_div_le. assumption.
  - pose proof (Z.mul_succ_div_gt k (finalSol spend) Hpos) as H.
    unfold Z.succ in H. lia.
Qed.

Lemma finalTokens_nonneg (spend : Z) : 0 < finalSol spend -> 0 <= finalTokens spend.
Proof.
  intros Hpos. rewrite (finalTokens_div _ Hpos).
  apply Z.div_pos; [rewrite k_value; lia | assumption].
Qed.

Lemma finalTokens_antitone (s1 s2 : Z) :
  0 < finalSol s1 -> s1 <= s2 -> finalTokens s2 <= finalTokens s1.
Proof.
  intros Hpos Hle.
  assert (Hpos2 : 0 < finalSol s2) by (unfold finalSol in *; lia).
  rewrite (finalTokens_div _ Hpos), (finalTokens_div _ Hpos2).
  apply Z.div_le_compat_l; [rewrite k_value; lia | unfold finalSol in *; lia].
Qed.

Lemma tokensOut_monotone (s1 s2 : Z) :
  0 < finalSol s1 -> s1 <= s2 -> tokensOut s1 <= tokensOut s2.
Proof.
  intros Hpos Hle. unfold tokensOut.
  pose proof (finalTokens_antitone s1 s2 Hpos Hle). lia.
Qed.

(** Two distinct amounts give distinct quotients as long as the product of
    the two final reserves stays within [k]. *)
Lemma finalTokens_strict (s1 s2 : Z) :
  0 < finalSol s1 -> s1 < s2 -> finalSol s1 * finalSol s2 <= k ->
  finalTokens s2 < finalTokens s1.
Proof.
  intros Hpos Hlt Hprod.
  assert (Hpos2 : 0 < finalSol s2) by (unfold finalSol in *; lia).
  assert (Hab : finalSol s1 + 1 <= finalSol s2) by (unfold finalSol in *; lia).
  destruct (finalTokens_bracket s2 Hpos2) as [Hq2 _].
  pose proof (finalTokens_nonneg s2 Hpos2) as Hq2pos.
  (* [finalSol s1 <= finalTokens s2], because their product fits in [k] *)
  assert (Ha : finalSol s1 <= finalTokens s2).
  { rewrite (finalTokens_div _ Hpos2).
    apply Z.div_le_lower_bound; [assumption | lia]. }
  assert (Hgoal : finalTokens s2 + 1 <= finalTokens s1).
  { rewrite (finalTokens_div s1 Hpos).
    apply Z.div_le_lower_bound; [assumption |].
    (* a * (q + 1) <= q * (a + 1) <= q * b <= k *)
    assert (finalTokens s2 * (finalSol s1 + 1) <= finalTokens s2 * finalSol s2)
      by (apply Z.mul_le_mono_nonneg_l; assumption).
    lia. }
  lia.
Qed.

Lemma tokensOut_at_zero : tokensOut 0 = 0.
Proof. reflexivity. Qed.

Lemma tokensOut_at_one : tokensOut 1 = 35767.
Proof. reflexivity. Qed.

(** Inside the unclamped range the final reserve is small. *)
Lemma unclamped_finalSol_bound (spend : Z) :
  0 < finalSol spend -> tokensOut spend <= INITIAL_REAL_TOKEN_RESERVES ->
  finalSol spend <= 115005359057.
Proof.
  intros Hpos Hle.
  destruct (finalTokens_bracket spend Hpos) as [Hq _].
  unfold tokensOut, initialTokens, VIRTUAL_TOKEN_RESERVES,
    INITIAL_REAL_TOKEN_RESERVES in Hle.
  rewrite k_value in Hq. nia.
Qed.

(** ** One equation per exit of the estimator *)

(** The constructor on a number it accepts, and on one it rejects. *)
Lemma BN_new_safe (n : Z) : Z.abs n < 2 ^ 53 -> BN.new n = Some n.
Proof.
  intros Hsafe. unfold BN.new.
  destruct (Z.ltb_spec (Z.abs n) (2 ^ 53)); [reflexivity | lia].
Qed.

Lemma BN_new_unsafe (n : Z) : 2 ^ 53 <= Z.abs n -> BN.new n = None.
Proof.
  intros Hunsafe. unfold BN.new.
  destruct (Z.ltb_spec (Z.abs n) (2 ^ 53)); [lia | reflexivity].
Qed.

(** The number literals of the source are accepted. *)
Lemma BN_new_0 : BN.new 0 = Some 0.
Proof. reflexivity. Qed.

Lemma BN_new_90 : BN.new 90 = Some 90.
Proof. reflexivity. Qed.

Lemma BN_new_100 : BN.new 100 = Some 100.
Proof. reflexivity. Qed.

Lemma BN_new_1e6 : BN.new 1000000 = Some 1000000.
Proof. reflexivity. Qed.

Create Rewrite HintDb bn_literals.
#[local] Hint Rewrite BN_new_0 BN_new_90 BN_new_100 BN_new_1e6 : bn_literals.

Ltac unfold_estimator :=
  unfold calculateMinTokensForGraduation, calculateMinTokensForGraduation_try,
    calculateMinTokensForGraduation_without_threshold,
    calculateMinTokensForGraduation_try_without_threshold,
    calculateMinTokensForGraduation_catch, getBalance.

Ltac unfold_eff :=
  unfold Eff.try_catch, Eff.bind, Eff.emit, Eff.lift, Eff.when, Eff.ret.

Section Exits.
Variables bundlePda escrowPda pumpfunMintPubkey : PublicKey.
Variable connection : Connection.
Variable tr : Trace.

Lemma exit_rejected :
  balanceOf connection escrowPda = None ->
  calculateMinTokensForGraduation connection bundlePda escrowPda pumpfunMintPubkey tr
  = (Some 0, trace_after_catch tr escrowPda).
Proof.
  intros Hb. unfold_estimator. autorewrite with bn_literals. unfold_eff.
  rewrite Hb. unfold trace_after_catch. cbv beta iota. now rewrite <- !app_assoc.
Qed.

Variable escrowBalance : Z.
Hypothesis Hbalance : balanceOf connection escrowPda = Some escrowBalance.

(** A balance that [new BN] rejects: the [catch] block returns zero. *)
Lemma exit_unsafe_integer :
  2 ^ 53 <= Z.abs escrowBalance ->
  calculateMinTokensForGraduation connection bundlePda escrowPda pumpfunMintPubkey tr
  = (Some 0, trace_after_catch tr escrowPda).
Proof.
  intros Hunsafe. unfold_estimator. autorewrite with bn_literals. unfold_eff.
  rewrite Hbalance. cbv beta iota. rewrite (BN_new_unsafe _ Hunsafe).
  unfold trace_after_catch. cbv beta iota. now rewrite <- !app_assoc.
Qed.

(** The [try] block stops there, right after the balance request. *)
Lemma try_unsafe_integer :
  2 ^ 53 <= Z.abs escrowBalance ->
  calculateMinTokensForGraduation_try connection bundlePda escrowPda
    pumpfunMintPubkey tr
  = (None, (tr ++ [Rpc_getBalance escrowPda])%list).
Proof.
  intros Hunsafe. unfold_estimator. unfold_eff.
  rewrite Hbalance. cbv beta iota. rewrite (BN_new_unsafe _ Hunsafe).
  reflexivity.
Qed.

Hypothesis Hsafe : Z.abs escrowBalance < 2 ^ 53.

Lemma exit_division_by_zero :
  finalSol (SOL_TO_SPEND escrowBalance) = 0 ->
  calculateMinTokensForGraduation connection bundlePda escrowPda pumpfunMintPubkey tr
  = (Some 0, trace_after_catch tr escrowPda).
Proof.
  intros Hz. unfold_estimator. autorewrite with bn_literals. unfold_eff.
  rewrite Hbalance. cbv beta iota. rewrite (BN_new_safe _ Hsafe). cbv beta iota.
  unfold finalSol, SOL_TO_SPEND in Hz. unfold BN.add, BN.sub.
  rewrite Hz. unfold trace_after_catch. cbn. now rewrite <- !app_assoc.
Qed.

Lemma try_by_cases :
  finalSol (SOL_TO_SPEND escrowBalance) <> 0 ->
  calculateMinTokensForGraduation_try connection bundlePda escrowPda
    pumpfunMintPubkey tr
  = if tokensOut (SOL_TO_SPEND escrowBalance) <=? 0 then
      (Some 0,
       (trace_before_exit tr escrowPda escrowBalance
          ++ [Warn_tokens_out_not_positive])%list)
    else if INITIAL_REAL_TOKEN_RESERVES <? tokensOut (SOL_TO_SPEND escrowBalance) then
      (Some cappedTokensOut,
       (trace_before_exit tr escrowPda escrowBalance ++ [Warn_tokens_out_capped])%list)
    else
      (Some (minTokensOut (SOL_TO_SPEND escrowBalance)),
       trace_before_exit tr escrowPda escrowBalance).
Proof.
  intros Hnz. unfold_estimator. autorewrite with bn_literals. unfold_eff.
  rewrite Hbalance. cbv beta iota. rewrite (BN_new_safe _ Hsafe). cbv beta iota.
  change (BN.add VIRTUAL_SOL_RESERVES (BN.sub escrowBalance ESTIMATED_COSTS))
    with (finalSol (SOL_TO_SPEND escrowBalance)).
  rewrite (BN_div_nonzero k _ Hnz). cbv beta iota.
  unfold BN.mul, BN.sub, BN.lt, BN.lte, BN.gt.
  rewrite !BN_div_nonzero by discriminate. cbv beta iota.
  fold (SOL_TO_SPEND escrowBalance).
  fold (finalTokens (SOL_TO_SPEND escrowBalance)).
  fold (tokensOut (SOL_TO_SPEND escrowBalance)).
  fold (minTokensOut (SOL_TO_SPEND escrowBalance)).
  fold cappedTokensOut.
  unfold trace_before_exit, graduation_warning.
  change (Log_calculation _) with (Log_calculation (calculation_of escrowBalance)).
  destruct (SOL_TO_SPEND escrowBalance <? GRADUATION_THRESHOLD);
    destruct (tokensOut (SOL_TO_SPEND escrowBalance) <=? 0);
    destruct (INITIAL_REAL_TOKEN_RESERVES <? tokensOut (SOL_TO_SPEND escrowBalance));
    cbv beta iota; rewrite <- ?app_assoc; reflexivity.
Qed.
(** When the constructor accepts the balance and the divisor is not zero the
    [try] block runs to one of its three [return]s and the [catch] block is
    not entered. *)
Lemma catch_not_entered :
  finalSol (SOL_TO_SPEND escrowBalance) <> 0 ->
  calculateMinTokensForGraduation connection bundlePda escrowPda pumpfunMintPubkey tr
  = calculateMinTokensForGraduation_try connection bundlePda escrowPda
      pumpfunMintPubkey tr.
Proof.
  intros Hnz. unfold calculateMinTokensForGraduation, Eff.try_catch.
  rewrite (try_by_cases Hnz).
  destruct (tokensOut (SOL_TO_SPEND escrowBalance) <=? 0);
    [| destruct (INITIAL_REAL_TOKEN_RESERVES <? tokensOut (SOL_TO_SPEND escrowBalance))];
    reflexivity.
Qed.

Lemma exit_by_cases :
  finalSol (SOL_TO_SPEND escrowBalance) <> 0 ->
  calculateMinTokensForGraduation connection bundlePda escrowPda pumpfunMintPubkey tr
  = if tokensOut (SOL_TO_SPEND escrowBalance) <=? 0 then
      (Some 0,
       (trace_before_exit tr escrowPda escrowBalance
          ++ [Warn_tokens_out_not_positive])%list)
    else if INITIAL_REAL_TOKEN_RESERVES <? tokensOut (SOL_TO_SPEND escrowBalance) then
      (Some cappedTokensOut,
       (trace_before_exit tr escrowPda escrowBalance ++ [Warn_tokens_out_capped])%list)
    else
      (Some (minTokensOut (SOL_TO_SPEND escrowBalance)),
       trace_before_exit tr escrowPda escrowBalance).
Proof.
  intros Hnz. rewrite (catch_not_entered Hnz). apply try_by_cases. assumption.
Qed.

Lemma exit_not_positive :
  finalSol (SOL_TO_SPEND escrowBalance) <> 0 ->
  tokensOut (SOL_TO_SPEND escrowBalance) <= 0 ->
  calculateMinTokensForGraduation connection bundlePda escrowPda pumpfunMintPubkey tr
  = (Some 0,
     (trace_before_exit tr escrowPda escrowBalance
        ++ [Warn_tokens_out_not_positive])%list).
Proof.
  intros Hnz Hle. rewrite (exit_by_cases Hnz).
  destruct (Z.leb_spec (tokensOut (SOL_TO_SPEND escrowBalance)) 0); [reflexivity | lia].
Qed.

Lemma exit_capped :
  finalSol (SOL_TO_SPEND escrowBalance) <> 0 ->
  INITIAL_REAL_TOKEN_RESERVES < tokensOut (SOL_TO_SPEND escrowBalance) ->
  calculateMinTokensForGraduation connection bundlePda escrowPda pumpfunMintPubkey tr
  = (Some cappedTokensOut,
     (trace_before_exit tr escrowPda escrowBalance ++ [Warn_tokens_out_capped])%list).
Proof.
  intros Hnz Hgt. rewrite (exit_by_cases Hnz).
  assert (Hpos : 0 < tokensOut (SOL_TO_SPEND escrowBalance))
    by (unfold INITIAL_REAL_TOKEN_RESERVES in Hgt; lia).
  destruct (Z.leb_spec (tokensOut (SOL_TO_SPEND escrowBalance)) 0); [lia |].
  destruct (Z.ltb_spec INITIAL_REAL_TOKEN_RESERVES
              (tokensOut (SOL_TO_SPEND escrowBalance))); [reflexivity | lia].
Qed.

Lemma exit_normal :
  0 < tokensOut (SOL_TO_SPEND escrowBalance) ->
  tokensOut (SOL_TO_SPEND escrowBalance) <= INITIAL_REAL_TOKEN_RESERVES ->
  calculateMinTokensForGraduation connection bundlePda escrowPda pumpfunMintPubkey tr
  = (Some (minTokensOut (SOL_TO_SPEND escrowBalance)),
     trace_before_exit tr escrowPda escrowBalance).
Proof.
  intros Hpos Hle.
  assert (Hnz : finalSol (SOL_TO_SPEND escrowBalance) <> 0).
  { intros Hz. unfold tokensOut, finalTokens in Hle. rewrite Hz in Hle.
    rewrite Z.quot_0_r_ext in Hle by reflexivity. vm_compute in Hle.
    apply Hle. reflexivity. }
  rewrite (exit_by_cases Hnz).
  destruct (Z.leb_spec (tokensOut (SOL_TO_SPEND escrowBalance)) 0); [lia |].
  destruct (Z.ltb_spec INITIAL_REAL_TOKEN_RESERVES
              (tokensOut (SOL_TO_SPEND escrowBalance))); [lia | reflexivity].
Qed.
End Exits.

(** The three ways into the [catch] block, on concrete connections. *)
Example rejected_request_returns_zero :
  calculateMinTokensForGraduation connection_down "bundle" "escrow" "pumpfunMint" []
  = (Some 0, [Rpc_getBalance "escrow"; Error_calculating; Warn_no_slippage_protection]).
Proof. reflexivity. Qed.

Example zero_divisor_returns_zero :
  calculateMinTokensForGraduation (connection_with (ESTIMATED_COSTS - VIRTUAL_SOL_RESERVES))
    "bundle" "escrow" "pumpfunMint" []
  = (Some 0, [Rpc_getBalance "escrow"; Error_calculating; Warn_no_slippage_protection]).
Proof. reflexivity. Qed.

Example unsafe_integer_returns_zero :
  calculateMinTokensForGraduation (connection_with 9007199254740992)
    "bundle" "escrow" "pumpfunMint" []
  = (Some 0, [Rpc_getBalance "escrow"; Error_calculating; Warn_no_slippage_protection]).
Proof. reflexivity. Qed.

(** A non-negative balance keeps the final reserve positive. *)
Lemma finalSol_pos_of_balance (escrowBalance : Z) :
  0 <= escrowBalance -> 0 < finalSol (SOL_TO_SPEND escrowBalance).
Proof.
  unfold finalSol, SOL_TO_SPEND, VIRTUAL_SOL_RESERVES, ESTIMATED_COSTS. lia.
Qed.

(** Truncation toward zero of a non-negative amount: the 90% rule. *)
Lemma minTokensOut_floor (spend : Z) :
  0 <= tokensOut spend -> minTokensOut spend = tokensOut spend * 90 / 100.
Proof.
  intros Hpos. unfold minTokensOut. apply Z.quot_div_nonneg; lia.
Qed.

Lemma minTokensOut_le (spend : Z) :
  0 <= tokensOut spend -> 0 <= minTokensOut spend <= tokensOut spend.
Proof.
  intros Hpos. rewrite (minTokensOut_floor _ Hpos). split.
  - apply Z.div_pos; lia.
  - apply Z.div_le_upper_bound; lia.
Qed.

Lemma minTokensOut_le_capped (spend : Z) :
  0 <= tokensOut spend -> tokensOut spend <= INITIAL_REAL_TOKEN_RESERVES ->
  minTokensOut spend <= cappedTokensOut.
Proof.
  intros Hpos Hle. rewrite (minTokensOut_floor _ Hpos).
  rewrite cappedTokensOut_value.
  apply Z.div_le_upper_bound; [lia |].
  unfold INITIAL_REAL_TOKEN_RESERVES in Hle. lia.
Qed.

(** ** The golden scenario *)

(** C1 (amended).  With an escrow of 100_000_000_000 the locals are
    spendable = 99_985_500_000, k = 30_000_000_000 * 1_073_000_000_000_000,
    finalBase = 129_985_500_000, finalTokens = k / finalBase,
    tokensExpected = virtualTokenReserves - finalTokens = 825_356_993_664_678
    and the 90% figure is 742_821_294_298_210; tokensExpected exceeds
    initialRealTokenReserves, so the estimator returns the ceiling
    793_100_000_000_000 * 90 / 100 = 713_790_000_000_000. *)
Theorem golden_scenario (bundlePda escrowPda pumpfunMintPubkey : PublicKey) (tr : Trace) :
  SOL_TO_SPEND 100000000000 = 99985500000
  /\ k = 30000000000 * 1073000000000000
  /\ finalSol (SOL_TO_SPEND 100000000000) = 129985500000
  /\ finalTokens (SOL_TO_SPEND 100000000000) = k / 129985500000
  /\ tokensOut (SOL_TO_SPEND 100000000000)
     = VIRTUAL_TOKEN_RESERVES - finalTokens (SOL_TO_SPEND 100000000000)
  /\ tokensOut (SOL_TO_SPEND 100000000000) = 825356993664678
  /\ minTokensOut (SOL_TO_SPEND 100000000000) = 742821294298210
  /\ INITIAL_REAL_TOKEN_RESERVES < tokensOut (SOL_TO_SPEND 100000000000)
  /\ calculateMinTokensForGraduation (connection_with 100000000000)
       bundlePda escrowPda pumpfunMintPubkey tr
     = (Some (INITIAL_REAL_TOKEN_RESERVES * 90 / 100),
        (trace_before_exit tr escrowPda 100000000000 ++ [Warn_tokens_out_capped])%list)
  /\ INITIAL_REAL_TOKEN_RESERVES * 90 / 100 = 713790000000000.
Proof.
  repeat split; try reflexivity.
  rewrite (exit_capped bundlePda escrowPda pumpfunMintPubkey
             (connection_with 100000000000) tr 100000000000 eq_refl).
  - reflexivity.
  - reflexivity.
  - discriminate.
  - reflexivity.
Qed.

(** C1 (as stated) fails: on the golden input the estimator does not return
    tokensExpected * 90 / 100. *)
Lemma golden_scenario_not_ninety_percent :
  returned (calculateMinTokensForGraduation (connection_with 100000000000)
              "bundle" "escrow" "pumpfunMint" [])
  <> Some (tokensOut (SOL_TO_SPEND 100000000000) * 90 / 100).
Proof. vm_compute. discriminate. Qed.

(** ** The slippage margin *)

(** Truncation toward zero of a negative amount lands above it. *)
Lemma minTokensOut_above_negative (spend : Z) :
  tokensOut spend < 0 -> tokensOut spend < minTokensOut spend.
Proof.
  intros Hneg. unfold minTokensOut.
  replace (tokensOut spend * 90) with (- (- tokensOut spend * 90)) by lia.
  rewrite Z.quot_opp_l by discriminate.
  rewrite Z.quot_div_nonneg by lia.
  assert (H : - tokensOut spend * 90 / 100 < - tokensOut spend)
    by (apply Z.div_lt_upper_bound; lia).
  lia.
Qed.

(** On the capped path too the returned value stays below tokensExpected. *)
Lemma capped_below_tokensOut (spend : Z) :
  INITIAL_REAL_TOKEN_RESERVES < tokensOut spend -> cappedTokensOut < tokensOut spend.
Proof.
  rewrite cappedTokensOut_value. unfold INITIAL_REAL_TOKEN_RESERVES. lia.
Qed.

(** C3 (amended).  Whenever tokensExpected is computed (the constructor
    accepts the balance and the divisor of line 496 is not zero), the run
    logs the calculation, and:
    - on the normal path (tokensExpected positive and within the reserve
      ceiling) the estimator returns floor(tokensExpected * 90 / 100), which
      does not exceed tokensExpected;
    - on every exit the returned value is at most tokensExpected exactly
      when tokensExpected is not negative;
    - the 90% figure of line 503 is at most tokensExpected exactly when
      tokensExpected is not negative. *)
Theorem slippage_margin_conservative
    (connection : Connection) (bundlePda escrowPda pumpfunMintPubkey : PublicKey)
    (tr : Trace) (escrowBalance : Z) :
  balanceOf connection escrowPda = Some escrowBalance ->
  Z.abs escrowBalance < 2 ^ 53 ->
  finalSol (SOL_TO_SPEND escrowBalance) <> 0 ->
  let tokensExpected := tokensOut (SOL_TO_SPEND escrowBalance) in
  let run :=
    calculateMinTokensForGraduation connection bundlePda escrowPda
      pumpfunMintPubkey tr in
  In (Log_calculation (calculation_of escrowBalance)) (trace_of run)
  /\ (0 < tokensExpected -> tokensExpected <= INITIAL_REAL_TOKEN_RESERVES ->
      returned run = Some (tokensExpected * 90 / 100)
      /\ tokensExpected * 90 / 100 <= tokensExpected)
  /\ (exists v : Z,
        returned run = Some v /\ (v <= tokensExpected <-> 0 <= tokensExpected))
  /\ (minTokensOut (SOL_TO_SPEND escrowBalance) <= tokensExpected
      <-> 0 <= tokensExpected).
Proof.
  intros Hbal Hsafe Hnz tokensExpected run. subst tokensExpected run.
  rewrite (exit_by_cases bundlePda escrowPda pumpfunMintPubkey connection tr
             escrowBalance Hbal Hsafe Hnz).
  assert (Hlogged : forall last : Trace,
             In (Log_calculation (calculation_of escrowBalance))
                (trace_before_exit tr escrowPda escrowBalance ++ last)%list).
  { intros last. unfold trace_before_exit.
    apply in_or_app. left. apply in_or_app. right.
    apply in_or_app. left. right. left. reflexivity. }
  assert (Hfigure : minTokensOut (SOL_TO_SPEND escrowBalance)
                    <= tokensOut (SOL_TO_SPEND escrowBalance)
                    <-> 0 <= tokensOut (SOL_TO_SPEND escrowBalance)).
  { split.
    - intros Hle.
      destruct (Z.lt_ge_cases (tokensOut (SOL_TO_SPEND escrowBalance)) 0)
        as [Hneg | Hnonneg]; [| exact Hnonneg].
      pose proof (minTokensOut_above_negative _ Hneg). lia.
    - intros Hnonneg. apply minTokensOut_le. exact Hnonneg. }
  destruct (Z.leb_spec (tokensOut (SOL_TO_SPEND escrowBalance)) 0) as [Hle | Hpos].
  - (* the zero exit *)
    unfold returned, trace_of; cbn [fst snd].
    split; [apply Hlogged |]. split; [intros; lia |].
    split; [exists 0; split; [reflexivity | lia] | exact Hfigure].
  - destruct (Z.ltb_spec INITIAL_REAL_TOKEN_RESERVES
                (tokensOut (SOL_TO_SPEND escrowBalance))) as [Hgt | Hle].
    + (* the capped exit *)
      pose proof (capped_below_tokensOut _ Hgt) as Hcap.
      unfold returned, trace_of; cbn [fst snd].
      split; [apply Hlogged |]. split; [intros; lia |].
      split; [exists cappedTokensOut; split; [reflexivity | lia] | exact Hfigure].
    + (* the normal exit *)
      pose proof (minTokensOut_le (SOL_TO_SPEND escrowBalance)) as Hmin.
      unfold returned, trace_of; cbn [fst snd].
      split; [rewrite <- (app_nil_r (trace_before_exit _ _ _)); apply Hlogged |].
      split.
      * intros _ _. rewrite minTokensOut_floor by lia.
        split; [reflexivity |]. apply Z.div_le_upper_bound; lia.
      * split; [| exact Hfigure].
        exists (minTokensOut (SOL_TO_SPEND escrowBalance)).
        split; [reflexivity | lia].
Qed.

Lemma slippage_margin_conservative_witness :
  let tokensExpected := tokensOut (SOL_TO_SPEND 50000000000) in
  let run :=
    calculateMinTokensForGraduation (connection_with 50000000000)
      "bundle" "escrow" "pumpfunMint" [] in
  In (Log_calculation (calculation_of 50000000000)) (trace_of run)
  /\ (0 < tokensExpected -> tokensExpected <= INITIAL_REAL_TOKEN_RESERVES ->
      returned run = Some (tokensExpected * 90 / 100)
      /\ tokensExpected * 90 / 100 <= tokensExpected)
  /\ (exists v : Z,
        returned run = Some v /\ (v <= tokensExpected <-> 0 <= tokensExpected))
  /\ (minTokensOut (SOL_TO_SPEND 50000000000) <= tokensExpected
      <-> 0 <= tokensExpected).
Proof.
  apply (slippage_margin_conservative (connection_with 50000000000)
           "bundle" "escrow" "pumpfunMint" [] 50000000000).
  - reflexivity.
  - reflexivity.
  - discriminate.
Defined.

(** C3 (as stated) fails: the inequality does not hold always.  With an
    empty escrow the estimator computes a negative tokensExpected; the 90%
    figure of line 503, truncated toward zero, lies above it, and so does
    the returned zero. *)
Lemma slippage_margin_fails_on_negative :
  calculateMinTokensForGraduation (connection_with 0)
    "bundle" "escrow" "pumpfunMint" []
  = (Some 0,
     [Rpc_getBalance "escrow"; Log_calculation (calculation_of 0);
      Warn_no_graduation 0; Warn_tokens_out_not_positive])
  /\ calc_tokensOut (calculation_of 0) = -518867452602
  /\ calc_minTokensOut (calculation_of 0) = -466980707341
  /\ ~ (calc_minTokensOut (calculation_of 0) <= calc_tokensOut (calculation_of 0))
  /\ ~ (0 <= calc_tokensOut (calculation_of 0)).
Proof.
  split; [reflexivity |].
  split; [reflexivity |].
  split; [reflexivity |].
  split; vm_compute; intros H; apply H; reflexivity.
Qed.

(** ** The ceiling clamp *)

(** C4.  Whenever tokensExpected is computed (the constructor accepts the
    balance and the divisor of line 496 is not zero) and exceeds
    initialRealTokenReserves, the estimator returns exactly
    initialRealTokenReserves * 90 / 100, which is at most the figure derived
    from the amount to spend; the calculation it logged holds that
    tokensExpected. *)
Theorem ceiling_clamp
    (connection : Connection) (bundlePda escrowPda pumpfunMintPubkey : PublicKey)
    (tr : Trace) (escrowBalance : Z) :
  balanceOf connection escrowPda = Some escrowBalance ->
  Z.abs escrowBalance < 2 ^ 53 ->
  finalSol (SOL_TO_SPEND escrowBalance) <> 0 ->
  INITIAL_REAL_TOKEN_RESERVES < tokensOut (SOL_TO_SPEND escrowBalance) ->
  returned (calculateMinTokensForGraduation connection bundlePda escrowPda
              pumpfunMintPubkey tr)
  = Some (INITIAL_REAL_TOKEN_RESERVES * 90 / 100)
  /\ trace_of (calculateMinTokensForGraduation connection bundlePda escrowPda
                 pumpfunMintPubkey tr)
     = (tr ++ [Rpc_getBalance escrowPda;
               Log_calculation (calculation_of escrowBalance)]
           ++ graduation_warning escrowBalance
           ++ [Warn_tokens_out_capped])%list
  /\ calc_tokensOut (calculation_of escrowBalance)
     = tokensOut (SOL_TO_SPEND escrowBalance)
  /\ INITIAL_REAL_TOKEN_RESERVES * 90 / 100
     <= minTokensOut (SOL_TO_SPEND escrowBalance).
Proof.
  intros Hbal Hsafe Hnz Hgt.
  rewrite (exit_capped bundlePda escrowPda pumpfunMintPubkey connection tr
             escrowBalance Hbal Hsafe Hnz Hgt).
  split; [reflexivity |].
  split; [unfold trace_of, trace_before_exit; cbn [snd];
          now rewrite <- !app_assoc |].
  split; [reflexivity |].
  change (INITIAL_REAL_TOKEN_RESERVES * 90 / 100) with 713790000000000.
  rewrite minTokensOut_floor by (unfold INITIAL_REAL_TOKEN_RESERVES in Hgt; lia).
  apply Z.div_le_lower_bound; [lia |].
  unfold INITIAL_REAL_TOKEN_RESERVES in Hgt. lia.
Qed.

Lemma ceiling_clamp_witness :
  returned (calculateMinTokensForGraduation (connection_with 200000000000)
              "bundle" "escrow" "pumpfunMint" [])
  = Some (INITIAL_REAL_TOKEN_RESERVES * 90 / 100)
  /\ trace_of (calculateMinTokensForGraduation (connection_with 200000000000)
                 "bundle" "escrow" "pumpfunMint" [])
     = ([] ++ [Rpc_getBalance "escrow";
               Log_calculation (calculation_of 200000000000)]
           ++ graduation_warning 200000000000
           ++ [Warn_tokens_out_capped])%list
  /\ calc_tokensOut (calculation_of 200000000000)
     = tokensOut (SOL_TO_SPEND 200000000000)
  /\ INITIAL_REAL_TOKEN_RESERVES * 90 / 100
     <= minTokensOut (SOL_TO_SPEND 200000000000).
Proof.
  apply (ceiling_clamp (connection_with 200000000000)
           "bundle" "escrow" "pumpfunMint" [] 200000000000).
  - reflexivity.
  - reflexivity.
  - discriminate.
  - reflexivity.
Defined.

(** ** The insufficient-escrow boundary *)

Lemma tokensOut_not_positive (spend : Z) :
  0 < finalSol spend -> spend <= 0 -> tokensOut spend <= 0.
Proof.
  intros Hpos Hle.
  pose proof (tokensOut_monotone spend 0 Hpos Hle) as H.
  rewrite tokensOut_at_zero in H. exact H.
Qed.

Lemma tokensOut_positive (spend : Z) : 0 < spend -> 35767 <= tokensOut spend.
Proof.
  intros Hpos. rewrite <- tokensOut_at_one.
  apply tokensOut_monotone; [reflexivity | lia].
Qed.

(** C5.  An escrow balance equal to or below the fixed costs leaves nothing
    to spend and the estimator returns zero, with a warning; one unit more
    takes the normal path and returns a non-zero figure. *)
Theorem insufficient_escrow_boundary
    (bundlePda escrowPda pumpfunMintPubkey : PublicKey) (tr : Trace)
    (escrowBalance : Z) :
  0 <= escrowBalance -> escrowBalance <= ESTIMATED_COSTS ->
  (SOL_TO_SPEND escrowBalance <= 0
   /\ calculateMinTokensForGraduation (connection_with escrowBalance)
        bundlePda escrowPda pumpfunMintPubkey tr
      = (Some 0,
         (trace_before_exit tr escrowPda escrowBalance
            ++ [Warn_tokens_out_not_positive])%list))
  /\ (SOL_TO_SPEND (ESTIMATED_COSTS + 1) = 1
      /\ calculateMinTokensForGraduation (connection_with (ESTIMATED_COSTS + 1))
           bundlePda escrowPda pumpfunMintPubkey tr
         = (Some 32190, trace_before_exit tr escrowPda (ESTIMATED_COSTS + 1))
      /\ 32190 = tokensOut 1 * 90 / 100).
Proof.
  intros Hnonneg Hle.
  pose proof (finalSol_pos_of_balance escrowBalance Hnonneg) as Hpos.
  assert (Hspend : SOL_TO_SPEND escrowBalance <= 0) by (unfold SOL_TO_SPEND; lia).
  split; [split; [exact Hspend |] | split; [reflexivity | split; [| reflexivity]]].
  - apply exit_not_positive;
      [reflexivity | unfold ESTIMATED_COSTS in Hle; lia | lia |].
    apply tokensOut_not_positive; assumption.
  - rewrite (exit_normal bundlePda escrowPda pumpfunMintPubkey
               (connection_with (ESTIMATED_COSTS + 1)) tr (ESTIMATED_COSTS + 1));
      [reflexivity | reflexivity | reflexivity | reflexivity | discriminate].
Qed.

Lemma insufficient_escrow_boundary_witness :
  (SOL_TO_SPEND 14500000 <= 0
   /\ calculateMinTokensForGraduation (connection_with 14500000)
        "bundle" "escrow" "pumpfunMint" []
      = (Some 0,
         (trace_before_exit [] "escrow" 14500000
            ++ [Warn_tokens_out_not_positive])%list))
  /\ (SOL_TO_SPEND (ESTIMATED_COSTS + 1) = 1
      /\ calculateMinTokensForGraduation (connection_with (ESTIMATED_COSTS + 1))
           "bundle" "escrow" "pumpfunMint" []
         = (Some 32190, trace_before_exit [] "escrow" (ESTIMATED_COSTS + 1))
      /\ 32190 = tokensOut 1 * 90 / 100).
Proof.
  apply (insufficient_escrow_boundary "bundle" "escrow" "pumpfunMint" [] 14500000).
  - discriminate.
  - discriminate.
Defined.

(** ** Monotonicity *)

(** C6 (amended).  tokensExpected never decreases when the amount to spend
    grows, and it grows strictly as long as the product of the two final
    reserves is within k; in particular whenever the larger amount is still
    below the reserve ceiling, that is, on the whole range in which the
    estimator does not clamp. *)
Theorem tokensOut_monotonicity (s1 s2 : Z) :
  0 < s1 -> s1 < s2 ->
  tokensOut s1 <= tokensOut s2
  /\ (finalSol s1 * finalSol s2 <= k -> tokensOut s1 < tokensOut s2)
  /\ (tokensOut s2 <= INITIAL_REAL_TOKEN_RESERVES -> tokensOut s1 < tokensOut s2).
Proof.
  intros Hpos Hlt.
  assert (Hf1 : 0 < finalSol s1) by (unfold finalSol, VIRTUAL_SOL_RESERVES; lia).
  assert (Hf2 : 0 < finalSol s2) by (unfold finalSol, VIRTUAL_SOL_RESERVES; lia).
  assert (Hstrict : finalSol s1 * finalSol s2 <= k -> tokensOut s1 < tokensOut s2).
  { intros Hprod. unfold tokensOut.
    pose proof (finalTokens_strict s1 s2 Hf1 Hlt Hprod). lia. }
  split; [| split].
  - apply tokensOut_monotone; [assumption | lia].
  - exact Hstrict.
  - intros Hunclamped. apply Hstrict.
    pose proof (unclamped_finalSol_bound s2 Hf2 Hunclamped) as Hb2.
    assert (Hb1 : finalSol s1 <= 115005359057) by (unfold finalSol in *; lia).
    rewrite k_value.
    apply Z.le_trans with (115005359057 * 115005359057); [| discriminate].
    apply Z.mul_le_mono_nonneg; lia.
Qed.

Lemma tokensOut_monotonicity_witness :
  tokensOut 1 <= tokensOut 2
  /\ (finalSol 1 * finalSol 2 <= k -> tokensOut 1 < tokensOut 2)
  /\ (tokensOut 2 <= INITIAL_REAL_TOKEN_RESERVES -> tokensOut 1 < tokensOut 2).
Proof.
  apply (tokensOut_monotonicity 1 2).
  - reflexivity.
  - reflexivity.
Defined.

(** C6 (as stated) fails: two consecutive amounts to spend near 10^13 give
    the same tokensExpected. *)
Lemma tokensOut_not_strictly_increasing :
  0 < 10000000000000 /\ 10000000000000 < 10000000000001
  /\ ~ (tokensOut 10000000000000 < tokensOut 10000000000001).
Proof.
  split; [reflexivity | split; [reflexivity |]].
  vm_compute. intros H. discriminate H.
Qed.

(** ** The global bound *)

(** C9.  Whatever the connection answers, and from every exit, the returned
    value is an integer between zero and 793_100_000_000_000 * 90 / 100. *)
Theorem output_bound
    (connection : Connection) (bundlePda escrowPda pumpfunMintPubkey : PublicKey)
    (tr : Trace) :
  exists v : Z,
    returned (calculateMinTokensForGraduation connection bundlePda escrowPda
                pumpfunMintPubkey tr) = Some v
    /\ 0 <= v <= INITIAL_REAL_TOKEN_RESERVES * 90 / 100
    /\ INITIAL_REAL_TOKEN_RESERVES * 90 / 100 = 793100000000000 * 90 / 100.
Proof.
  change (INITIAL_REAL_TOKEN_RESERVES * 90 / 100) with 713790000000000.
  change (793100000000000 * 90 / 100) with 713790000000000.
  destruct (balanceOf connection escrowPda) as [escrowBalance |] eqn:Hbal.
  - destruct (Z.lt_ge_cases (Z.abs escrowBalance) (2 ^ 53)) as [Hsafe | Hunsafe].
    + destruct (Z.eq_dec (finalSol (SOL_TO_SPEND escrowBalance)) 0) as [Hz | Hnz].
      * rewrite (exit_division_by_zero bundlePda escrowPda pumpfunMintPubkey
                   connection tr escrowBalance Hbal Hsafe Hz).
        exists 0. unfold returned; cbn [fst]. repeat split; lia.
      * rewrite (exit_by_cases bundlePda escrowPda pumpfunMintPubkey
                   connection tr escrowBalance Hbal Hsafe Hnz).
        destruct (Z.leb_spec (tokensOut (SOL_TO_SPEND escrowBalance)) 0)
          as [Hle | Hpos].
        -- exists 0. unfold returned; cbn [fst]. repeat split; lia.
        -- destruct (Z.ltb_spec INITIAL_REAL_TOKEN_RESERVES
                       (tokensOut (SOL_TO_SPEND escrowBalance))) as [Hgt | Hle].
           ++ exists cappedTokensOut. rewrite cappedTokensOut_value.
              unfold returned; cbn [fst]. repeat split; lia.
           ++ exists (minTokensOut (SOL_TO_SPEND escrowBalance)).
              pose proof (minTokensOut_le (SOL_TO_SPEND escrowBalance)) as H1.
              pose proof (minTokensOut_le_capped (SOL_TO_SPEND escrowBalance)) as H2.
              rewrite cappedTokensOut_value in H2.
              unfold returned; cbn [fst]. repeat split; lia.
    + rewrite (exit_unsafe_integer bundlePda escrowPda pumpfunMintPubkey
                 connection tr escrowBalance Hbal Hunsafe).
      exists 0. unfold returned; cbn [fst]. repeat split; lia.
  - rewrite (exit_rejected bundlePda escrowPda pumpfunMintPubkey connection tr Hbal).
    exists 0. unfold returned; cbn [fst]. repeat split; lia.
Qed.

(** ** The rounding direction of the curve division *)

Lemma exact_finalTokens_bracket (spend : Z) :
  0 < finalSol spend ->
  (inject_Z (finalTokens spend) <= exact_finalTokens spend
   /\ exact_finalTokens spend < inject_Z (finalTokens spend) + 1)%Q.
Proof.
  intros Hpos.
  destruct (finalTokens_bracket spend Hpos) as [Hlo Hhi].
  assert (HposQ : (0 < inject_Z (finalSol spend))%Q)
    by (change 0%Q with (inject_Z 0); rewrite <- Zlt_Qlt; assumption).
  unfold exact_finalTokens. split.
  - apply Qle_shift_div_l; [assumption |].
    rewrite <- inject_Z_mult, <- Zle_Qle. assumption.
  - apply Qlt_shift_div_r; [assumption |].
    change 1%Q with (inject_Z 1).
    rewrite <- inject_Z_plus, <- inject_Z_mult, <- Zlt_Qlt. assumption.
Qed.

(** C2 (amended).  For every positive amount to spend the truncating
    division never overestimates finalTokens: the integer quotient is at
    most the exact rational quotient and less than one unit below it.
    Hence tokensExpected is never below its exact value, and less than one
    unit above it. *)
Theorem truncation_direction (spend : Z) :
  0 < spend ->
  (inject_Z (finalTokens spend) <= exact_finalTokens spend
   /\ exact_finalTokens spend < inject_Z (finalTokens spend) + 1
   /\ exact_tokensOut spend <= inject_Z (tokensOut spend)
   /\ inject_Z (tokensOut spend) < exact_tokensOut spend + 1)%Q.
Proof.
  intros Hspend.
  assert (Hpos : 0 < finalSol spend) by (unfold finalSol, VIRTUAL_SOL_RESERVES; lia).
  destruct (exact_finalTokens_bracket spend Hpos) as [Hlo Hhi].
  unfold exact_tokensOut, tokensOut, Z.sub.
  rewrite inject_Z_plus, inject_Z_opp.
  repeat split; try assumption; lra.
Qed.

Lemma truncation_direction_witness :
  (inject_Z (finalTokens 1) <= exact_finalTokens 1
   /\ exact_finalTokens 1 < inject_Z (finalTokens 1) + 1
   /\ exact_tokensOut 1 <= inject_Z (tokensOut 1)
   /\ inject_Z (tokensOut 1) < exact_tokensOut 1 + 1)%Q.
Proof.
  apply (truncation_direction 1). reflexivity.
Defined.

(** C2 (as stated) fails: with one unit to spend the truncated finalTokens
    is below the exact quotient, and tokensExpected above its exact value. *)
Lemma truncation_does_not_overestimate :
  0 < 1
  /\ ~ (exact_finalTokens 1 <= inject_Z (finalTokens 1))%Q
  /\ ~ (inject_Z (tokensOut 1) <= exact_tokensOut 1)%Q.
Proof.
  split; [reflexivity |].
  split; unfold Qle; vm_compute; intros H; apply H; reflexivity.
Qed.

(** ** Arithmetic safety *)

(** C7 (amended).  For an escrow balance from zero up to, and not
    including, 2^53 the constructor accepts the balance and the final
    reserve is strictly positive, so the division of line 496 succeeds; the
    [try] block runs to a [return] and the [catch] block is not entered; and
    the returned value is zero exactly when nothing is left to spend, which
    is exactly when tokensExpected is not positive.  From 2^53 on,
    [new BN(escrowBalance)] throws: the [try] block returns nothing and the
    [catch] block returns zero, although there is an amount to spend. *)
Theorem arithmetic_safety
    (connection : Connection) (bundlePda escrowPda pumpfunMintPubkey : PublicKey)
    (tr : Trace) (escrowBalance : Z) :
  balanceOf connection escrowPda = Some escrowBalance ->
  0 <= escrowBalance ->
  (escrowBalance < 2 ^ 53 ->
   BN.new escrowBalance = Some escrowBalance
   /\ 0 < finalSol (SOL_TO_SPEND escrowBalance)
   /\ BN.div k (finalSol (SOL_TO_SPEND escrowBalance))
      = Some (finalTokens (SOL_TO_SPEND escrowBalance))
   /\ exists v : Z,
        returned (calculateMinTokensForGraduation_try connection bundlePda escrowPda
                    pumpfunMintPubkey tr) = Some v
        /\ calculateMinTokensForGraduation connection bundlePda escrowPda
             pumpfunMintPubkey tr
           = calculateMinTokensForGraduation_try connection bundlePda escrowPda
               pumpfunMintPubkey tr
        /\ 0 <= v
        /\ (v = 0 <-> SOL_TO_SPEND escrowBalance <= 0)
        /\ (v = 0 <-> tokensOut (SOL_TO_SPEND escrowBalance) <= 0))
  /\ (2 ^ 53 <= escrowBalance ->
      BN.new escrowBalance = None
      /\ returned (calculateMinTokensForGraduation_try connection bundlePda escrowPda
                     pumpfunMintPubkey tr) = None
      /\ calculateMinTokensForGraduation connection bundlePda escrowPda
           pumpfunMintPubkey tr
         = (Some 0, trace_after_catch tr escrowPda)
      /\ 0 < SOL_TO_SPEND escrowBalance).
Proof.
  intros Hbal Hnonneg. split.
  - intros Hbound.
    assert (Hsafe : Z.abs escrowBalance < 2 ^ 53) by lia.
    pose proof (finalSol_pos_of_balance escrowBalance Hnonneg) as Hpos.
    assert (Hnz : finalSol (SOL_TO_SPEND escrowBalance) <> 0) by lia.
    split; [apply BN_new_safe; exact Hsafe |].
    split; [exact Hpos |].
    split; [apply BN_div_nonzero; exact Hnz |].
    rewrite (catch_not_entered bundlePda escrowPda pumpfunMintPubkey connection tr
               escrowBalance Hbal Hsafe Hnz).
    rewrite (try_by_cases bundlePda escrowPda pumpfunMintPubkey connection tr
               escrowBalance Hbal Hsafe Hnz).
    destruct (Z.leb_spec (tokensOut (SOL_TO_SPEND escrowBalance)) 0) as [Hle | Hgt].
    + (* the zero exit: nothing to spend *)
      assert (Hspend : SOL_TO_SPEND escrowBalance <= 0).
      { destruct (Z.le_gt_cases (SOL_TO_SPEND escrowBalance) 0) as [H | H];
          [exact H |].
        pose proof (tokensOut_positive _ H). lia. }
      exists 0. unfold returned; cbn [fst].
      repeat split; intros; try reflexivity; lia.
    + assert (Hspend : 0 < SOL_TO_SPEND escrowBalance).
      { destruct (Z.le_gt_cases (SOL_TO_SPEND escrowBalance) 0) as [H | H];
          [| exact H].
        pose proof (tokensOut_not_positive _ Hpos H). lia. }
      pose proof (tokensOut_positive _ Hspend) as Hbig.
      destruct (Z.ltb_spec INITIAL_REAL_TOKEN_RESERVES
                  (tokensOut (SOL_TO_SPEND escrowBalance))) as [Hcap | Hnorm].
      * exists cappedTokensOut. rewrite cappedTokensOut_value.
        unfold returned; cbn [fst]. repeat split; intros; try reflexivity; lia.
      * exists (minTokensOut (SOL_TO_SPEND escrowBalance)).
        assert (Hmin : 32190 <= minTokensOut (SOL_TO_SPEND escrowBalance)).
        { rewrite minTokensOut_floor by lia.
          apply Z.div_le_lower_bound; lia. }
        unfold returned; cbn [fst]. repeat split; intros; try reflexivity; lia.
  - intros Hbound.
    assert (Hunsafe : 2 ^ 53 <= Z.abs escrowBalance) by lia.
    split; [apply BN_new_unsafe; exact Hunsafe |].
    split.
    + rewrite (try_unsafe_integer bundlePda escrowPda pumpfunMintPubkey connection
                 tr escrowBalance Hbal Hunsafe).
      reflexivity.
    + split.
      * apply (exit_unsafe_integer bundlePda escrowPda pumpfunMintPubkey connection
                 tr escrowBalance Hbal Hunsafe).
      * unfold SOL_TO_SPEND, ESTIMATED_COSTS. lia.
Qed.

Lemma arithmetic_safety_witness :
  (BN.new 0 = Some 0
   /\ 0 < finalSol (SOL_TO_SPEND 0)
   /\ BN.div k (finalSol (SOL_TO_SPEND 0)) = Some (finalTokens (SOL_TO_SPEND 0))
   /\ exists v : Z,
        returned (calculateMinTokensForGraduation_try (connection_with 0)
                    "bundle" "escrow" "pumpfunMint" []) = Some v
        /\ calculateMinTokensForGraduation (connection_with 0)
             "bundle" "escrow" "pumpfunMint" []
           = calculateMinTokensForGraduation_try (connection_with 0)
               "bundle" "escrow" "pumpfunMint" []
        /\ 0 <= v
        /\ (v = 0 <-> SOL_TO_SPEND 0 <= 0)
        /\ (v = 0 <-> tokensOut (SOL_TO_SPEND 0) <= 0))
  /\ (BN.new (2 ^ 53) = None
      /\ returned (calculateMinTokensForGraduation_try (connection_with (2 ^ 53))
                     "bundle" "escrow" "pumpfunMint" []) = None
      /\ calculateMinTokensForGraduation (connection_with (2 ^ 53))
           "bundle" "escrow" "pumpfunMint" []
         = (Some 0, trace_after_catch [] "escrow")
      /\ 0 < SOL_TO_SPEND (2 ^ 53)).
Proof.
  split.
  - apply (arithmetic_safety (connection_with 0) "bundle" "escrow" "pumpfunMint" [] 0).
    + reflexivity.
    + discriminate.
    + reflexivity.
  - apply (arithmetic_safety (connection_with (2 ^ 53))
             "bundle" "escrow" "pumpfunMint" [] (2 ^ 53)).
    + reflexivity.
    + discriminate.
    + discriminate.
Defined.

(** C7 (as stated) fails: 2^53 is a non-negative balance on which the
    estimator throws inside the [try] block, at [new BN(escrowBalance)].
    The [catch] block returns zero, and neither defined condition holds:
    there is an amount to spend and tokensExpected would be positive. *)
Lemma arithmetic_throws_from_2_53 :
  0 <= 9007199254740992
  /\ 9007199254740992 = 2 ^ 53
  /\ returned (calculateMinTokensForGraduation_try (connection_with 9007199254740992)
                 "bundle" "escrow" "pumpfunMint" []) = None
  /\ calculateMinTokensForGraduation (connection_with 9007199254740992)
       "bundle" "escrow" "pumpfunMint" []
     = (Some 0,
        [Rpc_getBalance "escrow"; Error_calculating; Warn_no_slippage_protection])
  /\ ~ (SOL_TO_SPEND 9007199254740992 <= 0)
  /\ ~ (tokensOut (SOL_TO_SPEND 9007199254740992) <= 0).
Proof.
  split; [discriminate |].
  split; [reflexivity |].
  split; [reflexivity |].
  split; [reflexivity |].
  split; vm_compute; intros H; apply H; reflexivity.
Qed.

(** ** The graduation threshold *)

(** C8.  The comparison with the graduation threshold is advisory: the
    estimator returns the same value as the same function with lines 514-519
    removed, for every answer of the connection; the two runs differ only in
    the graduation warning written to the console. *)
Theorem threshold_check_is_advisory
    (connection : Connection) (bundlePda escrowPda pumpfunMintPubkey : PublicKey)
    (tr : Trace) :
  returned (calculateMinTokensForGraduation connection bundlePda escrowPda
              pumpfunMintPubkey tr)
  = returned (calculateMinTokensForGraduation_without_threshold connection
                bundlePda escrowPda pumpfunMintPubkey tr)
  /\ exists new : Trace,
       trace_of (calculateMinTokensForGraduation connection bundlePda escrowPda
                   pumpfunMintPubkey tr) = (tr ++ new)%list
       /\ trace_of (calculateMinTokensForGraduation_without_threshold connection
                      bundlePda escrowPda pumpfunMintPubkey tr)
          = (tr ++ filter (fun e => negb (is_graduation_warning e)) new)%list.
Proof.
  unfold_estimator. autorewrite with bn_literals. unfold_eff.
  unfold returned, trace_of.
  destruct (balanceOf connection escrowPda) as [escrowBalance |].
  - cbv beta iota. destruct (BN.new escrowBalance) as [escrowBalanceBN |].
    + cbv beta iota. destruct (BN.div k _) as [finalTokens' |].
      * cbv beta iota. unfold BN.mul, BN.sub, BN.lt, BN.lte, BN.gt.
        rewrite !BN_div_nonzero by discriminate. cbv beta iota.
        destruct (_ <? GRADUATION_THRESHOLD);
          destruct (_ <=? 0); [| destruct (_ <? _) | | destruct (_ <? _)];
          cbn [fst snd]; (split; [reflexivity |]);
          rewrite <- !app_assoc; eexists; (split; [reflexivity |]);
          cbn [app filter is_graduation_warning negb]; reflexivity.
      * cbn [fst snd]. split; [reflexivity |].
        rewrite <- !app_assoc. eexists. split; [reflexivity |].
        cbn [app filter is_graduation_warning negb]. reflexivity.
    + cbn [fst snd]. split; [reflexivity |].
      rewrite <- !app_assoc. eexists. split; [reflexivity |].
      cbn [app filter is_graduation_warning negb]. reflexivity.
  - cbn [fst snd]. split; [reflexivity |].
    rewrite <- !app_assoc. eexists. split; [reflexivity |].
    cbn [app filter is_graduation_warning negb]. reflexivity.
Qed.

(** ** The consumer *)

Section BuilderFacts.
Variable findProgramAddress : list Seed -> PublicKey -> PublicKey.
Variables TOKEN_PROGRAM_ID ASSOCIATED_TOKEN_PROGRAM_ID : PublicKey.
Variables SystemProgram_programId SYSVAR_RENT_PUBKEY : PublicKey.

(** Every run of the estimator starts with a balance request. *)
Lemma estimator_requests_balance
    (connection : Connection) (bundlePda escrowPda pumpfunMintPubkey : PublicKey)
    (tr : Trace) :
  exists rest : Trace,
    trace_of (calculateMinTokensForGraduation connection bundlePda escrowPda
                pumpfunMintPubkey tr)
    = (tr ++ Rpc_getBalance escrowPda :: rest)%list.
Proof.
  destruct (balanceOf connection escrowPda) as [escrowBalance |] eqn:Hbal.
  - destruct (Z.lt_ge_cases (Z.abs escrowBalance) (2 ^ 53)) as [Hsafe | Hunsafe].
    + destruct (Z.eq_dec (finalSol (SOL_TO_SPEND escrowBalance)) 0) as [Hz | Hnz].
      * rewrite (exit_division_by_zero bundlePda escrowPda pumpfunMintPubkey
                   connection tr escrowBalance Hbal Hsafe Hz).
        eexists. reflexivity.
      * rewrite (exit_by_cases bundlePda escrowPda pumpfunMintPubkey
                   connection tr escrowBalance Hbal Hsafe Hnz).
        unfold trace_before_exit.
        destruct (_ <=? 0); [| destruct (_ <? _)];
          unfold trace_of; cbn [snd]; rewrite <- ?app_assoc;
          eexists; cbn [app]; reflexivity.
    + rewrite (exit_unsafe_integer bundlePda escrowPda pumpfunMintPubkey
                 connection tr escrowBalance Hbal Hunsafe).
      eexists. reflexivity.
  - rewrite (exit_rejected bundlePda escrowPda pumpfunMintPubkey connection tr Hbal).
    eexists. reflexivity.
Qed.

(** C10.  A number passed as [minTokensOut], zero included, never enters
    the estimator: the run leaves no trace, so no balance request and no
    console line.  An instruction that is built carries the number as it
    is; one is built whenever [new BN] accepts the number, that is, below
    2^53 in absolute value, and from there on the constructor throws and
    nothing is built.  With [null], or with the property absent (the default
    is [null]), the instruction carries what the estimator returns for the
    escrow address of the mint, and the trace is the estimator's, beginning
    with its balance request. *)
Theorem estimator_bypass (params : FinalizeParams) (n : Z) (tr : Trace) :
  let build a :=
    buildFinalizePumpfunInstruction findProgramAddress
      TOKEN_PROGRAM_ID ASSOCIATED_TOKEN_PROGRAM_ID
      SystemProgram_programId SYSVAR_RENT_PUBKEY
      (with_minTokensOut params a) tr in
  let estimate :=
    calculateMinTokensForGraduation
      (provider_connection (param_program params))
      (deriveBundlePda findProgramAddress (param_mint params))
      (deriveEscrowPda findProgramAddress (param_mint params))
      (param_pumpfunMint params) tr in
  (trace_of (build (Arg_number n)) = tr
   /\ (forall built : Built,
         returned (build (Arg_number n)) = Some built ->
         ix_minTokensOut (instruction built) = n)
   /\ (Z.abs n < 2 ^ 53 -> minTokens_of (build (Arg_number n)) = Some n)
   /\ (2 ^ 53 <= Z.abs n -> returned (build (Arg_number n)) = None))
  /\ (minTokens_of (build (Arg_number 0)) = Some 0
      /\ trace_of (build (Arg_number 0)) = tr)
  /\ build Arg_undefined = build Arg_null
  /\ minTokens_of (build Arg_null) = returned estimate
  /\ trace_of (build Arg_null) = trace_of estimate
  /\ In (Rpc_getBalance (deriveEscrowPda findProgramAddress (param_mint params)))
        (trace_of (build Arg_null)).
Proof.
  intros build estimate.
  assert (Hnull : minTokens_of (build Arg_null) = returned estimate
                  /\ trace_of (build Arg_null) = trace_of estimate).
  { subst build estimate. unfold buildFinalizePumpfunInstruction, with_minTokensOut.
    cbn [param_minTokensOut default_null param_program param_mint param_payer
         param_pumpfunMint param_tokenName param_tokenSymbol param_tokenUri].
    unfold minTokens_of, returned, trace_of, Eff.bind, Eff.ret.
    destruct (calculateMinTokensForGraduation _ _ _ _ tr) as [[v |] tr'];
      split; reflexivity. }
  assert (Hnumber : build (Arg_number n)
                    = match BN.new n with
                      | Some minTokensBN =>
                          (Some {| instruction :=
                                     {| ix_tokenName := param_tokenName params;
                                        ix_tokenSymbol := param_tokenSymbol params;
                                        ix_tokenUri := param_tokenUri params;
                                        ix_minTokensOut := minTokensBN;
                                        ix_accounts :=
                                          finalize_accounts findProgramAddress
                                            TOKEN_PROGRAM_ID
                                            ASSOCIATED_TOKEN_PROGRAM_ID
                                            SystemProgram_programId
                                            SYSVAR_RENT_PUBKEY
                                            (param_payer params)
                                            (param_mint params)
                                            (param_pumpfunMint params) |} |},
                           tr)
                      | None => (None, tr)
                      end).
  { subst build. unfold buildFinalizePumpfunInstruction, with_minTokensOut.
    cbn [param_minTokensOut default_null param_program param_mint param_payer
         param_pumpfunMint param_tokenName param_tokenSymbol param_tokenUri].
    unfold Eff.bind, Eff.ret, Eff.lift.
    destruct (BN.new n); reflexivity. }
  split; [| repeat split; try reflexivity; try (apply Hnull)].
  - rewrite Hnumber. unfold minTokens_of, returned, trace_of.
    split; [destruct (BN.new n); reflexivity |].
    split.
    + intros built Hbuilt. unfold BN.new in Hbuilt.
      destruct (Z.abs n <? 2 ^ 53); cbn [fst] in Hbuilt; [| discriminate].
      injection Hbuilt as <-. reflexivity.
    + split.
      * intros Hsafe. rewrite (BN_new_safe _ Hsafe). reflexivity.
      * intros Hunsafe. rewrite (BN_new_unsafe _ Hunsafe). reflexivity.
  - destruct Hnull as [_ Htrace]. rewrite Htrace. subst estimate.
    destruct (estimator_requests_balance
                (provider_connection (param_program params))
                (deriveBundlePda findProgramAddress (param_mint params))
                (deriveEscrowPda findProgramAddress (param_mint params))
                (param_pumpfunMint params) tr) as [rest Hrest].
    rewrite Hrest. apply in_or_app. right. left. reflexivity.
Qed.
End BuilderFacts.

Lemma estimator_bypass_witness :
  minTokens_of
    (buildFinalizePumpfunInstruction (fun _ programId => programId)
       "token" "ata" "system" "rent"
       (with_minTokensOut
          {| param_program := {| provider_connection := connection_down |};
             param_mint := "mint";
             param_payer := "payer";
             param_pumpfunMint := "pump";
             param_tokenName := "name";
             param_tokenSymbol := "SYM";
             param_tokenUri := "ipfs://uri";
             param_minTokensOut := Arg_undefined |}
          (Arg_number 742821294298210)) [])
  = Some 742821294298210.
Proof.
  apply (estimator_bypass (fun _ programId => programId)
           "token" "ata" "system" "rent"
           {| param_program := {| provider_connection := connection_down |};
              param_mint := "mint";
              param_payer := "payer";
              param_pumpfunMint := "pump";
              param_tokenName := "name";
              param_tokenSymbol := "SYM";
              param_tokenUri := "ipfs://uri";
              param_minTokensOut := Arg_undefined |}
           742821294298210 []).
  reflexivity.
Defined.

(** * Further properties of the estimator *)

(** ** The exits as ranges of the escrow balance *)

Lemma tokensOut_below_ceiling : tokensOut 85005359056 <= INITIAL_REAL_TOKEN_RESERVES.
Proof. vm_compute. discriminate. Qed.

Lemma tokensOut_above_ceiling : INITIAL_REAL_TOKEN_RESERVES < tokensOut 85005359057.
Proof. reflexivity. Qed.

Lemma exit_by_balance
    (bundlePda escrowPda pumpfunMintPubkey : PublicKey) (tr : Trace)
    (escrowBalance : Z) :
  0 <= escrowBalance ->
  calculateMinTokensForGraduation (connection_with escrowBalance)
    bundlePda escrowPda pumpfunMintPubkey tr
  = if escrowBalance <=? 14500000 then
      (Some 0,
       (trace_before_exit tr escrowPda escrowBalance
          ++ [Warn_tokens_out_not_positive])%list)
    else if escrowBalance <? 85019859057 then
      (Some (tokensOut (SOL_TO_SPEND escrowBalance) * 90 / 100),
       trace_before_exit tr escrowPda escrowBalance)
    else if escrowBalance <? 9007199254740992 then
      (Some 713790000000000,
       (trace_before_exit tr escrowPda escrowBalance ++ [Warn_tokens_out_capped])%list)
    else
      (Some 0, trace_after_catch tr escrowPda).
Proof.
  intros Hnonneg.
  pose proof (finalSol_pos_of_balance escrowBalance Hnonneg) as Hpos.
  change 9007199254740992 with (2 ^ 53).
  destruct (Z.leb_spec escrowBalance 14500000) as [Hlow | Hhigh].
  - apply exit_not_positive; [reflexivity | lia | lia |].
    apply tokensOut_not_positive; [assumption | unfold SOL_TO_SPEND, ESTIMATED_COSTS; lia].
  - assert (Hspend : 0 < SOL_TO_SPEND escrowBalance)
      by (unfold SOL_TO_SPEND, ESTIMATED_COSTS; lia).
    pose proof (tokensOut_positive _ Hspend) as Hbig.
    destruct (Z.ltb_spec escrowBalance 85019859057) as [Hmid | Htop].
    + rewrite <- minTokensOut_floor by lia.
      apply exit_normal; [reflexivity | lia | lia |].
      apply Z.le_trans with (tokensOut 85005359056); [| exact tokensOut_below_ceiling].
      apply tokensOut_monotone; [assumption |].
      unfold SOL_TO_SPEND, ESTIMATED_COSTS; lia.
    + destruct (Z.ltb_spec escrowBalance (2 ^ 53)) as [Hsafe | Hunsafe].
      * rewrite <- cappedTokensOut_value.
        apply exit_capped; [reflexivity | lia | lia |].
        apply Z.lt_le_trans with (tokensOut 85005359057);
          [exact tokensOut_above_ceiling |].
        apply tokensOut_monotone; [reflexivity |].
        unfold SOL_TO_SPEND, ESTIMATED_COSTS; lia.
      * apply (exit_unsafe_integer bundlePda escrowPda pumpfunMintPubkey
                 (connection_with escrowBalance) tr escrowBalance eq_refl).
        lia.
Qed.

(** X1.  For a non-negative balance the exit is decided by the balance alone:
    up to 14_500_000 lamports the estimator returns zero; from there up to
    85_019_859_056 lamports it returns floor(tokensExpected * 90 / 100);
    from 85_019_859_057 lamports on it returns the ceiling
    713_790_000_000_000, as long as the balance is below
    2^53 = 9_007_199_254_740_992; and from 2^53 on [new BN] rejects the
    balance and the [catch] block returns zero, with nothing computed. *)
Theorem estimator_by_balance
    (bundlePda escrowPda pumpfunMintPubkey : PublicKey) (tr : Trace)
    (escrowBalance : Z) :
  0 <= escrowBalance ->
  calculateMinTokensForGraduation (connection_with escrowBalance)
    bundlePda escrowPda pumpfunMintPubkey tr
  = if escrowBalance <=? 14500000 then
      (Some 0,
       (trace_before_exit tr escrowPda escrowBalance
          ++ [Warn_tokens_out_not_positive])%list)
    else if escrowBalance <? 85019859057 then
      (Some (tokensOut (SOL_TO_SPEND escrowBalance) * 90 / 100),
       trace_before_exit tr escrowPda escrowBalance)
    else if escrowBalance <? 9007199254740992 then
      (Some 713790000000000,
       (trace_before_exit tr escrowPda escrowBalance ++ [Warn_tokens_out_capped])%list)
    else
      (Some 0, trace_after_catch tr escrowPda).
Proof. apply exit_by_balance. Qed.

Lemma estimator_by_balance_witness :
  calculateMinTokensForGraduation (connection_with 85019859056)
    "bundle" "escrow" "pumpfunMint" []
  = if 85019859056 <=? 14500000 then
      (Some 0,
       (trace_before_exit [] "escrow" 85019859056
          ++ [Warn_tokens_out_not_positive])%list)
    else if 85019859056 <? 85019859057 then
      (Some (tokensOut (SOL_TO_SPEND 85019859056) * 90 / 100),
       trace_before_exit [] "escrow" 85019859056)
    else if 85019859056 <? 9007199254740992 then
      (Some 713790000000000,
       (trace_before_exit [] "escrow" 85019859056 ++ [Warn_tokens_out_capped])%list)
    else
      (Some 0, trace_after_catch [] "escrow").
Proof.
  apply (estimator_by_balance "bundle" "escrow" "pumpfunMint" [] 85019859056).
  discriminate.
Defined.

(** ** The returned floor grows with the escrow *)

Lemma returned_value_cases (spend : Z) :
  0 < finalSol spend ->
  let v := if tokensOut spend <=? 0 then 0
           else if INITIAL_REAL_TOKEN_RESERVES <? tokensOut spend then cappedTokensOut
           else minTokensOut spend in
  0 <= v <= cappedTokensOut
  /\ (0 < tokensOut spend -> v <= tokensOut spend).
Proof.
  intros Hpos v. subst v. rewrite cappedTokensOut_value.
  destruct (Z.leb_spec (tokensOut spend) 0) as [Hle | Hgt]; [lia |].
  destruct (Z.ltb_spec INITIAL_REAL_TOKEN_RESERVES (tokensOut spend)) as [Hcap | Hnorm].
  - unfold INITIAL_REAL_TOKEN_RESERVES in Hcap. lia.
  - pose proof (minTokensOut_le spend) as H1.
    pose proof (minTokensOut_le_capped spend) as H2.
    rewrite cappedTokensOut_value in H2. lia.
Qed.

(** X2.  Below 2^53 lamports a larger escrow never lowers the slippage
    floor: for balances from zero up to, and not including, 2^53 the
    returned value is monotone in the balance.  It is not monotone beyond:
    from 2^53 on [new BN] rejects the balance and the estimator returns
    zero. *)
Theorem estimator_monotone
    (bundlePda escrowPda pumpfunMintPubkey : PublicKey) (tr1 tr2 : Trace)
    (balance1 balance2 : Z) :
  0 <= balance1 -> balance1 <= balance2 ->
  exists v1 v2 : Z,
    returned (calculateMinTokensForGraduation (connection_with balance1)
                bundlePda escrowPda pumpfunMintPubkey tr1) = Some v1
    /\ returned (calculateMinTokensForGraduation (connection_with balance2)
                   bundlePda escrowPda pumpfunMintPubkey tr2) = Some v2
    /\ (balance2 < 2 ^ 53 -> v1 <= v2)
    /\ (2 ^ 53 <= balance2 -> v2 = 0).
Proof.
  intros Hnonneg Hle.
  assert (Hnonneg2 : 0 <= balance2) by lia.
  pose proof (finalSol_pos_of_balance _ Hnonneg) as Hpos1.
  pose proof (finalSol_pos_of_balance _ Hnonneg2) as Hpos2.
  assert (Hmono : tokensOut (SOL_TO_SPEND balance1) <= tokensOut (SOL_TO_SPEND balance2))
    by (apply tokensOut_monotone; [assumption | unfold SOL_TO_SPEND; lia]).
  destruct (Z.lt_ge_cases balance1 (2 ^ 53)) as [Hsafe1 | Hunsafe1];
    [| rewrite (exit_unsafe_integer bundlePda escrowPda pumpfunMintPubkey
                  (connection_with balance1) tr1 balance1 eq_refl) by lia;
       rewrite (exit_unsafe_integer bundlePda escrowPda pumpfunMintPubkey
                  (connection_with balance2) tr2 balance2 eq_refl) by lia;
       do 2 eexists;
       (split; [reflexivity | split; [reflexivity | split; intros; [lia | reflexivity]]])].
  rewrite (exit_by_cases bundlePda escrowPda pumpfunMintPubkey
             (connection_with balance1) tr1 balance1 eq_refl) by lia.
  destruct (Z.lt_ge_cases balance2 (2 ^ 53)) as [Hsafe2 | Hunsafe2].
  - rewrite (exit_by_cases bundlePda escrowPda pumpfunMintPubkey
               (connection_with balance2) tr2 balance2 eq_refl) by lia.
    pose proof (returned_value_cases _ Hpos2) as [Hv2 _]. cbv zeta in Hv2.
    rewrite cappedTokensOut_value in *.
    destruct (Z.leb_spec (tokensOut (SOL_TO_SPEND balance1)) 0) as [Hz1 | Hp1].
    + (* nothing to spend at the smaller balance *)
      destruct (tokensOut (SOL_TO_SPEND balance2) <=? 0);
        [| destruct (INITIAL_REAL_TOKEN_RESERVES <? tokensOut (SOL_TO_SPEND balance2))];
        do 2 eexists;
        (split; [reflexivity | split; [reflexivity | split; intros; lia]]).
    + destruct (Z.leb_spec (tokensOut (SOL_TO_SPEND balance2)) 0) as [Hz2 | Hp2];
        [lia |].
      destruct (Z.ltb_spec INITIAL_REAL_TOKEN_RESERVES
                  (tokensOut (SOL_TO_SPEND balance1))) as [Hc1 | Hn1];
        destruct (Z.ltb_spec INITIAL_REAL_TOKEN_RESERVES
                    (tokensOut (SOL_TO_SPEND balance2))) as [Hc2 | Hn2];
        try (exfalso; lia); do 2 eexists;
        (split; [reflexivity | split; [reflexivity | split; [intros _ | intros; lia]]]).
      * reflexivity.
      * pose proof (minTokensOut_le_capped (SOL_TO_SPEND balance1)) as H.
        rewrite cappedTokensOut_value in H. apply H; lia.
      * rewrite !minTokensOut_floor by lia.
        apply Z.div_le_mono; lia.
  - rewrite (exit_unsafe_integer bundlePda escrowPda pumpfunMintPubkey
               (connection_with balance2) tr2 balance2 eq_refl) by lia.
    destruct (tokensOut (SOL_TO_SPEND balance1) <=? 0);
      [| destruct (INITIAL_REAL_TOKEN_RESERVES <? tokensOut (SOL_TO_SPEND balance1))];
      do 2 eexists;
      (split; [reflexivity | split; [reflexivity | split; intros; [lia | reflexivity]]]).
Qed.

Lemma estimator_monotone_witness :
  exists v1 v2 : Z,
    returned (calculateMinTokensForGraduation (connection_with 1000000000)
                "bundle" "escrow" "pumpfunMint" []) = Some v1
    /\ returned (calculateMinTokensForGraduation (connection_with 2000000000)
                   "bundle" "escrow" "pumpfunMint" []) = Some v2
    /\ (2000000000 < 2 ^ 53 -> v1 <= v2)
    /\ (2 ^ 53 <= 2000000000 -> v2 = 0).
Proof.
  apply (estimator_monotone "bundle" "escrow" "pumpfunMint" [] [] 1000000000 2000000000).
  - discriminate.
  - discriminate.
Defined.

(** ** The logged figure and the returned one *)

Lemma logged_after_request (escrowPda : PublicKey) (escrowBalance : Z) (rest : Trace) :
  logged_minTokensOut
    ((trace_before_exit [] escrowPda escrowBalance ++ rest)%list)
  = Some (minTokensOut (SOL_TO_SPEND escrowBalance)).
Proof. reflexivity. Qed.

(** X3.  For a balance below 2^53 the [Min Tokens (90%)] line of the
    console shows the value that is returned only on the normal exit.  On
    the capped exit the printed figure is strictly larger than the returned
    ceiling, and on the zero exit it is not positive while zero is returned.
    From 2^53 on the line is not printed at all, and zero is returned. *)
Theorem logged_floor_versus_returned
    (bundlePda escrowPda pumpfunMintPubkey : PublicKey) (escrowBalance : Z) :
  0 <= escrowBalance ->
  (escrowBalance < 2 ^ 53 ->
   exists logged v : Z,
     logged_minTokensOut
       (trace_of (calculateMinTokensForGraduation (connection_with escrowBalance)
                    bundlePda escrowPda pumpfunMintPubkey [])) = Some logged
     /\ returned (calculateMinTokensForGraduation (connection_with escrowBalance)
                    bundlePda escrowPda pumpfunMintPubkey []) = Some v
     /\ (escrowBalance <= 14500000 -> logged <= 0 /\ v = 0)
     /\ (14500000 < escrowBalance < 85019859057 -> v = logged)
     /\ (85019859057 <= escrowBalance -> v = 713790000000000 /\ v < logged))
  /\ (2 ^ 53 <= escrowBalance ->
      logged_minTokensOut
        (trace_of (calculateMinTokensForGraduation (connection_with escrowBalance)
                     bundlePda escrowPda pumpfunMintPubkey [])) = None
      /\ returned (calculateMinTokensForGraduation (connection_with escrowBalance)
                     bundlePda escrowPda pumpfunMintPubkey []) = Some 0).
Proof.
  intros Hnonneg.
  pose proof (finalSol_pos_of_balance escrowBalance Hnonneg) as Hpos.
  rewrite (exit_by_balance bundlePda escrowPda pumpfunMintPubkey []
             escrowBalance Hnonneg).
  change 9007199254740992 with (2 ^ 53).
  split.
  - intros Hsafe.
    exists (minTokensOut (SOL_TO_SPEND escrowBalance)).
    destruct (Z.leb_spec escrowBalance 14500000) as [Hlow | Hhigh].
    + exists 0. unfold trace_of, returned; cbn [fst snd].
      rewrite logged_after_request.
      split; [reflexivity | split; [reflexivity |]].
      split; [| split; intros; lia].
      intros _. split; [| reflexivity].
      assert (Ht : tokensOut (SOL_TO_SPEND escrowBalance) <= 0)
        by (apply tokensOut_not_positive;
            [assumption | unfold SOL_TO_SPEND, ESTIMATED_COSTS; lia]).
      unfold minTokensOut.
      apply Z.quot_le_upper_bound; lia.
    + assert (Hspend : 0 < SOL_TO_SPEND escrowBalance)
        by (unfold SOL_TO_SPEND, ESTIMATED_COSTS; lia).
      pose proof (tokensOut_positive _ Hspend) as Hbig.
      destruct (Z.ltb_spec escrowBalance 85019859057) as [Hmid | Htop].
      * exists (minTokensOut (SOL_TO_SPEND escrowBalance)).
        unfold trace_of, returned; cbn [fst snd].
        rewrite <- (app_nil_r (trace_before_exit _ _ _)), logged_after_request.
        rewrite minTokensOut_floor by lia.
        split; [reflexivity | split; [reflexivity |]].
        split; [| split]; intros; try lia; reflexivity.
      * destruct (Z.ltb_spec escrowBalance (2 ^ 53)) as [_ | Hunsafe]; [| lia].
        exists 713790000000000. unfold trace_of, returned; cbn [fst snd].
        rewrite logged_after_request.
        split; [reflexivity | split; [reflexivity |]].
        split; [| split]; intros; try lia.
        split; [reflexivity |].
        assert (Ht : tokensOut 85005359057 <= tokensOut (SOL_TO_SPEND escrowBalance))
          by (apply tokensOut_monotone;
              [reflexivity | unfold SOL_TO_SPEND, ESTIMATED_COSTS; lia]).
        change (tokensOut 85005359057) with 793100000000473 in Ht.
        rewrite minTokensOut_floor by lia.
        apply Z.lt_le_trans with (793100000000473 * 90 / 100); [reflexivity |].
        apply Z.div_le_mono; lia.
  - intros Hunsafe.
    destruct (Z.leb_spec escrowBalance 14500000) as [Hlow | _]; [lia |].
    destruct (Z.ltb_spec escrowBalance 85019859057) as [Hmid | _]; [lia |].
    destruct (Z.ltb_spec escrowBalance (2 ^ 53)) as [Hsafe | _]; [lia |].
    split; reflexivity.
Qed.

Lemma logged_floor_versus_returned_witness :
  (exists logged v : Z,
     logged_minTokensOut
       (trace_of (calculateMinTokensForGraduation (connection_with 100000000000)
                    "bundle" "escrow" "pumpfunMint" [])) = Some logged
     /\ returned (calculateMinTokensForGraduation (connection_with 100000000000)
                    "bundle" "escrow" "pumpfunMint" []) = Some v
     /\ (100000000000 <= 14500000 -> logged <= 0 /\ v = 0)
     /\ (14500000 < 100000000000 < 85019859057 -> v = logged)
     /\ (85019859057 <= 100000000000 -> v = 713790000000000 /\ v < logged))
  /\ (logged_minTokensOut
        (trace_of (calculateMinTokensForGraduation (connection_with (2 ^ 53))
                     "bundle" "escrow" "pumpfunMint" [])) = None
      /\ returned (calculateMinTokensForGraduation (connection_with (2 ^ 53))
                     "bundle" "escrow" "pumpfunMint" []) = Some 0).
Proof.
  split.
  - apply (logged_floor_versus_returned "bundle" "escrow" "pumpfunMint" 100000000000).
    + discriminate.
    + reflexivity.
  - apply (logged_floor_versus_returned "bundle" "escrow" "pumpfunMint" (2 ^ 53)).
    + discriminate.
    + discriminate.
Defined.

(** ** When the [catch] block runs *)

Lemma no_error_before_exit (escrowPda : PublicKey) (escrowBalance : Z) (last : Trace) :
  ~ In Error_calculating last ->
  ~ In Error_calculating
      ([Rpc_getBalance escrowPda; Log_calculation (calculation_of escrowBalance)]
         ++ graduation_warning escrowBalance ++ last)%list.
Proof.
  intros Hlast Hin. unfold graduation_warning in Hin.
  destruct (SOL_TO_SPEND escrowBalance <? GRADUATION_THRESHOLD); cbn in Hin;
    repeat (destruct Hin as [Hin | Hin]; [discriminate Hin |]);
    apply Hlast; exact Hin.
Qed.

Lemma one_request_before_exit (escrowPda : PublicKey) (escrowBalance : Z) (last : Trace) :
  filter is_balance_request last = [] ->
  List.length (filter is_balance_request
            ([Rpc_getBalance escrowPda; Log_calculation (calculation_of escrowBalance)]
               ++ graduation_warning escrowBalance ++ last)%list) = 1%nat.
Proof.
  intros Hlast. unfold graduation_warning.
  destruct (SOL_TO_SPEND escrowBalance <? GRADUATION_THRESHOLD);
    cbn [app filter is_balance_request]; rewrite Hlast; reflexivity.
Qed.

(** X4.  Every run sends exactly one balance request, and the [catch] block
    runs in three cases only: the request is rejected; the balance is
    ESTIMATED_COSTS - VIRTUAL_SOL_RESERVES, the one value that makes the
    divisor zero; or the balance is 2^53 or more in absolute value, where
    [new BN] rejects it. *)
Theorem catch_block_cases
    (connection : Connection) (bundlePda escrowPda pumpfunMintPubkey : PublicKey)
    (tr : Trace) :
  exists new : Trace,
    trace_of (calculateMinTokensForGraduation connection bundlePda escrowPda
                pumpfunMintPubkey tr) = (tr ++ new)%list
    /\ List.length (filter is_balance_request new) = 1%nat
    /\ (In Error_calculating new <->
        balanceOf connection escrowPda = None
        \/ balanceOf connection escrowPda
           = Some (ESTIMATED_COSTS - VIRTUAL_SOL_RESERVES)
        \/ exists escrowBalance : Z,
             balanceOf connection escrowPda = Some escrowBalance
             /\ 2 ^ 53 <= Z.abs escrowBalance).
Proof.
  destruct (balanceOf connection escrowPda) as [escrowBalance |] eqn:Hbal.
  - destruct (Z.lt_ge_cases (Z.abs escrowBalance) (2 ^ 53)) as [Hsafe | Hunsafe].
    + destruct (Z.eq_dec (finalSol (SOL_TO_SPEND escrowBalance)) 0) as [Hz | Hnz].
      * rewrite (exit_division_by_zero bundlePda escrowPda pumpfunMintPubkey
                   connection tr escrowBalance Hbal Hsafe Hz).
        eexists. split; [reflexivity |]. split; [reflexivity |].
        split; [intros _; right; left | intros _; cbn; tauto].
        f_equal. unfold finalSol, SOL_TO_SPEND in Hz. lia.
      * assert (Hne : escrowBalance <> ESTIMATED_COSTS - VIRTUAL_SOL_RESERVES)
          by (unfold finalSol, SOL_TO_SPEND in Hnz; lia).
        assert (Hiff : forall new : Trace, ~ In Error_calculating new ->
                  In Error_calculating new <->
                  Some escrowBalance = None
                  \/ Some escrowBalance = Some (ESTIMATED_COSTS - VIRTUAL_SOL_RESERVES)
                  \/ exists escrowBalance' : Z,
                       Some escrowBalance = Some escrowBalance'
                       /\ 2 ^ 53 <= Z.abs escrowBalance').
        { intros new Hno. split; [intros H; contradiction |].
          intros [H | [H | [b [H Hb]]]];
            [discriminate H | injection H as H; contradiction |].
          injection H as <-. lia. }
        rewrite (exit_by_cases bundlePda escrowPda pumpfunMintPubkey
                   connection tr escrowBalance Hbal Hsafe Hnz).
        unfold trace_before_exit.
        destruct (_ <=? 0); [| destruct (_ <? _)];
          unfold trace_of; cbn [snd]; rewrite <- ?app_assoc.
        -- eexists. split; [reflexivity |].
           split; [apply one_request_before_exit; reflexivity |].
           apply Hiff, no_error_before_exit.
           intros [H | []]; discriminate H.
        -- eexists. split; [reflexivity |].
           split; [apply one_request_before_exit; reflexivity |].
           apply Hiff, no_error_before_exit.
           intros [H | []]; discriminate H.
        -- eexists.
           split; [rewrite <- (app_nil_r (graduation_warning _)) at 1; reflexivity |].
           split; [apply one_request_before_exit; reflexivity |].
           apply Hiff, no_error_before_exit. intros [].
    + rewrite (exit_unsafe_integer bundlePda escrowPda pumpfunMintPubkey
                 connection tr escrowBalance Hbal Hunsafe).
      eexists. split; [reflexivity |]. split; [reflexivity |].
      split; [intros _; right; right | intros _; cbn; tauto].
      exists escrowBalance. split; [reflexivity | exact Hunsafe].
  - rewrite (exit_rejected bundlePda escrowPda pumpfunMintPubkey connection tr Hbal).
    eexists. split; [reflexivity |]. split; [reflexivity |].
    split; [intros _; left; reflexivity | intros _; cbn; tauto].
Qed.

(** The estimator returns a value on every run. *)
Lemma estimator_returns
    (connection : Connection) (bundlePda escrowPda pumpfunMintPubkey : PublicKey)
    (tr : Trace) :
  exists v : Z,
    returned (calculateMinTokensForGraduation connection bundlePda escrowPda
                pumpfunMintPubkey tr) = Some v.
Proof.
  destruct (balanceOf connection escrowPda) as [escrowBalance |] eqn:Hbal.
  - destruct (Z.lt_ge_cases (Z.abs escrowBalance) (2 ^ 53)) as [Hsafe | Hunsafe].
    + destruct (Z.eq_dec (finalSol (SOL_TO_SPEND escrowBalance)) 0) as [Hz | Hnz].
      * rewrite (exit_division_by_zero bundlePda escrowPda pumpfunMintPubkey
                   connection tr escrowBalance Hbal Hsafe Hz).
        eexists. reflexivity.
      * rewrite (exit_by_cases bundlePda escrowPda pumpfunMintPubkey
                   connection tr escrowBalance Hbal Hsafe Hnz).
        destruct (_ <=? 0); [| destruct (_ <? _)]; eexists; reflexivity.
    + rewrite (exit_unsafe_integer bundlePda escrowPda pumpfunMintPubkey
                 connection tr escrowBalance Hbal Hunsafe).
      eexists. reflexivity.
  - rewrite (exit_rejected bundlePda escrowPda pumpfunMintPubkey connection tr Hbal).
    eexists. reflexivity.
Qed.

(** * Properties of the address derivations and of the builders *)

(** ** The 64-bit seed buffer *)

Lemma le_bytes_length (count : nat) (n : Z) : String.length (le_bytes count n) = count.
Proof.
  revert n. induction count as [| count IH]; intros n; cbn; [reflexivity |].
  now rewrite IH.
Qed.

Lemma le_value_le_bytes (count : nat) (n : Z) :
  0 <= n < 256 ^ Z.of_nat count -> le_value (le_bytes count n) = n.
Proof.
  revert n. induction count as [| count IH]; intros n Hn.
  - cbn in *. lia.
  - cbn [le_bytes le_value].
    assert (Hmod : 0 <= n mod 256 < 256) by (apply Z.mod_pos_bound; lia).
    rewrite N_ascii_embedding by lia.
    rewrite Z2N.id by lia.
    rewrite IH.
    + pose proof (Z.div_mod n 256). lia.
    + rewrite Nat2Z.inj_succ, Z.pow_succ_r in Hn by lia.
      split; [apply Z.div_pos; lia |].
      apply Z.div_lt_upper_bound; lia.
Qed.

(** X5.  The seed buffer of a nonce or of an order id is its unsigned 64-bit
    little-endian encoding: for an integer in range the write succeeds with
    a buffer of eight bytes that decodes to the same integer. *)
Theorem writeBigUInt64LE_round_trip (n : Z) :
  0 <= n -> n < 2 ^ 64 ->
  exists buffer : string,
    writeBigUInt64LE n = Ok buffer
    /\ String.length buffer = 8%nat
    /\ le_value buffer = n.
Proof.
  intros Hlo Hhi. exists (le_bytes 8 n). unfold writeBigUInt64LE.
  destruct (Z.leb_spec 0 n); [| lia].
  destruct (Z.ltb_spec n (2 ^ 64)); [| lia].
  split; [reflexivity |]. split; [apply le_bytes_length |].
  apply le_value_le_bytes. change (256 ^ Z.of_nat 8) with (2 ^ 64). lia.
Qed.

Lemma writeBigUInt64LE_round_trip_witness :
  exists buffer : string,
    writeBigUInt64LE 1700000000000 = Ok buffer
    /\ String.length buffer = 8%nat
    /\ le_value buffer = 1700000000000.
Proof.
  apply (writeBigUInt64LE_round_trip 1700000000000).
  - discriminate.
  - reflexivity.
Defined.

Lemma writeBigUInt64LE_out_of_range (n : Z) :
  n < 0 \/ 2 ^ 64 <= n -> writeBigUInt64LE n = Throw RangeError_out_of_range.
Proof.
  intros Hn. unfold writeBigUInt64LE.
  destruct (Z.leb_spec 0 n); [| reflexivity].
  destruct (Z.ltb_spec n (2 ^ 64)); [lia | reflexivity].
Qed.

Lemma writeBigUInt64LE_injective (n1 n2 : Z) (buffer : string) :
  writeBigUInt64LE n1 = Ok buffer -> writeBigUInt64LE n2 = Ok buffer -> n1 = n2.
Proof.
  unfold writeBigUInt64LE. intros H1 H2.
  destruct (Z.leb_spec 0 n1); [| discriminate H1].
  destruct (Z.ltb_spec n1 (2 ^ 64)); [| discriminate H1].
  destruct (Z.leb_spec 0 n2); [| discriminate H2].
  destruct (Z.ltb_spec n2 (2 ^ 64)); [| discriminate H2].
  cbn [andb] in H1, H2.
  assert (E1 : le_bytes 8 n1 = buffer) by congruence.
  assert (E2 : le_bytes 8 n2 = buffer) by congruence.
  assert (R1 : le_value (le_bytes 8 n1) = n1)
    by (apply le_value_le_bytes; change (256 ^ Z.of_nat 8) with (2 ^ 64); lia).
  assert (R2 : le_value (le_bytes 8 n2) = n2)
    by (apply le_value_le_bytes; change (256 ^ Z.of_nat 8) with (2 ^ 64); lia).
  rewrite E1 in R1. rewrite E2 in R2. congruence.
Qed.

(** ** The instruction discriminator *)

Lemma find_first {A} (f : A -> bool) (l : list A) (a : A) :
  find f l = Some a ->
  exists before after,
    l = (before ++ a :: after)%list /\ f a = true
    /\ forall x, In x before -> f x = false.
Proof.
  induction l as [| b l IH]; cbn; [discriminate |].
  destruct (f b) eqn:Hfb.
  - intros [= <-]. exists [], l. repeat split; [assumption | intros x []].
  - intros Hfind. destruct (IH Hfind) as (before & after & -> & Hfa & Hbefore).
    exists (b :: before), after. repeat split; [assumption |].
    intros x [<- | Hin]; [assumption | apply Hbefore; assumption].
Qed.

(** X6.  [getInstructionDiscriminator] throws exactly when no instruction of
    the IDL has the name asked for; otherwise it returns the discriminator
    of the first instruction with that name. *)
Theorem getInstructionDiscriminator_lookup
    (idl_instructions : list IdlInstruction) (name : string) :
  (getInstructionDiscriminator idl_instructions name
   = Throw (Error_message ("Instruction " ++ name ++ " not found in IDL"))
   <-> forall ix, In ix idl_instructions -> idl_name ix <> name)
  /\ (forall data,
        getInstructionDiscriminator idl_instructions name = Ok data ->
        exists before ix after,
          idl_instructions = (before ++ ix :: after)%list
          /\ idl_name ix = name /\ idl_discriminator ix = data
          /\ forall other, In other before -> idl_name other <> name).
Proof.
  unfold getInstructionDiscriminator.
  destruct (find _ idl_instructions) as [found |] eqn:Hfind.
  - split.
    + split; [discriminate |]. intros Hnone.
      destruct (find_first _ _ _ Hfind) as (before & after & Hl & Hname & _).
      apply String.eqb_eq in Hname. exfalso.
      apply (Hnone found); [rewrite Hl; apply in_elt | assumption].
    + intros data [= <-].
      destruct (find_first _ _ _ Hfind) as (before & after & Hl & Hname & Hbefore).
      exists before, found, after.
      split; [assumption |]. split; [apply String.eqb_eq; assumption |].
      split; [reflexivity |].
      intros other Hin. apply String.eqb_neq. apply Hbefore. assumption.
  - split; [| discriminate].
    split; [intros _ | reflexivity].
    intros ix Hin. apply String.eqb_neq.
    apply (find_none _ _ Hfind). assumption.
Qed.

Lemma BN_new_accepts (n : Z) : Z.abs n < 2 ^ 53 -> BN_new n = Ok n.
Proof. intros Hsafe. unfold BN_new. now rewrite (BN_new_safe _ Hsafe). Qed.

Lemma BN_new_rejects (n : Z) :
  2 ^ 53 <= Z.abs n -> BN_new n = Throw (Error_message "Assertion failed").
Proof. intros Hunsafe. unfold BN_new. now rewrite (BN_new_unsafe _ Hunsafe). Qed.

(** Case analysis on every [new BN] of a builder. *)
Ltac destruct_BN_new :=
  unfold BN_new;
  repeat match goal with
         | |- context [BN.new ?n] => destruct (BN.new n); cbn [Result_bind]
         end.

Section BuildersFacts.
Variable findProgramAddress : list Seed -> PublicKey -> PublicKey.
Variable getAssociatedTokenAddressSync :
  PublicKey -> PublicKey -> bool -> Result PublicKey.
Variables TOKEN_PROGRAM_ID ASSOCIATED_TOKEN_PROGRAM_ID : PublicKey.
Variables SystemProgram_programId SYSVAR_RENT_PUBKEY : PublicKey.
Variable idl_instructions : list IdlInstruction.

(** ** Unstaking *)

(** X7.  Both unstake builders call [deriveUnstakeVaultPda] with the mint
    alone, although it reads [user.toBuffer()]: whatever the arguments, they
    throw a TypeError and build no instruction. *)
Theorem unstake_builders_always_throw
    (mint user : PublicKey) (amountBtoken : Z)
    (destination realMint : option PublicKey) :
  buildExecuteUnstakeInstruction findProgramAddress getAssociatedTokenAddressSync
    TOKEN_PROGRAM_ID mint user amountBtoken realMint
  = Throw (TypeError_of_undefined "toBuffer")
  /\ buildWithdrawUnstakedInstruction findProgramAddress getAssociatedTokenAddressSync
       TOKEN_PROGRAM_ID SystemProgram_programId mint user destination realMint
     = Throw (TypeError_of_undefined "toBuffer").
Proof. split; reflexivity. Qed.

(** The derivation itself works when it is given the user. *)
Lemma deriveUnstakeVaultPda_with_user (mint user : PublicKey) :
  deriveUnstakeVaultPda findProgramAddress mint (Some user)
  = Ok (findProgramAddress
          [Seed_text "unstake_vault_v2"; Seed_key mint; Seed_key user]
          BUNDLY_PROGRAM_ID).
Proof. reflexivity. Qed.

(** ** Creating a bundle *)

(** X8.  [buildInitBundleInstruction] throws a RangeError exactly when the
    nonce is outside the unsigned 64-bit range.  Otherwise the mint and the
    bundle it returns are the ones named in the instruction, and the bundle
    and escrow accounts are derived from that mint. *)
Theorem initBundle_nonce_and_accounts
    (creator : PublicKey) (nonce : Z) (decimals : option Z)
    (capLamports totalSupply : Z) (unstakeCooldown : option Z) :
  (buildInitBundleInstruction findProgramAddress TOKEN_PROGRAM_ID
     SystemProgram_programId SYSVAR_RENT_PUBKEY
     creator nonce decimals capLamports totalSupply unstakeCooldown
   = Throw RangeError_out_of_range
   <-> nonce < 0 \/ 2 ^ 64 <= nonce)
  /\ (forall built,
        buildInitBundleInstruction findProgramAddress TOKEN_PROGRAM_ID
          SystemProgram_programId SYSVAR_RENT_PUBKEY
          creator nonce decimals capLamports totalSupply unstakeCooldown
        = Ok built ->
        0 <= nonce < 2 ^ 64
        /\ account_named "mint" (call_accounts (init_instruction built))
           = Some (init_mint built)
        /\ account_named "bundle" (call_accounts (init_instruction built))
           = Some (init_bundle built)
        /\ init_bundle built = deriveBundlePda findProgramAddress (init_mint built)
        /\ account_named "escrow" (call_accounts (init_instruction built))
           = Some (deriveEscrowPda findProgramAddress (init_mint built))).
Proof.
  unfold buildInitBundleInstruction, deriveMintPda, writeBigUInt64LE.
  destruct (Z.leb_spec 0 nonce) as [Hlo | Hlo];
    [destruct (Z.ltb_spec nonce (2 ^ 64)) as [Hhi | Hhi] |]; cbn [andb Result_bind].
  - destruct_BN_new;
      (split; [split; [discriminate | lia] |]); try discriminate.
    intros built [= <-]. cbn. repeat split; assumption.
  - split; [split; [intros _; lia | reflexivity] | discriminate].
  - split; [split; [intros _; lia | reflexivity] | discriminate].
Qed.

(** ** One escrow from creation to launch *)

(** X9.  The escrow account that a swap instruction pays into is the escrow
    account named in the finalize instruction of the same mint, and it is
    the account whose balance the estimator requests when finalize is built
    without [minTokensOut]. *)
Theorem finalize_reads_the_swap_escrow
    (params : FinalizeParams) (user : PublicKey) (amountLamports : Z)
    (minTokensOut : option Z) (swap : MethodCall) (tr : Trace) :
  buildSwapInstruction findProgramAddress getAssociatedTokenAddressSync
    TOKEN_PROGRAM_ID SystemProgram_programId
    (param_mint params) user amountLamports minTokensOut = Ok swap ->
  exists (escrow : PublicKey) (built : Built) (tr' : Trace),
    account_named "escrow" (call_accounts swap) = Some escrow
    /\ buildFinalizePumpfunInstruction findProgramAddress
         TOKEN_PROGRAM_ID ASSOCIATED_TOKEN_PROGRAM_ID
         SystemProgram_programId SYSVAR_RENT_PUBKEY
         (with_minTokensOut params Arg_null) tr = (Some built, tr')
    /\ account_named "escrow" (ix_accounts (instruction built)) = Some escrow
    /\ In (Rpc_getBalance escrow) tr'.
Proof.
  unfold buildSwapInstruction.
  destruct (getAssociatedTokenAddressSync _ _ _) as [userTokenAccount | e];
    cbn [Result_bind]; [| discriminate].
  destruct_BN_new; try discriminate.
  intros [= <-].
  exists (deriveEscrowPda findProgramAddress (param_mint params)).
  unfold buildFinalizePumpfunInstruction, with_minTokensOut.
  cbn [param_minTokensOut default_null param_program param_mint param_payer
       param_pumpfunMint param_tokenName param_tokenSymbol param_tokenUri].
  unfold Eff.bind, Eff.ret.
  destruct (estimator_requests_balance
              (provider_connection (param_program params))
              (deriveBundlePda findProgramAddress (param_mint params))
              (deriveEscrowPda findProgramAddress (param_mint params))
              (param_pumpfunMint params) tr) as [rest Hrest].
  destruct (estimator_returns
              (provider_connection (param_program params))
              (deriveBundlePda findProgramAddress (param_mint params))
              (deriveEscrowPda findProgramAddress (param_mint params))
              (param_pumpfunMint params) tr) as [v Hv].
  destruct (calculateMinTokensForGraduation _ _ _ _ tr) as [r tr'] eqn:Hrun.
  unfold returned, trace_of in *. cbn [fst snd] in *. subst r tr'.
  do 2 eexists. split; [reflexivity |]. split; [reflexivity |].
  split; [reflexivity |].
  apply in_or_app. right. left. reflexivity.
Qed.

(** ** The raw claim instruction *)

(** X10.  When the Anchor builder of [claimRewards] succeeds and the IDL has
    a [claim_rewards] entry, the raw builder succeeds on the same arguments
    and lists the same accounts in the same order, with the user as the only
    signer, the bundle mint writable, and the IDL discriminator as data. *)
Theorem raw_claim_matches_anchor
    (programId : option PublicKey) (mint user : PublicKey)
    (realMint : option PublicKey) (call : MethodCall) (data : list Init.Byte.byte) :
  buildClaimRewardsInstruction findProgramAddress getAssociatedTokenAddressSync
    TOKEN_PROGRAM_ID ASSOCIATED_TOKEN_PROGRAM_ID SystemProgram_programId
    mint user realMint = Ok call ->
  getInstructionDiscriminator idl_instructions "claim_rewards" = Ok data ->
  exists raw : TransactionInstruction,
    buildClaimRewardsInstructionRaw findProgramAddress getAssociatedTokenAddressSync
      TOKEN_PROGRAM_ID ASSOCIATED_TOKEN_PROGRAM_ID SystemProgram_programId
      idl_instructions programId mint user realMint = Ok raw
    /\ map pubkey (ti_keys raw) = map snd (call_accounts call)
    /\ map pubkey (filter isSigner (ti_keys raw)) = [user]
    /\ In (account_meta mint false true) (ti_keys raw)
    /\ ti_data raw = data
    /\ ti_programId raw = or_else programId BUNDLY_PROGRAM_ID.
Proof.
  unfold buildClaimRewardsInstruction, buildClaimRewardsInstructionRaw.
  destruct (deriveGlobalFeeTokenAccount _ _) as [globalFee | e];
    cbn [Result_bind]; [| discriminate].
  destruct (getAssociatedTokenAddressSync mint user false) as [userBtoken | e];
    cbn [Result_bind]; [| discriminate].
  destruct (getAssociatedTokenAddressSync (or_else realMint mint) user false)
    as [userReal | e]; cbn [Result_bind]; [| discriminate].
  intros [= <-] ->. cbn [Result_bind].
  eexists. split; [reflexivity |].
  cbn. repeat split; try reflexivity. tauto.
Qed.

(** ** Orders *)

(** X11.  The order address returned by [buildCreateOrderInstruction] can be
    handed to the cancel and fill builders: cancelling succeeds, and both
    name the same order, the same order vault and the same maker token
    account as the creating instruction. *)
Theorem order_accounts_are_shared
    (mint maker taker : PublicKey) (amount price : Z) (isBuySide : bool) (idSeed : Z)
    (created : CreateOrderBuilt) :
  buildCreateOrderInstruction findProgramAddress getAssociatedTokenAddressSync
    TOKEN_PROGRAM_ID SystemProgram_programId
    mint maker amount price isBuySide idSeed = Ok created ->
  let accounts := call_accounts (order_instruction created) in
  account_named "order" accounts = Some (order_order created)
  /\ (exists cancel : MethodCall,
        buildCancelOrderInstruction findProgramAddress getAssociatedTokenAddressSync
          TOKEN_PROGRAM_ID SystemProgram_programId
          mint maker (order_order created) = Ok cancel
        /\ account_named "order" (call_accounts cancel) = account_named "order" accounts
        /\ account_named "orderVault" (call_accounts cancel)
           = account_named "orderVault" accounts
        /\ account_named "makerTokenAccount" (call_accounts cancel)
           = account_named "makerTokenAccount" accounts)
  /\ (forall fill : MethodCall,
        buildFillOrderInstruction findProgramAddress getAssociatedTokenAddressSync
          TOKEN_PROGRAM_ID ASSOCIATED_TOKEN_PROGRAM_ID SystemProgram_programId
          mint taker maker (order_order created) = Ok fill ->
        account_named "order" (call_accounts fill) = account_named "order" accounts
        /\ account_named "orderVault" (call_accounts fill)
           = account_named "orderVault" accounts
        /\ account_named "makerTokenAccount" (call_accounts fill)
           = account_named "makerTokenAccount" accounts).
Proof.
  unfold buildCreateOrderInstruction, buildCancelOrderInstruction,
    buildFillOrderInstruction.
  destruct (deriveOrderPda _ _ _ _) as [orderPda | e]; cbn [Result_bind]; [| discriminate].
  destruct (getAssociatedTokenAddressSync mint maker false) as [makerToken | e];
    cbn [Result_bind]; [| discriminate].
  destruct_BN_new; try discriminate.
  intros [= <-]. cbn [order_order order_instruction call_accounts].
  split; [reflexivity |]. split.
  - eexists. split; [reflexivity |]. repeat split.
  - intros fill.
    destruct (getAssociatedTokenAddressSync mint taker false) as [takerToken | e];
      cbn [Result_bind]; [| discriminate].
    intros [= <-]. repeat split.
Qed.

(** ** Buying, leaving, staking and claiming *)

(** X26.  A purchase and a presale exit of one user on one mint name the
    same accounts: the same bundle, escrow and user stake addresses, and the
    token account the purchase pays into is the one the exit takes from.
    The exit builder succeeds whenever the swap builder does and [new BN]
    accepts the amount to return, that is, below 2^53 in absolute value. *)
Theorem presale_accounts_are_shared
    (mint user : PublicKey) (amountLamports amountBtoken : Z)
    (minTokensOut : option Z) (swap : MethodCall) :
  buildSwapInstruction findProgramAddress getAssociatedTokenAddressSync
    TOKEN_PROGRAM_ID SystemProgram_programId
    mint user amountLamports minTokensOut = Ok swap ->
  Z.abs amountBtoken < 2 ^ 53 ->
  exists leave : MethodCall,
    buildPresaleExitInstruction findProgramAddress getAssociatedTokenAddressSync
      TOKEN_PROGRAM_ID ASSOCIATED_TOKEN_PROGRAM_ID SystemProgram_programId
      mint user amountBtoken = Ok leave
    /\ account_named "user" (call_accounts leave)
       = account_named "buyer" (call_accounts swap)
    /\ account_named "bundle" (call_accounts leave)
       = account_named "bundle" (call_accounts swap)
    /\ account_named "escrow" (call_accounts leave)
       = account_named "escrow" (call_accounts swap)
    /\ account_named "userStake" (call_accounts leave)
       = account_named "userStake" (call_accounts swap)
    /\ account_named "userBtoken" (call_accounts leave)
       = account_named "buyerTokens" (call_accounts swap).
Proof.
  intros Hswap Hsafe. revert Hswap.
  unfold buildSwapInstruction, buildPresaleExitInstruction.
  rewrite (BN_new_accepts _ Hsafe).
  destruct (getAssociatedTokenAddressSync mint user false) as [tokens | e];
    cbn [Result_bind]; [| discriminate].
  destruct_BN_new; try discriminate.
  intros [= <-]. eexists. split; [reflexivity |]. repeat split.
Qed.

(** X27.  Staking and claiming of one user on one mint name the same
    bundle, staking vault, fee vault, user stake and token accounts, for the
    same real mint; and when no real mint is given, the real mint is the
    bundle mint and the user's real-token account is the bundle-token
    account.  The deposit builder succeeds whenever the claim builder does
    and [new BN] accepts the amount, that is, below 2^53 in absolute
    value. *)
Theorem staking_accounts_are_shared
    (mint user : PublicKey) (amount : Z) (realMint : option PublicKey)
    (claim : MethodCall) :
  buildClaimRewardsInstruction findProgramAddress getAssociatedTokenAddressSync
    TOKEN_PROGRAM_ID ASSOCIATED_TOKEN_PROGRAM_ID SystemProgram_programId
    mint user realMint = Ok claim ->
  Z.abs amount < 2 ^ 53 ->
  exists deposit : MethodCall,
    buildDepositStakeInstruction findProgramAddress getAssociatedTokenAddressSync
      TOKEN_PROGRAM_ID SystemProgram_programId mint user amount realMint = Ok deposit
    /\ (forall name,
          In name ["user"; "bundle"; "mint"; "realMint"; "userBtoken"; "userRealToken";
                   "stakingVault"; "feeVault"; "userStake"] ->
          account_named name (call_accounts deposit)
          = account_named name (call_accounts claim))
    /\ (realMint = None ->
        account_named "realMint" (call_accounts deposit) = Some mint
        /\ account_named "userRealToken" (call_accounts deposit)
           = account_named "userBtoken" (call_accounts deposit)).
Proof.
  intros Hclaim Hsafe. revert Hclaim.
  unfold buildClaimRewardsInstruction, buildDepositStakeInstruction.
  rewrite (BN_new_accepts _ Hsafe).
  destruct (deriveGlobalFeeTokenAccount _ _) as [globalFee | e];
    cbn [Result_bind]; [| discriminate].
  destruct (getAssociatedTokenAddressSync mint user false) as [userBtoken | e] eqn:Hb;
    cbn [Result_bind]; [| discriminate].
  destruct (getAssociatedTokenAddressSync (or_else realMint mint) user false)
    as [userReal | e] eqn:Hr; cbn [Result_bind]; [| discriminate].
  intros [= <-]. eexists. split; [reflexivity |]. split.
  - intros name Hin. cbn in Hin.
    repeat (destruct Hin as [<- | Hin]; [reflexivity |]). contradiction.
  - intros ->. cbn [or_else] in Hr. rewrite Hb in Hr. injection Hr as <-.
    split; reflexivity.
Qed.

(** ** The fee vault of [deriveAllBundlePdas] *)

(** X12.  [deriveAllBundlePdas] derives its fee vault from the mint, where
    the builders derive theirs from the bundle address.  As long as two
    different keys under one seed text give two different addresses and the
    bundle address is not the mint itself, the fee vault it reports is not
    the fee vault of the finalize instruction, while the staking vault is
    the same. *)
Theorem deriveAllBundlePdas_fee_vault_differs (payer mint pumpfunMint : PublicKey) :
  (forall (text : string) (a b program : PublicKey),
      findProgramAddress [Seed_text text; Seed_key a] program
      = findProgramAddress [Seed_text text; Seed_key b] program -> a = b) ->
  deriveBundlePda findProgramAddress mint <> mint ->
  let pdas := deriveAllBundlePdas findProgramAddress mint in
  let accounts :=
    finalize_accounts findProgramAddress TOKEN_PROGRAM_ID ASSOCIATED_TOKEN_PROGRAM_ID
      SystemProgram_programId SYSVAR_RENT_PUBKEY payer mint pumpfunMint in
  account_named "bundle" accounts = Some (all_bundlePda pdas)
  /\ account_named "escrow" accounts = Some (all_escrowPda pdas)
  /\ account_named "stakingVault" accounts = Some (all_stakingVaultPda pdas)
  /\ account_named "feeVault" accounts <> Some (all_feeVaultPda pdas).
Proof.
  intros Hinjective Hbundle pdas accounts.
  split; [reflexivity |]. split; [reflexivity |]. split; [reflexivity |].
  cbn. intros [= Heq]. apply Hbundle.
  apply (Hinjective _ _ _ _ Heq).
Qed.
End BuildersFacts.

(** A derivation without collisions, for checking the statements above on
    concrete keys: the address is the seed text followed by the key. *)
Lemma append_injective (prefix a b : string) : prefix ++ a = prefix ++ b -> a = b.
Proof.
  induction prefix as [| c prefix IH]; cbn; [trivial |].
  intros [= H]. apply IH. exact H.
Qed.

Lemma append_empty_r (s : string) : s ++ "" = s.
Proof. induction s as [| c s IH]; cbn; [reflexivity | now rewrite IH]. Qed.

Lemma concat_findProgramAddress_injective (text : string) (a b program : PublicKey) :
  concat_findProgramAddress [Seed_text text; Seed_key a] program
  = concat_findProgramAddress [Seed_text text; Seed_key b] program -> a = b.
Proof.
  cbn. rewrite !append_empty_r. apply append_injective.
Qed.

Lemma finalize_reads_the_swap_escrow_witness :
  exists (escrow : PublicKey) (built : Built) (tr' : Trace),
    account_named "escrow"
      (call_accounts
         {| call_name := "swap";
            call_args := [Ix_BN 1000000000; Ix_BN 0];
            call_accounts :=
              [ ("buyer", "user");
                ("bundle", "bundle_v2mint");
                ("escrow", "escrow_v2mint");
                ("mint", "mint");
                ("buyerTokens", "user:mint");
                ("tokenProgram", "token");
                ("systemProgram", "system");
                ("globalFeeWallet", GLOBAL_FEE_WALLET);
                ("userStake", "user_stake_v1bundle_v2mintuser") ] |})
    = Some escrow
    /\ buildFinalizePumpfunInstruction concat_findProgramAddress
         "token" "ata" "system" "rent"
         (with_minTokensOut
            {| param_program := {| provider_connection := connection_with 50000000000 |};
               param_mint := "mint";
               param_payer := "payer";
               param_pumpfunMint := "pump";
               param_tokenName := "name";
               param_tokenSymbol := "SYM";
               param_tokenUri := "ipfs://uri";
               param_minTokensOut := Arg_undefined |}
            Arg_null) [] = (Some built, tr')
    /\ account_named "escrow" (ix_accounts (instruction built)) = Some escrow
    /\ In (Rpc_getBalance escrow) tr'.
Proof.
  apply (finalize_reads_the_swap_escrow concat_findProgramAddress
           concat_getAssociatedTokenAddressSync "token" "ata" "system" "rent"
           {| param_program := {| provider_connection := connection_with 50000000000 |};
              param_mint := "mint";
              param_payer := "payer";
              param_pumpfunMint := "pump";
              param_tokenName := "name";
              param_tokenSymbol := "SYM";
              param_tokenUri := "ipfs://uri";
              param_minTokensOut := Arg_undefined |}
           "user" 1000000000 None).
  reflexivity.
Defined.

Lemma raw_claim_matches_anchor_witness :
  exists raw : TransactionInstruction,
    buildClaimRewardsInstructionRaw concat_findProgramAddress
      concat_getAssociatedTokenAddressSync "token" "ata" "system"
      [ {| idl_name := "swap"; idl_discriminator := [Byte.x01] |};
        {| idl_name := "claim_rewards"; idl_discriminator := [Byte.x04; Byte.x90] |} ]
      None "mint" "user" None = Ok raw
    /\ map pubkey (ti_keys raw)
       = [ "user"; "bundle_v2mint"; "mint"; "mint"; "user:mint"; "user:mint";
           "staking_vault_v1bundle_v2mint"; "fee_vault_v1bundle_v2mint";
           "user_stake_v1bundle_v2mintuser"; "token"; "ata"; "system";
           (GLOBAL_FEE_WALLET ++ ":mint")%string; GLOBAL_FEE_WALLET ]
    /\ map pubkey (filter isSigner (ti_keys raw)) = ["user"]
    /\ In (account_meta "mint" false true) (ti_keys raw)
    /\ ti_data raw = [Byte.x04; Byte.x90]
    /\ ti_programId raw = or_else None BUNDLY_PROGRAM_ID.
Proof.
  apply (raw_claim_matches_anchor concat_findProgramAddress
           concat_getAssociatedTokenAddressSync "token" "ata" "system"
           [ {| idl_name := "swap"; idl_discriminator := [Byte.x01] |};
             {| idl_name := "claim_rewards"; idl_discriminator := [Byte.x04; Byte.x90] |} ]
           None "mint" "user" None
           {| call_name := "claimRewards";
              call_args := [];
              call_accounts :=
                [ ("user", "user");
                  ("bundle", "bundle_v2mint");
                  ("mint", "mint");
                  ("realMint", "mint");
                  ("userBtoken", "user:mint");
                  ("userRealToken", "user:mint");
                  ("stakingVault", "staking_vault_v1bundle_v2mint");
                  ("feeVault", "fee_vault_v1bundle_v2mint");
                  ("userStake", "user_stake_v1bundle_v2mintuser");
                  ("tokenProgram", "token");
                  ("associatedTokenProgram", "ata");
                  ("systemProgram", "system");
                  ("globalFeeTokenAccount", (GLOBAL_FEE_WALLET ++ ":mint")%string);
                  ("globalFeeWallet", GLOBAL_FEE_WALLET) ] |}
           [Byte.x04; Byte.x90]).
  - reflexivity.
  - reflexivity.
Defined.

Lemma order_accounts_are_shared_witness :
  exists created : CreateOrderBuilt,
    buildCreateOrderInstruction concat_findProgramAddress
      concat_getAssociatedTokenAddressSync "token" "system"
      "mint" "maker" 5 7 true 42 = Ok created
    /\ let accounts := call_accounts (order_instruction created) in
       account_named "order" accounts = Some (order_order created)
       /\ (exists cancel : MethodCall,
             buildCancelOrderInstruction concat_findProgramAddress
               concat_getAssociatedTokenAddressSync "token" "system"
               "mint" "maker" (order_order created) = Ok cancel
             /\ account_named "order" (call_accounts cancel)
                = account_named "order" accounts
             /\ account_named "orderVault" (call_accounts cancel)
                = account_named "orderVault" accounts
             /\ account_named "makerTokenAccount" (call_accounts cancel)
                = account_named "makerTokenAccount" accounts)
       /\ (forall fill : MethodCall,
             buildFillOrderInstruction concat_findProgramAddress
               concat_getAssociatedTokenAddressSync "token" "ata" "system"
               "mint" "taker" "maker" (order_order created) = Ok fill ->
             account_named "order" (call_accounts fill) = account_named "order" accounts
             /\ account_named "orderVault" (call_accounts fill)
                = account_named "orderVault" accounts
             /\ account_named "makerTokenAccount" (call_accounts fill)
                = account_named "makerTokenAccount" accounts).
Proof.
  eexists. split; [reflexivity |].
  apply (order_accounts_are_shared concat_findProgramAddress
           concat_getAssociatedTokenAddressSync "token" "ata" "system"
           "mint" "maker" "taker" 5 7 true 42).
  reflexivity.
Defined.

Lemma deriveAllBundlePdas_fee_vault_differs_witness :
  let pdas := deriveAllBundlePdas concat_findProgramAddress "mint" in
  let accounts :=
    finalize_accounts concat_findProgramAddress "token" "ata" "system" "rent"
      "payer" "mint" "pump" in
  account_named "bundle" accounts = Some (all_bundlePda pdas)
  /\ account_named "escrow" accounts = Some (all_escrowPda pdas)
  /\ account_named "stakingVault" accounts = Some (all_stakingVaultPda pdas)
  /\ account_named "feeVault" accounts <> Some (all_feeVaultPda pdas).
Proof.
  apply (deriveAllBundlePdas_fee_vault_differs concat_findProgramAddress
           "token" "ata" "system" "rent" "payer" "mint" "pump").
  - exact concat_findProgramAddress_injective.
  - discriminate.
Defined.

Lemma presale_accounts_are_shared_witness :
  exists swap leave : MethodCall,
    buildSwapInstruction concat_findProgramAddress
      concat_getAssociatedTokenAddressSync "token" "system"
      "mint" "user" 1000000000 None = Ok swap
    /\ buildPresaleExitInstruction concat_findProgramAddress
         concat_getAssociatedTokenAddressSync "token" "ata" "system"
         "mint" "user" 250000 = Ok leave
    /\ account_named "user" (call_accounts leave)
       = account_named "buyer" (call_accounts swap)
    /\ account_named "bundle" (call_accounts leave)
       = account_named "bundle" (call_accounts swap)
    /\ account_named "escrow" (call_accounts leave)
       = account_named "escrow" (call_accounts swap)
    /\ account_named "userStake" (call_accounts leave)
       = account_named "userStake" (call_accounts swap)
    /\ account_named "userBtoken" (call_accounts leave)
       = account_named "buyerTokens" (call_accounts swap).
Proof.
  eexists.
  destruct (presale_accounts_are_shared concat_findProgramAddress
              concat_getAssociatedTokenAddressSync "token" "ata" "system"
              "mint" "user" 1000000000 250000 None _ eq_refl eq_refl) as [leave H].
  exists leave. split; [reflexivity | exact H].
Defined.

Lemma staking_accounts_are_shared_witness :
  exists claim deposit : MethodCall,
    buildClaimRewardsInstruction concat_findProgramAddress
      concat_getAssociatedTokenAddressSync "token" "ata" "system"
      "mint" "user" None = Ok claim
    /\ buildDepositStakeInstruction concat_findProgramAddress
         concat_getAssociatedTokenAddressSync "token" "system"
         "mint" "user" 1000000 None = Ok deposit
    /\ (forall name,
          In name ["user"; "bundle"; "mint"; "realMint"; "userBtoken"; "userRealToken";
                   "stakingVault"; "feeVault"; "userStake"] ->
          account_named name (call_accounts deposit)
          = account_named name (call_accounts claim))
    /\ (@None PublicKey = None ->
        account_named "realMint" (call_accounts deposit) = Some "mint"
        /\ account_named "userRealToken" (call_accounts deposit)
           = account_named "userBtoken" (call_accounts deposit)).
Proof.
  eexists.
  destruct (staking_accounts_are_shared concat_findProgramAddress
              concat_getAssociatedTokenAddressSync "token" "ata" "system"
              "mint" "user" 1000000 None _ eq_refl eq_refl) as [deposit H].
  exists deposit. split; [reflexivity | exact H].
Defined.

Lemma getInstructionDiscriminator_lookup_witness :
  exists before ix after,
    [ {| idl_name := "swap"; idl_discriminator := [Byte.x01] |};
      {| idl_name := "claim_rewards"; idl_discriminator := [Byte.x04; Byte.x90] |} ]
    = (before ++ ix :: after)%list
    /\ idl_name ix = "claim_rewards"
    /\ idl_discriminator ix = [Byte.x04; Byte.x90]
    /\ forall other, In other before -> idl_name other <> "claim_rewards".
Proof.
  apply (proj2 (getInstructionDiscriminator_lookup
                  [ {| idl_name := "swap"; idl_discriminator := [Byte.x01] |};
                    {| idl_name := "claim_rewards";
                       idl_discriminator := [Byte.x04; Byte.x90] |} ]
                  "claim_rewards") [Byte.x04; Byte.x90]).
  reflexivity.
Defined.

Lemma initBundle_nonce_and_accounts_witness :
  exists built : InitBundleBuilt,
    buildInitBundleInstruction concat_findProgramAddress "token" "system" "rent"
      "creator" 1700000000000 None 85000000000 1000000000000000 None = Ok built
    /\ 0 <= 1700000000000 < 2 ^ 64
    /\ account_named "mint" (call_accounts (init_instruction built))
       = Some (init_mint built)
    /\ account_named "bundle" (call_accounts (init_instruction built))
       = Some (init_bundle built)
    /\ init_bundle built = deriveBundlePda concat_findProgramAddress (init_mint built)
    /\ account_named "escrow" (call_accounts (init_instruction built))
       = Some (deriveEscrowPda concat_findProgramAddress (init_mint built)).
Proof.
  eexists. split; [reflexivity |].
  apply (proj2 (initBundle_nonce_and_accounts concat_findProgramAddress
                  "token" "system" "rent"
                  "creator" 1700000000000 None 85000000000 1000000000000000 None)).
  reflexivity.
Defined.

(** * Properties of the metadata upload *)

Ltac unfold_io :=
  unfold IO.bind, IO.ret, IO.emit, IO.throw, IO.lift, IO.try_catch,
    fetch, response_json.

Lemma requests_of_app (a b : list IoEvent) :
  requests_of (a ++ b) = (requests_of a ++ requests_of b)%list.
Proof.
  induction a as [| [r | c] a IH]; cbn; [reflexivity | now rewrite IH | exact IH].
Qed.

Section UploadFacts.
Variable ToString : JsValue -> string.
Variable network : Network.
Variable env : Environment.

Lemma uploadImageToIPFS_with_key (imagePath : string) (tr : list IoEvent) :
  existsSync env imagePath = true ->
  truthy (js_or (PINATA_JWT env) (NFT_STORAGE_KEY env)) = true ->
  uploadImageToIPFS ToString network env imagePath tr
  = let request :=
      pinFile_request ToString (js_or (PINATA_JWT env) (NFT_STORAGE_KEY env))
        imagePath in
    match pin_outcome ToString network "IPFS upload failed: " request with
    | Ok uri => (Ok uri, (tr ++ [Http request])%list)
    | Throw e =>
        (Throw e,
         (tr ++ [Http request; Console (Error_upload "IPFS upload error:" e)])%list)
    end.
Proof.
  intros Hexists Hkey. unfold uploadImageToIPFS, pin_outcome.
  rewrite Hexists, Hkey. cbn [negb]. cbv zeta. unfold_io.
  destruct (respond network _) as [response |]; cbn;
    [| now rewrite <- app_assoc].
  destruct (resp_ok response); cbn; [| now rewrite <- app_assoc].
  destruct (resp_json response) as [data |]; cbn; [| now rewrite <- app_assoc].
  destruct (get_property data "IpfsHash") as [IpfsHash | e]; cbn;
    [reflexivity | now rewrite <- app_assoc].
Qed.

Lemma uploadMetadataToIPFS_with_key (metadata : Metadata) (tr : list IoEvent) :
  truthy (js_or (PINATA_JWT env) (NFT_STORAGE_KEY env)) = true ->
  uploadMetadataToIPFS ToString network env metadata tr
  = let request :=
      pinJSON_request ToString (js_or (PINATA_JWT env) (NFT_STORAGE_KEY env))
        metadata in
    match pin_outcome ToString network "Metadata upload failed: " request with
    | Ok uri => (Ok uri, (tr ++ [Http request])%list)
    | Throw e =>
        (Throw e,
         (tr ++ [Http request; Console (Error_upload "Metadata upload error:" e)])%list)
    end.
Proof.
  intros Hkey. unfold uploadMetadataToIPFS, pin_outcome.
  rewrite Hkey. cbn [negb]. cbv zeta. unfold_io.
  destruct (respond network _) as [response |]; cbn;
    [| now rewrite <- app_assoc].
  destruct (resp_ok response); cbn; [| now rewrite <- app_assoc].
  destruct (resp_json response) as [data |]; cbn; [| now rewrite <- app_assoc].
  destruct (get_property data "IpfsHash") as [IpfsHash | e]; cbn;
    [reflexivity | now rewrite <- app_assoc].
Qed.

Lemma uploadMetadataToIPFS_without_key (metadata : Metadata) (tr : list IoEvent) :
  truthy (js_or (PINATA_JWT env) (NFT_STORAGE_KEY env)) = false ->
  uploadMetadataToIPFS ToString network env metadata tr
  = (Ok "ipfs://QmTestMetadata123456789",
     (tr ++ [Console (Warn_no_upload_key "metadata")])%list).
Proof.
  intros Hkey. unfold uploadMetadataToIPFS. rewrite Hkey. reflexivity.
Qed.

Lemma js_or_falsy (a b : JsValue) :
  truthy a = false -> truthy b = false -> truthy (js_or a b) = false.
Proof. intros Ha Hb. unfold js_or. now rewrite Ha. Qed.

(** The whole run of [uploadBundleMetadata], case by case. *)
Lemma uploadBundleMetadata_run (options : UploadOptions) (tr : list IoEvent) :
  uploadBundleMetadata ToString network env options tr
  = let key := js_or (PINATA_JWT env) (NFT_STORAGE_KEY env) in
    let imagePath := opt_imagePath options in
    let request1 := pinFile_request ToString key imagePath in
    let start :=
      [ Console (Log_uploading (opt_name options) (opt_symbol options)
                   (Some (J_string imagePath)));
        Console Log_uploading_image ] in
    if negb (existsSync env imagePath) then
      (Throw (Error_message ("Image file not found: " ++ imagePath)),
       (tr ++ start)%list)
    else if negb (truthy key) then
      (Ok "ipfs://QmTestMetadata123456789",
       (tr ++ start
           ++ [ Console (Warn_no_upload_key "IPFS");
                Console (Log_image_uploaded "ipfs://QmTest123456789");
                Console Log_uploading_metadata;
                Console (Warn_no_upload_key "metadata");
                Console (Log_metadata_uploaded "ipfs://QmTestMetadata123456789") ])%list)
    else
      match pin_outcome ToString network "IPFS upload failed: " request1 with
      | Throw e =>
          (Throw e,
           (tr ++ start
               ++ [Http request1; Console (Error_upload "IPFS upload error:" e)])%list)
      | Ok imageUri =>
          let request2 :=
            pinJSON_request ToString key
              (bundle_metadata (opt_name options) (opt_symbol options)
                 (opt_description options) imageUri) in
          match pin_outcome ToString network "Metadata upload failed: " request2 with
          | Throw e =>
              (Throw e,
               (tr ++ start
                   ++ [ Http request1;
                        Console (Log_image_uploaded imageUri);
                        Console Log_uploading_metadata;
                        Http request2;
                        Console (Error_upload "Metadata upload error:" e) ])%list)
          | Ok metadataUri =>
              (Ok metadataUri,
               (tr ++ start
                   ++ [ Http request1;
                        Console (Log_image_uploaded imageUri);
                        Console Log_uploading_metadata;
                        Http request2;
                        Console (Log_metadata_uploaded metadataUri) ])%list)
          end
      end.
Proof.
  cbv zeta. unfold uploadBundleMetadata.
  unfold IO.bind at 1 2 3, IO.emit at 1 2. cbn [fst snd].
  destruct (existsSync env (opt_imagePath options)) eqn:Hexists; cbn [negb].
  - destruct (truthy (js_or (PINATA_JWT env) (NFT_STORAGE_KEY env))) eqn:Hkey;
      cbn [negb].
    + rewrite uploadImageToIPFS_with_key by assumption. cbv zeta.
      destruct (pin_outcome ToString network "IPFS upload failed: " _)
        as [imageUri | e].
      * unfold IO.bind at 1 2 3, IO.emit at 1 2. cbn [fst snd].
        rewrite uploadMetadataToIPFS_with_key by assumption. cbv zeta.
        destruct (pin_outcome ToString network "Metadata upload failed: " _)
          as [metadataUri | e];
          unfold_io; rewrite <- !app_assoc; reflexivity.
      * rewrite <- !app_assoc. reflexivity.
    + unfold uploadImageToIPFS. rewrite Hexists, Hkey. cbn [negb].
      unfold_io. cbn beta iota.
      rewrite uploadMetadataToIPFS_without_key by assumption.
      rewrite <- !app_assoc. reflexivity.
  - unfold uploadImageToIPFS. rewrite Hexists. cbn [negb].
    unfold_io. rewrite <- !app_assoc. reflexivity.
Qed.

(** X13.  Without a usable upload key (neither PINATA_JWT nor
    NFT_STORAGE_KEY is a non-empty string) and with the image file present,
    [uploadBundleMetadata] succeeds with the fixed test address
    ipfs://QmTestMetadata123456789 and sends no request, whatever the
    options and the network. *)
Theorem upload_without_key_is_mocked (options : UploadOptions) (tr : list IoEvent) :
  truthy (PINATA_JWT env) = false ->
  truthy (NFT_STORAGE_KEY env) = false ->
  existsSync env (opt_imagePath options) = true ->
  exists new : list IoEvent,
    uploadBundleMetadata ToString network env options tr
    = (Ok "ipfs://QmTestMetadata123456789", (tr ++ new)%list)
    /\ requests_of new = []
    /\ In (Console (Log_image_uploaded "ipfs://QmTest123456789")) new.
Proof.
  intros Hjwt Hnft Hexists.
  pose proof (js_or_falsy _ _ Hjwt Hnft) as Hkey.
  rewrite uploadBundleMetadata_run. cbv zeta.
  rewrite Hexists, Hkey. cbn [negb].
  eexists. split; [reflexivity |]. split; [reflexivity |].
  cbn. tauto.
Qed.

(** X14.  With a key, an existing image and two accepted requests whose
    answers carry a string [IpfsHash], [uploadBundleMetadata] sends exactly
    two requests, the file first; the document it pins names as image the
    address made from the first hash, and the result is the address made
    from the second hash. *)
Theorem upload_with_key_chains_the_hashes
    (options : UploadOptions) (tr : list IoEvent)
    (response1 response2 : HttpResponse) (fields1 fields2 : list (string * Json))
    (hash1 hash2 : string) :
  let key := js_or (PINATA_JWT env) (NFT_STORAGE_KEY env) in
  let request1 := pinFile_request ToString key (opt_imagePath options) in
  let metadata :=
    bundle_metadata (opt_name options) (opt_symbol options)
      (opt_description options) ("ipfs://" ++ hash1) in
  let request2 := pinJSON_request ToString key metadata in
  existsSync env (opt_imagePath options) = true ->
  truthy key = true ->
  respond network request1 = Some response1 ->
  resp_ok response1 = true ->
  resp_json response1 = Some (J_object fields1) ->
  lookup_field "IpfsHash" fields1 = Some (J_string hash1) ->
  respond network request2 = Some response2 ->
  resp_ok response2 = true ->
  resp_json response2 = Some (J_object fields2) ->
  lookup_field "IpfsHash" fields2 = Some (J_string hash2) ->
  exists new : list IoEvent,
    uploadBundleMetadata ToString network env options tr
    = (Ok ("ipfs://" ++ hash2), (tr ++ new)%list)
    /\ requests_of new = [request1; request2]
    /\ get_property (metadataJson metadata) "image"
       = Ok (Some (J_string ("ipfs://" ++ hash1))).
Proof.
  intros key request1 metadata request2 Hexists Hkey
    Hr1 Hok1 Hjson1 Hhash1 Hr2 Hok2 Hjson2 Hhash2.
  assert (Hout1 : pin_outcome ToString network "IPFS upload failed: " request1
                  = Ok ("ipfs://" ++ hash1)).
  { unfold pin_outcome. rewrite Hr1, Hok1, Hjson1. cbn. now rewrite Hhash1. }
  assert (Hout2 : pin_outcome ToString network "Metadata upload failed: " request2
                  = Ok ("ipfs://" ++ hash2)).
  { unfold pin_outcome. rewrite Hr2, Hok2, Hjson2. cbn. now rewrite Hhash2. }
  rewrite uploadBundleMetadata_run. cbv zeta.
  fold key. fold request1. rewrite Hexists, Hkey, Hout1. cbn [negb].
  fold metadata. fold request2. rewrite Hout2.
  eexists. split; [reflexivity |]. split; [reflexivity |].
  subst metadata. unfold metadataJson, bundle_metadata.
  cbn [meta_name meta_symbol meta_description meta_image].
  destruct (opt_name options), (opt_symbol options), (opt_description options);
    reflexivity.
Qed.

(** X15.  [uploadBundleMetadata] never sends more than two requests, and
    which ones is decided as follows.  It sends none when the image file is
    missing or no key is usable.  Otherwise it sends the file request; when
    that fails it throws the same error and stops; when it succeeds it sends
    one request more, for a document whose image is the address just
    obtained. *)
Theorem upload_request_discipline (options : UploadOptions) (tr : list IoEvent) :
  let key := js_or (PINATA_JWT env) (NFT_STORAGE_KEY env) in
  let request1 := pinFile_request ToString key (opt_imagePath options) in
  exists new : list IoEvent,
    trace_of_io (uploadBundleMetadata ToString network env options tr)
    = (tr ++ new)%list
    /\ if existsSync env (opt_imagePath options) && truthy key then
         match pin_outcome ToString network "IPFS upload failed: " request1 with
         | Throw e =>
             requests_of new = [request1]
             /\ result_of_io (uploadBundleMetadata ToString network env options tr)
                = Throw e
         | Ok imageUri =>
             requests_of new
             = [request1;
                pinJSON_request ToString key
                  (bundle_metadata (opt_name options) (opt_symbol options)
                     (opt_description options) imageUri)]
         end
       else requests_of new = [].
Proof.
  intros key request1.
  rewrite uploadBundleMetadata_run. cbv zeta. fold key. fold request1.
  destruct (existsSync env (opt_imagePath options)); cbn [negb andb];
    [destruct (truthy key); cbn [negb] |].
  - destruct (pin_outcome ToString network "IPFS upload failed: " request1)
      as [imageUri | e].
    + destruct (pin_outcome ToString network "Metadata upload failed: " _)
        as [metadataUri | e];
        eexists; (split; [reflexivity | reflexivity]).
    + eexists. split; [reflexivity |]. split; reflexivity.
  - eexists. split; [reflexivity | reflexivity].
  - eexists. split; [reflexivity | reflexivity].
Qed.
End UploadFacts.

Lemma upload_without_key_is_mocked_witness :
  exists new : list IoEvent,
    uploadBundleMetadata example_ToString example_network (example_env None)
      example_options []
    = (Ok "ipfs://QmTestMetadata123456789", ([] ++ new)%list)
    /\ requests_of new = []
    /\ In (Console (Log_image_uploaded "ipfs://QmTest123456789")) new.
Proof.
  apply (upload_without_key_is_mocked example_ToString example_network
           (example_env None) example_options []).
  - reflexivity.
  - reflexivity.
  - reflexivity.
Defined.

Lemma upload_with_key_chains_the_hashes_witness :
  exists new : list IoEvent,
    uploadBundleMetadata example_ToString example_network
      (example_env (Some (J_string "secret"))) example_options []
    = (Ok ("ipfs://" ++ "QmDocument"), ([] ++ new)%list)
    /\ requests_of new
       = [ pinFile_request example_ToString (Some (J_string "secret")) "logo.png";
           pinJSON_request example_ToString (Some (J_string "secret"))
             (bundle_metadata (Some (J_string "Token")) (Some (J_string "TKN")) None
                ("ipfs://" ++ "QmImage")) ]
    /\ get_property
         (metadataJson
            (bundle_metadata (Some (J_string "Token")) (Some (J_string "TKN")) None
               ("ipfs://" ++ "QmImage"))) "image"
       = Ok (Some (J_string ("ipfs://" ++ "QmImage"))).
Proof.
  apply (upload_with_key_chains_the_hashes example_ToString example_network
           (example_env (Some (J_string "secret"))) example_options []
           (example_pin_response "QmImage") (example_pin_response "QmDocument")
           [("IpfsHash", J_string "QmImage")] [("IpfsHash", J_string "QmDocument")]
           "QmImage" "QmDocument");
    reflexivity.
Defined.

(** * Properties of the authentication headers and of the HTTP client *)

Lemma strip_trailing_slash_app (base : string) :
  strip_trailing_slash (base ++ "/") = base.
Proof.
  induction base as [| c base IH]; [reflexivity |].
  cbn [append strip_trailing_slash].
  destruct (base ++ "/")%string eqn:Hrest.
  - destruct base; discriminate Hrest.
  - now rewrite IH.
Qed.

(** X16.  The constructor removes one slash from the end of the base
    address and no more: a base written with a final slash gives the client
    of the base written without it, and of two final slashes one is kept.
    So the addresses of requests, base followed by a path that begins with a
    slash, are the same for both spellings. *)
Theorem constructor_strips_one_slash (base : string) (keys : Keypair) :
  ClawClient_new (Some (base ++ "/")) (Some keys)
  = Ok {| baseUrl := base; wallet := keys; apiKey := Some J_null |}
  /\ ClawClient_new (Some (base ++ "//")) (Some keys)
     = Ok {| baseUrl := base ++ "/"; wallet := keys; apiKey := Some J_null |}
  /\ ClawClient_new None (Some keys)
     = Ok {| baseUrl := "https://claw.bundly.fun"; wallet := keys;
             apiKey := Some J_null |}
  /\ ClawClient_new (Some base) None
     = Throw (Error_message "wallet keypair is required").
Proof.
  unfold ClawClient_new.
  rewrite strip_trailing_slash_app.
  replace (base ++ "//")%string with ((base ++ "/") ++ "/")%string
    by (induction base as [| c base IH]; cbn; [reflexivity | now rewrite IH]).
  rewrite strip_trailing_slash_app.
  repeat split.
Qed.

Ltac run_io :=
  unfold fetch, response_json;
  unfold IO.bind, IO.ret, IO.emit, IO.throw, IO.lift, IO.try_catch;
  cbn beta iota.

Section ClawFacts.
Variable ToString : JsValue -> string.
Variable Number_toString : Z -> string.
Variable sign_detached : string -> string -> string.
Variable bs58_encode : string -> string.
Variable URL_with_params : string -> list (string * string) -> Result string.
Variable network : Network.

(** X17.  When [buildClawWalletAuthHeaders] returns headers, the key pair
    was complete and the action a string beginning with a slash, and the
    signature header is the base58 text of the signature, under the secret
    key, of the message put together from the action, timestamp and nonce
    headers: a verifier can rebuild the signed text from the headers
    alone. *)
Theorem auth_headers_sign_what_they_carry
    (keypair : option Keypair) (action : JsValue) (timestamp : Z) (nonce : string)
    (headers : list (string * string)) :
  buildClawWalletAuthHeaders Number_toString sign_detached bs58_encode
    keypair action timestamp nonce = Ok headers ->
  exists address secret path stamp,
    keypair = Some {| kp_publicKey := Some address; kp_secretKey := Some secret |}
    /\ action = Some (J_string path)
    /\ starts_with_slash path = true
    /\ header_named "x-wallet-address" headers = Some address
    /\ header_named "x-wallet-action" headers = Some path
    /\ header_named "x-wallet-timestamp" headers = Some stamp
    /\ header_named "x-wallet-nonce" headers = Some nonce
    /\ header_named "x-wallet-signature" headers
       = Some (bs58_encode
                 (sign_detached
                    ("bundly-auth:" ++ path ++ ":" ++ stamp ++ ":" ++ nonce) secret)).
Proof.
  unfold buildClawWalletAuthHeaders.
  destruct keypair as [[[address |] [secret |]] |]; try discriminate.
  destruct action as [[| | | path | |] |]; try discriminate.
  destruct (starts_with_slash path) eqn:Hslash; [| discriminate].
  intros [= <-].
  exists address, secret, path, (Number_toString timestamp).
  split; [reflexivity |]. split; [reflexivity |]. split; [exact Hslash |].
  unfold header_named. cbn. repeat split.
Qed.

(** X18.  A client without a usable API key sends nothing from [getMe],
    [listBundles] and [createPost]: each of them throws and the trace is
    unchanged.  This is the state of every new client. *)
Theorem no_request_without_api_key
    (client : ClawClient) (params : list (string * JsValue))
    (bundleMint content : JsValue) (tr : list IoEvent) :
  truthy (apiKey client) = false ->
  (getMe ToString Number_toString network client tr
   = (Throw (Error_message
               "Missing apiKey. Call loginAgent() or registerAgent() first."), tr))
  /\ (exists e,
        listBundles ToString Number_toString URL_with_params network params client tr
        = (Throw e, tr))
  /\ (exists e,
        createPost ToString Number_toString network bundleMint content client tr
        = (Throw e, tr)).
Proof.
  intros Hkey. split; [| split].
  - unfold getMe, _authHeaders. rewrite Hkey. reflexivity.
  - unfold listBundles, _authHeaders. rewrite Hkey. unfold_io.
    destruct (URL_with_params _ _) as [url | e]; eexists; reflexivity.
  - unfold createPost, _authHeaders. rewrite Hkey.
    destruct (truthy bundleMint); cbn [negb]; [| eexists; reflexivity].
    destruct content as [[| | | text | |] |]; try (eexists; reflexivity).
    destruct (String.eqb text ""); eexists; reflexivity.
Qed.

Lemma new_client_has_no_api_key (base : option string) (keys : option Keypair)
    (client : ClawClient) :
  ClawClient_new base keys = Ok client -> truthy (apiKey client) = false.
Proof.
  unfold ClawClient_new. destruct keys; [| discriminate].
  intros [= <-]. reflexivity.
Qed.

(** X19.  After a login that the server accepts with a non-empty string
    [api_key], the client holds that key, and [getMe] on it sends one GET
    request to the agent address with the header
    [Authorization: Bearer <api_key>]. *)
Theorem login_then_getMe
    (now : Z) (random_nonce : string) (client : ClawClient)
    (auth : list (string * string)) (res : HttpResponse)
    (fields : list (string * Json)) (key : string) (tr tr2 : list IoEvent) :
  buildClawWalletAuthHeaders Number_toString sign_detached bs58_encode
    (Some (wallet client)) (Some (J_string "/api/v1/agents/login"))
    now random_nonce = Ok auth ->
  respond network (agent_http_request "/api/v1/agents/login" (J_object []) client auth) = Some res ->
  resp_ok res = true ->
  resp_json res = Some (J_object fields) ->
  lookup_field "api_key" fields = Some (J_string key) ->
  key <> "" ->
  exists client' : ClawClient,
    loginAgent ToString Number_toString sign_detached bs58_encode network
      now random_nonce client tr
    = (Ok (J_object fields, client'),
       (tr ++ [Http (agent_http_request "/api/v1/agents/login" (J_object []) client auth)])%list)
    /\ apiKey client' = Some (J_string key)
    /\ baseUrl client' = baseUrl client
    /\ exists new,
         trace_of_io (getMe ToString Number_toString network client' tr2)
         = (tr2 ++ new)%list
         /\ requests_of new
            = [ {| req_method := "GET";
                   req_url := baseUrl client ++ "/api/v1/agents/me";
                   req_headers := [("Authorization", "Bearer " ++ key)];
                   req_body := Body_absent |} ].
Proof.
  intros Hauth Hrespond Hok Hjson Hfield Hkey.
  exists (withApiKey client (Some (J_string key))).
  split; [| split; [reflexivity | split; [reflexivity |]]].
  - unfold loginAgent, agent_request. rewrite Hauth. run_io.
    rewrite Hrespond. unfold json_or_empty. rewrite Hok, Hjson.
    cbn [negb get_property]. rewrite Hfield. reflexivity.
  - clear Hrespond Hok Hjson Hfield.
    unfold getMe, _authHeaders, withApiKey. cbn [apiKey baseUrl truthy].
    apply String.eqb_neq in Hkey. rewrite Hkey. cbn [negb template].
    unfold data_or_failure. run_io.
    destruct (respond network _) as [answer |].
    + destruct (resp_ok answer); cbn [negb].
      * unfold trace_of_io. cbn [snd].
        eexists. split; reflexivity.
      * destruct (failure_of ToString (json_or_empty answer) _) as [e | e];
          unfold trace_of_io; cbn [snd]; eexists; split; reflexivity.
    + unfold trace_of_io. cbn [snd]. eexists. split; reflexivity.
Qed.

(** X20.  A refused login throws, and the text of the error is chosen in
    this order: the [details] of the answer when it is a non-empty string,
    else its [error] when that is a non-empty string, else
    [Login failed (<status>)]; the last also when the body is not JSON.  One
    request was sent and no client with a key is returned. *)
Theorem refused_login_message
    (now : Z) (random_nonce : string) (client : ClawClient)
    (auth : list (string * string)) (res : HttpResponse) (tr : list IoEvent) :
  buildClawWalletAuthHeaders Number_toString sign_detached bs58_encode
    (Some (wallet client)) (Some (J_string "/api/v1/agents/login"))
    now random_nonce = Ok auth ->
  respond network (agent_http_request "/api/v1/agents/login" (J_object []) client auth) = Some res ->
  resp_ok res = false ->
  let run :=
    loginAgent ToString Number_toString sign_detached bs58_encode network
      now random_nonce client tr in
  let thrown (message : string) :=
    run = (Throw (Error_message message),
           (tr ++ [Http (agent_http_request "/api/v1/agents/login" (J_object []) client auth)])%list) in
  let fallback := "Login failed (" ++ Number_toString (resp_status res) ++ ")" in
  (resp_json res = None -> thrown fallback)
  /\ (forall fields,
        resp_json res = Some (J_object fields) ->
        (forall details,
           lookup_field "details" fields = Some (J_string details) ->
           details <> "" -> thrown details)
        /\ (forall error,
              truthy (lookup_field "details" fields) = false ->
              lookup_field "error" fields = Some (J_string error) ->
              error <> "" -> thrown error)
        /\ (truthy (lookup_field "details" fields) = false ->
            truthy (lookup_field "error" fields) = false -> thrown fallback)).
Proof.
  intros Hauth Hrespond Hok run thrown fallback.
  assert (Hrun : forall data message,
             json_or_empty res = data ->
             failure_of ToString data
               ("Login" ++ " failed (" ++ Number_toString (resp_status res) ++ ")")
             = Ok (Error_message message) ->
             thrown message).
  { intros data message Hdata Hfail. subst thrown run. cbv beta.
    unfold loginAgent, agent_request. rewrite Hauth. run_io.
    rewrite Hrespond, Hok, Hdata. cbn [negb].
    rewrite Hfail. reflexivity. }
  split.
  - intros Hjson. apply (Hrun (J_object [])).
    + unfold json_or_empty. now rewrite Hjson.
    + reflexivity.
  - intros fields Hjson.
    assert (Hdata : json_or_empty res = J_object fields)
      by (unfold json_or_empty; now rewrite Hjson).
    split; [| split].
    + intros details Hdetails Hne. apply (Hrun _ _ Hdata).
      unfold failure_of. cbn [get_property Result_bind]. rewrite Hdetails.
      apply String.eqb_neq in Hne.
      unfold js_or. cbn [truthy]. rewrite Hne. cbn [negb truthy]. rewrite Hne.
      reflexivity.
    + intros error Hdetails Herror Hne. apply (Hrun _ _ Hdata).
      unfold failure_of. cbn [get_property Result_bind]. rewrite Herror.
      apply String.eqb_neq in Hne.
      unfold js_or. rewrite Hdetails. cbn [truthy]. rewrite Hne. cbn [negb].
      reflexivity.
    + intros Hdetails Herror. apply (Hrun _ _ Hdata).
      unfold failure_of. cbn [get_property Result_bind].
      unfold js_or. rewrite Hdetails, Herror. reflexivity.
Qed.
End ClawFacts.

Lemma auth_headers_sign_what_they_carry_witness :
  exists address secret path stamp,
    Some example_wallet
    = Some {| kp_publicKey := Some address; kp_secretKey := Some secret |}
    /\ Some (J_string "/api/v1/agents/login") = Some (J_string path)
    /\ starts_with_slash path = true
    /\ header_named "x-wallet-address"
         [ ("x-wallet-address", "AgentPublicKey");
           ("x-wallet-signature",
            "secret|bundly-auth:/api/v1/agents/login:1700000000000:0a1b");
           ("x-wallet-timestamp", "1700000000000");
           ("x-wallet-nonce", "0a1b");
           ("x-wallet-action", "/api/v1/agents/login") ] = Some address
    /\ header_named "x-wallet-action"
         [ ("x-wallet-address", "AgentPublicKey");
           ("x-wallet-signature",
            "secret|bundly-auth:/api/v1/agents/login:1700000000000:0a1b");
           ("x-wallet-timestamp", "1700000000000");
           ("x-wallet-nonce", "0a1b");
           ("x-wallet-action", "/api/v1/agents/login") ] = Some path
    /\ header_named "x-wallet-timestamp"
         [ ("x-wallet-address", "AgentPublicKey");
           ("x-wallet-signature",
            "secret|bundly-auth:/api/v1/agents/login:1700000000000:0a1b");
           ("x-wallet-timestamp", "1700000000000");
           ("x-wallet-nonce", "0a1b");
           ("x-wallet-action", "/api/v1/agents/login") ] = Some stamp
    /\ header_named "x-wallet-nonce"
         [ ("x-wallet-address", "AgentPublicKey");
           ("x-wallet-signature",
            "secret|bundly-auth:/api/v1/agents/login:1700000000000:0a1b");
           ("x-wallet-timestamp", "1700000000000");
           ("x-wallet-nonce", "0a1b");
           ("x-wallet-action", "/api/v1/agents/login") ] = Some "0a1b"
    /\ header_named "x-wallet-signature"
         [ ("x-wallet-address", "AgentPublicKey");
           ("x-wallet-signature",
            "secret|bundly-auth:/api/v1/agents/login:1700000000000:0a1b");
           ("x-wallet-timestamp", "1700000000000");
           ("x-wallet-nonce", "0a1b");
           ("x-wallet-action", "/api/v1/agents/login") ]
       = Some (example_bs58
                 (example_sign
                    ("bundly-auth:" ++ path ++ ":" ++ stamp ++ ":" ++ "0a1b") secret)).
Proof.
  apply (auth_headers_sign_what_they_carry example_Number_toString example_sign
           example_bs58 (Some example_wallet)
           (Some (J_string "/api/v1/agents/login")) 1700000000000 "0a1b").
  reflexivity.
Defined.

Lemma no_request_without_api_key_witness :
  (getMe example_ToString example_Number_toString example_network example_client []
   = (Throw (Error_message
               "Missing apiKey. Call loginAgent() or registerAgent() first."), []))
  /\ (exists e,
        listBundles example_ToString example_Number_toString (fun url _ => Ok url)
          example_network [("limit", Some (J_number 5))] example_client []
        = (Throw e, []))
  /\ (exists e,
        createPost example_ToString example_Number_toString example_network
          (Some (J_string "mint")) (Some (J_string "hello")) example_client []
        = (Throw e, [])).
Proof.
  apply (no_request_without_api_key example_ToString example_Number_toString
           (fun url _ => Ok url) example_network example_client
           [("limit", Some (J_number 5))]
           (Some (J_string "mint")) (Some (J_string "hello")) []).
  reflexivity.
Defined.

Lemma login_then_getMe_witness :
  exists client' : ClawClient,
    loginAgent example_ToString example_Number_toString example_sign example_bs58
      (example_login_network true [("api_key", J_string "key-1")])
      1700000000000 "0a1b" example_client []
    = (Ok (J_object [("api_key", J_string "key-1")], client'),
       ([] ++ [Http (agent_http_request "/api/v1/agents/login" (J_object [])
                       example_client
                       [ ("x-wallet-address", "AgentPublicKey");
                         ("x-wallet-signature",
                          "secret|bundly-auth:/api/v1/agents/login:1700000000000:0a1b");
                         ("x-wallet-timestamp", "1700000000000");
                         ("x-wallet-nonce", "0a1b");
                         ("x-wallet-action", "/api/v1/agents/login") ])])%list)
    /\ apiKey client' = Some (J_string "key-1")
    /\ baseUrl client' = baseUrl example_client
    /\ exists new,
         trace_of_io
           (getMe example_ToString example_Number_toString
              (example_login_network true [("api_key", J_string "key-1")]) client' [])
         = ([] ++ new)%list
         /\ requests_of new
            = [ {| req_method := "GET";
                   req_url := baseUrl example_client ++ "/api/v1/agents/me";
                   req_headers := [("Authorization", "Bearer " ++ "key-1")];
                   req_body := Body_absent |} ].
Proof.
  apply (login_then_getMe example_ToString example_Number_toString example_sign
           example_bs58 (example_login_network true [("api_key", J_string "key-1")])
           1700000000000 "0a1b" example_client
           [ ("x-wallet-address", "AgentPublicKey");
             ("x-wallet-signature",
              "secret|bundly-auth:/api/v1/agents/login:1700000000000:0a1b");
             ("x-wallet-timestamp", "1700000000000");
             ("x-wallet-nonce", "0a1b");
             ("x-wallet-action", "/api/v1/agents/login") ]
           (example_login_response true [("api_key", J_string "key-1")])
           [("api_key", J_string "key-1")] "key-1" [] []);
    try reflexivity.
  discriminate.
Defined.

Lemma refused_login_message_witness :
  let run :=
    loginAgent example_ToString example_Number_toString example_sign example_bs58
      (example_login_network false [("error", J_string "bad signature")])
      1700000000000 "0a1b" example_client [] in
  let request :=
    agent_http_request "/api/v1/agents/login" (J_object []) example_client
      [ ("x-wallet-address", "AgentPublicKey");
        ("x-wallet-signature",
         "secret|bundly-auth:/api/v1/agents/login:1700000000000:0a1b");
        ("x-wallet-timestamp", "1700000000000");
        ("x-wallet-nonce", "0a1b");
        ("x-wallet-action", "/api/v1/agents/login") ] in
  run = (Throw (Error_message "bad signature"), ([] ++ [Http request])%list).
Proof.
  cbv zeta.
  refine (proj1 (proj2 (proj2 (refused_login_message example_ToString
           example_Number_toString example_sign example_bs58
           (example_login_network false [("error", J_string "bad signature")])
           1700000000000 "0a1b" example_client
           [ ("x-wallet-address", "AgentPublicKey");
             ("x-wallet-signature",
              "secret|bundly-auth:/api/v1/agents/login:1700000000000:0a1b");
             ("x-wallet-timestamp", "1700000000000");
             ("x-wallet-nonce", "0a1b");
             ("x-wallet-action", "/api/v1/agents/login") ]
           (example_login_response false [("error", J_string "bad signature")])
           [] eq_refl eq_refl eq_refl)
           [("error", J_string "bad signature")] eq_refl))
           "bad signature" eq_refl eq_refl _).
  discriminate.
Defined.

(** * Properties of the agent *)

Ltac run_agent :=
  unfold Agent.bind, Agent.ret, Agent.emit, Agent.throw, Agent.lift,
    Agent.try_catch, Agent.of_io, Agent.of_eff;
  cbn beta iota.

Lemma sent_transactions_app (a b : list AgentEvent) :
  sent_transactions (a ++ b) = (sent_transactions a ++ sent_transactions b)%list.
Proof.
  induction a as [| e a IH]; [reflexivity |].
  destruct e as [line | [| t | s b0 h | k] | g | ev | ev]; cbn; rewrite ?IH; reflexivity.
Qed.

Lemma sent_transactions_estimator (events : Trace) :
  sent_transactions (map Agent_estimator events) = [].
Proof. induction events as [| e events IH]; [reflexivity | exact IH]. Qed.

Lemma sent_transactions_upload (events : list IoEvent) :
  sent_transactions (map Agent_upload events) = [].
Proof. induction events as [| e events IH]; [reflexivity | exact IH]. Qed.

Lemma no_upload_in_estimator (events : Trace) :
  filter is_upload (map Agent_estimator events) = [].
Proof. induction events as [| e events IH]; [reflexivity | exact IH]. Qed.

Lemma no_rpc_in_upload (events : list IoEvent) :
  filter is_rpc (map Agent_upload events) = [].
Proof. induction events as [| e events IH]; [reflexivity | exact IH]. Qed.

Section AgentFacts.
Variable findProgramAddress : list Seed -> PublicKey -> PublicKey.
Variable getAssociatedTokenAddressSync :
  PublicKey -> PublicKey -> bool -> Result PublicKey.
Variables TOKEN_PROGRAM_ID ASSOCIATED_TOKEN_PROGRAM_ID : PublicKey.
Variables SystemProgram_programId SYSVAR_RENT_PUBKEY : PublicKey.
Variable ToString : JsValue -> string.
Variable network : Network.
Variable env : Environment.
Variable PublicKey_new : string -> Result PublicKey.
Variable sign_and_serialize : Transaction -> Result string.
Variable Amount : Type.
Variable amount_rejected : Amount -> bool.
Variable to_base_units : Amount -> Z.

(** ** Unstaking through the agent *)

(** X21.  [executeUnstake] and [withdrawUnstaked] never reach the network:
    for every mint, amount and destination they throw, and the run contains
    no RPC request, so no transaction is sent. *)
Theorem agent_unstake_never_sends
    (agent : BundlyAgent) (mint : KeyArg) (amount : option Amount)
    (destination : option PublicKey) (tr : list AgentEvent) :
  (exists e new,
      executeUnstake findProgramAddress getAssociatedTokenAddressSync
        TOKEN_PROGRAM_ID PublicKey_new sign_and_serialize
        Amount amount_rejected to_base_units agent mint amount tr
      = (Throw e, (tr ++ new)%list)
      /\ filter is_rpc new = [])
  /\ (exists e new,
        withdrawUnstaked findProgramAddress getAssociatedTokenAddressSync
          TOKEN_PROGRAM_ID SystemProgram_programId PublicKey_new sign_and_serialize
          agent mint destination tr
        = (Throw e, (tr ++ new)%list)
        /\ filter is_rpc new = []).
Proof.
  split.
  - unfold executeUnstake.
    destruct amount as [amount |];
      [destruct (amount_rejected amount) |];
      try (exists (Error_message "amount must be positive"), [];
           rewrite app_nil_r; split; reflexivity).
    run_agent.
    destruct (resolve_key PublicKey_new mint) as [mintPubkey | e].
    + exists (TypeError_of_undefined "toBuffer"),
        [Agent_console (Line_executing_unstake mintPubkey)].
      split; reflexivity.
    + exists e, []. rewrite app_nil_r. split; reflexivity.
  - unfold withdrawUnstaked. run_agent.
    destruct (resolve_key PublicKey_new mint) as [mintPubkey | e].
    + exists (TypeError_of_undefined "toBuffer"),
        [Agent_console (Line_withdrawing mintPubkey)].
      split; reflexivity.
    + exists e, []. rewrite app_nil_r. split; reflexivity.
Qed.

(** ** Staking information *)

(** X22.  [getStakingInfo] reports a stake and rewards of zero whatever the
    chain holds: once the mint is a key it never throws, it sends one
    [getAccountInfo] request, for the address derived from the mint itself
    and the agent, and the answer only decides whether raw data is
    attached. *)
Theorem getStakingInfo_is_always_zero
    (agent : BundlyAgent) (mint : KeyArg) (mintPubkey : PublicKey)
    (tr : list AgentEvent) :
  resolve_key PublicKey_new mint = Ok mintPubkey ->
  exists info : StakingInfo,
    getStakingInfo findProgramAddress PublicKey_new agent mint tr
    = (Ok info,
       (tr ++ [Agent_rpc (Call_getAccountInfo
                 (findProgramAddress
                    [Seed_text "user_stake_v1"; Seed_key mintPubkey;
                     Seed_key (agent_publicKey agent)] BUNDLY_PROGRAM_ID))])%list)
    /\ staked info = 0 /\ rewards info = 0
    /\ (raw info <> None <->
        exists data,
          accountInfo (agent_chain agent)
            (deriveUserStakePda findProgramAddress mintPubkey (agent_publicKey agent))
          = Ok (Some data)).
Proof.
  intros Hmint. unfold getStakingInfo. run_agent. rewrite Hmint.
  destruct (accountInfo (agent_chain agent) _) as [[data |] | e].
  - eexists. split; [reflexivity |]. cbn. repeat split; try discriminate.
    intros _. exists data. reflexivity.
  - eexists. split; [reflexivity |]. cbn. repeat split.
    + intros H. contradiction.
    + intros [data H]. discriminate H.
  - eexists. split; [reflexivity |]. cbn. repeat split.
    + intros H. contradiction.
    + intros [data H]. discriminate H.
Qed.

(** ** Finalizing through the agent *)

Lemma finalize_build_run
    (agent : BundlyAgent) (mintPubkey generated : PublicKey)
    (name symbol tokenUri : string) (v : Z) (events : Trace) :
  calculateMinTokensForGraduation (provider_connection (agent_program agent))
    (deriveBundlePda findProgramAddress mintPubkey)
    (deriveEscrowPda findProgramAddress mintPubkey) generated [] = (Some v, events) ->
  buildFinalizePumpfunInstruction findProgramAddress
    TOKEN_PROGRAM_ID ASSOCIATED_TOKEN_PROGRAM_ID
    SystemProgram_programId SYSVAR_RENT_PUBKEY
    (finalize_params agent mintPubkey generated name symbol tokenUri) []
  = (Some {| instruction :=
               finalize_instruction findProgramAddress TOKEN_PROGRAM_ID
                 ASSOCIATED_TOKEN_PROGRAM_ID SystemProgram_programId
                 SYSVAR_RENT_PUBKEY agent mintPubkey generated
                 name symbol tokenUri v |},
     events).
Proof.
  intros Hrun. unfold buildFinalizePumpfunInstruction, finalize_params.
  cbn [param_minTokensOut default_null param_program param_mint param_payer
       param_pumpfunMint param_tokenName param_tokenSymbol param_tokenUri].
  unfold Eff.bind, Eff.ret. rewrite Hrun. reflexivity.
Qed.

Lemma finalize_launch_run
    (agent : BundlyAgent) (generated mintPubkey : PublicKey)
    (name symbol tokenUri : string) (tr : list AgentEvent) :
  exists (v : Z) (new : list AgentEvent),
    returned (calculateMinTokensForGraduation
                (provider_connection (agent_program agent))
                (deriveBundlePda findProgramAddress mintPubkey)
                (deriveEscrowPda findProgramAddress mintPubkey) generated [])
    = Some v
    /\ trace_of_agent
         (finalize_launch findProgramAddress TOKEN_PROGRAM_ID
            ASSOCIATED_TOKEN_PROGRAM_ID SystemProgram_programId SYSVAR_RENT_PUBKEY
            sign_and_serialize agent generated mintPubkey name symbol tokenUri tr)
       = (tr ++ new)%list
    /\ filter is_upload new = []
    /\ (sent_transactions new = []
        \/ exists blockhash,
             sent_transactions new
             = [ finalize_transaction agent generated
                   (finalize_instruction findProgramAddress TOKEN_PROGRAM_ID
                      ASSOCIATED_TOKEN_PROGRAM_ID SystemProgram_programId
                      SYSVAR_RENT_PUBKEY agent mintPubkey generated
                      name symbol tokenUri v)
                   blockhash ])
    /\ (forall done,
          result_of_agent
            (finalize_launch findProgramAddress TOKEN_PROGRAM_ID
               ASSOCIATED_TOKEN_PROGRAM_ID SystemProgram_programId SYSVAR_RENT_PUBKEY
               sign_and_serialize agent generated mintPubkey name symbol tokenUri tr)
          = Ok done ->
          fin_metadataUri done = tokenUri /\ fin_pumpfunMint done = generated
          /\ sent_transactions new <> []).
Proof.
  destruct (estimator_returns (provider_connection (agent_program agent))
              (deriveBundlePda findProgramAddress mintPubkey)
              (deriveEscrowPda findProgramAddress mintPubkey) generated [])
    as [v Hv].
  destruct (calculateMinTokensForGraduation _ _ _ _ []) as [r events] eqn:Hrun.
  unfold returned in Hv. cbn [fst] in Hv. subst r.
  exists v.
  unfold finalize_launch. run_agent.
  rewrite (finalize_build_run agent mintPubkey generated name symbol tokenUri v events Hrun).
  cbn [instruction].
  set (ix := finalize_instruction _ _ _ _ _ agent mintPubkey generated
               name symbol tokenUri v).
  destruct (latestBlockhash (agent_chain agent)) as [[blockhash height] | e];
    cbn [fst snd];
    [destruct (sign_and_serialize _) as [serialized | e];
     [destruct (sendRaw (agent_chain agent) serialized) as [signature | e];
      [destruct (confirm (agent_chain agent) signature) as [[] | e] | ] | ] | ];
    unfold trace_of_agent, result_of_agent; cbn [fst snd];
    rewrite <- !app_assoc; cbn [app];
    eexists; (split; [reflexivity |]);
    (split; [reflexivity |]);
    cbn [sent_transactions filter is_upload];
    rewrite ?filter_app, ?sent_transactions_app, ?no_upload_in_estimator,
      ?sent_transactions_estimator;
    cbn [app sent_transactions filter is_upload];
    (split; [reflexivity |]).
  - split; [right; exists blockhash; reflexivity |].
    intros done [= <-]. cbn. repeat split. discriminate.
  - split; [right; exists blockhash; reflexivity | discriminate].
  - split; [right; exists blockhash; reflexivity | discriminate].
  - split; [left; reflexivity | discriminate].
  - split; [left; reflexivity | discriminate].
Qed.

Lemma uploads_of_filter (tr : list AgentEvent) :
  filter is_upload tr = [] -> uploads_of tr = [].
Proof.
  induction tr as [| e tr IH]; [reflexivity |].
  destruct e; cbn; try exact IH. discriminate.
Qed.

Lemma uploads_of_app (a b : list AgentEvent) :
  uploads_of (a ++ b) = (uploads_of a ++ uploads_of b)%list.
Proof.
  induction a as [| e a IH]; [reflexivity |].
  destruct e; cbn; rewrite ?IH; reflexivity.
Qed.

Lemma uploads_of_upload (events : list IoEvent) :
  uploads_of (map Agent_upload events) = events.
Proof. induction events as [| e events IH]; cbn; [reflexivity | now rewrite IH]. Qed.

(** X23.  Without a metadata address, [finalize] needs the image path, the
    name, the symbol and the description: if one of them is missing or
    empty it throws after its first console lines, before any upload, key
    generation, balance request or transaction. *)
Theorem finalize_requires_metadata
    (agent : BundlyAgent) (generated : PublicKey) (mint : KeyArg)
    (options : FinalizeOptions) (mintPubkey : PublicKey) (tr : list AgentEvent) :
  resolve_key PublicKey_new mint = Ok mintPubkey ->
  falsy_text (fo_metadataUri options) = true ->
  falsy_text (fo_imagePath options) = true \/ fo_name options = ""
  \/ fo_symbol options = "" \/ falsy_text (fo_description options) = true ->
  finalize findProgramAddress TOKEN_PROGRAM_ID ASSOCIATED_TOKEN_PROGRAM_ID
    SystemProgram_programId SYSVAR_RENT_PUBKEY ToString network env
    PublicKey_new sign_and_serialize agent generated mint options tr
  = (Throw (Error_message
              "Either metadataUri OR (imagePath + name + symbol + description) required"),
     (tr ++ [Agent_console
               (Line_finalizing mintPubkey (fo_name options) (fo_symbol options))])%list).
Proof.
  intros Hmint Huri Hmissing.
  assert (Htest : falsy_text (fo_imagePath options) || String.eqb (fo_name options) ""
                  || String.eqb (fo_symbol options) ""
                  || falsy_text (fo_description options) = true).
  { destruct Hmissing as [H | [H | [H | H]]]; rewrite H;
      rewrite ?String.eqb_refl, ?orb_true_r; reflexivity. }
  unfold finalize, finalize_tokenUri. rewrite Hmint. run_agent.
  rewrite Huri, Htest. reflexivity.
Qed.

(** X24.  [finalize] never supplies [minTokensOut] itself.  It sends at most
    one transaction, and that transaction consists of the compute-unit limit
    1_400_000 and the finalize instruction whose fourth argument is the
    value the estimator returns for the escrow of the mint, signed by the
    agent and by the generated mint.  A run that succeeds has sent it.  With
    a metadata address given, nothing is uploaded and that address is the
    one in the instruction. *)
Theorem finalize_sends_the_estimate
    (agent : BundlyAgent) (generated : PublicKey) (mint : KeyArg)
    (options : FinalizeOptions) (mintPubkey : PublicKey) (tr : list AgentEvent) :
  resolve_key PublicKey_new mint = Ok mintPubkey ->
  let run :=
    finalize findProgramAddress TOKEN_PROGRAM_ID ASSOCIATED_TOKEN_PROGRAM_ID
      SystemProgram_programId SYSVAR_RENT_PUBKEY ToString network env
      PublicKey_new sign_and_serialize agent generated mint options tr in
  exists (v : Z) (new : list AgentEvent),
    returned (calculateMinTokensForGraduation
                (provider_connection (agent_program agent))
                (deriveBundlePda findProgramAddress mintPubkey)
                (deriveEscrowPda findProgramAddress mintPubkey) generated [])
    = Some v
    /\ trace_of_agent run = (tr ++ new)%list
    /\ (sent_transactions new = []
        \/ exists tokenUri blockhash,
             sent_transactions new
             = [ finalize_transaction agent generated
                   (finalize_instruction findProgramAddress TOKEN_PROGRAM_ID
                      ASSOCIATED_TOKEN_PROGRAM_ID SystemProgram_programId
                      SYSVAR_RENT_PUBKEY agent mintPubkey generated
                      (fo_name options) (fo_symbol options) tokenUri v)
                   blockhash ]
             /\ (falsy_text (fo_metadataUri options) = false ->
                 Some tokenUri = fo_metadataUri options))
    /\ (forall done, result_of_agent run = Ok done -> sent_transactions new <> [])
    /\ (falsy_text (fo_metadataUri options) = false -> uploads_of new = []).
Proof.
  intros Hmint run.
  destruct (estimator_returns (provider_connection (agent_program agent))
              (deriveBundlePda findProgramAddress mintPubkey)
              (deriveEscrowPda findProgramAddress mintPubkey) generated [])
    as [v Hv].
  exists v.
  subst run. unfold finalize. rewrite Hmint.
  unfold Agent.bind at 1 2 3, Agent.lift at 1, Agent.emit at 1.
  cbn beta iota.
  set (tr1 := (tr ++ [Agent_console _])%list).
  unfold finalize_tokenUri.
  destruct (falsy_text (fo_metadataUri options)) eqn:Huri.
  - destruct (_ || _ || _ || _).
    + (* nothing to upload from *)
      unfold Agent.throw, trace_of_agent, result_of_agent. cbn [fst snd]. subst tr1.
      eexists. split; [exact Hv |]. split; [reflexivity |].
      split; [left; reflexivity |]. split; discriminate.
    + unfold Agent.of_io.
      destruct (uploadBundleMetadata _ _ _ _ []) as [[tokenUri | e] uploaded].
      * destruct (finalize_launch_run agent generated mintPubkey
                    (fo_name options) (fo_symbol options) tokenUri
                    (tr1 ++ map Agent_upload uploaded)%list)
          as (v' & new' & Hv' & Htrace & _ & Hsent & Hdone).
        assert (v' = v) by congruence. subst v'.
        exists ([Agent_console
                   (Line_finalizing mintPubkey (fo_name options) (fo_symbol options))]
                  ++ map Agent_upload uploaded ++ new')%list.
        split; [exact Hv |].
        split; [rewrite Htrace; subst tr1; now rewrite <- !app_assoc |].
        rewrite !sent_transactions_app, sent_transactions_upload. cbn [sent_transactions app].
        split; [| split; [intros done Hok; exact (proj2 (proj2 (Hdone done Hok))) |
                          discriminate]].
        destruct Hsent as [Hnone | [blockhash Hone]]; [left; exact Hnone |].
        right. exists tokenUri, blockhash. split; [exact Hone | discriminate].
      * unfold trace_of_agent, result_of_agent. cbn [fst snd]. subst tr1.
        rewrite <- app_assoc.
        eexists. split; [exact Hv |]. split; [reflexivity |].
        rewrite sent_transactions_app, sent_transactions_upload.
        split; [left; reflexivity |]. split; discriminate.
  - unfold Agent.ret.
    destruct (finalize_launch_run agent generated mintPubkey
                (fo_name options) (fo_symbol options)
                (text_or_empty (fo_metadataUri options)) tr1)
      as (v' & new' & Hv' & Htrace & Hclean & Hsent & Hdone).
    assert (v' = v) by congruence. subst v'.
    exists ([Agent_console
               (Line_finalizing mintPubkey (fo_name options) (fo_symbol options))]
              ++ new')%list.
    split; [exact Hv |].
    split; [rewrite Htrace; subst tr1; now rewrite <- !app_assoc |].
    cbn [app sent_transactions uploads_of].
    split; [| split; [intros done Hok; exact (proj2 (proj2 (Hdone done Hok))) |
                      intros _; apply uploads_of_filter; exact Hclean]].
    destruct Hsent as [Hnone | [blockhash Hone]]; [left; exact Hnone |].
    right. exists (text_or_empty (fo_metadataUri options)), blockhash.
    split; [exact Hone |]. intros _.
    destruct (fo_metadataUri options); [reflexivity | discriminate Huri].
Qed.

(** X25.  Without a metadata address and without an upload key, [finalize]
    goes on with the fixed test address: given the four metadata fields and
    an existing image file, it sends no HTTP request, every transaction it
    sends carries ipfs://QmTestMetadata123456789 as the token URI, and a
    successful run returns that address as [metadataUri]. *)
Theorem finalize_without_key_launches_mock
    (agent : BundlyAgent) (generated : PublicKey) (mint : KeyArg)
    (options : FinalizeOptions) (mintPubkey : PublicKey) (tr : list AgentEvent)
    (imagePath description : string) :
  resolve_key PublicKey_new mint = Ok mintPubkey ->
  falsy_text (fo_metadataUri options) = true ->
  fo_imagePath options = Some imagePath -> imagePath <> "" ->
  fo_name options <> "" -> fo_symbol options <> "" ->
  fo_description options = Some description -> description <> "" ->
  truthy (PINATA_JWT env) = false ->
  truthy (NFT_STORAGE_KEY env) = false ->
  existsSync env imagePath = true ->
  let run :=
    finalize findProgramAddress TOKEN_PROGRAM_ID ASSOCIATED_TOKEN_PROGRAM_ID
      SystemProgram_programId SYSVAR_RENT_PUBKEY ToString network env
      PublicKey_new sign_and_serialize agent generated mint options tr in
  exists new : list AgentEvent,
    trace_of_agent run = (tr ++ new)%list
    /\ requests_of (uploads_of new) = []
    /\ (forall t, In t (sent_transactions new) ->
        exists v blockhash,
          t = finalize_transaction agent generated
                (finalize_instruction findProgramAddress TOKEN_PROGRAM_ID
                   ASSOCIATED_TOKEN_PROGRAM_ID SystemProgram_programId
                   SYSVAR_RENT_PUBKEY agent mintPubkey generated
                   (fo_name options) (fo_symbol options)
                   "ipfs://QmTestMetadata123456789" v)
                blockhash)
    /\ (forall done,
          result_of_agent run = Ok done ->
          fin_metadataUri done = "ipfs://QmTestMetadata123456789").
Proof.
  intros Hmint Huri Himage Himage_ne Hname Hsymbol Hdescr Hdescr_ne
    Hjwt Hnft Hexists run.
  subst run. unfold finalize. rewrite Hmint.
  unfold Agent.bind at 1 2 3, Agent.lift at 1, Agent.emit at 1.
  cbn beta iota.
  set (tr1 := (tr ++ [Agent_console _])%list).
  unfold finalize_tokenUri. rewrite Huri, Himage, Hdescr.
  cbn [falsy_text text_or_empty text_value].
  apply String.eqb_neq in Himage_ne, Hname, Hsymbol, Hdescr_ne.
  rewrite Himage_ne, Hname, Hsymbol, Hdescr_ne. cbn [orb].
  unfold Agent.of_io.
  rewrite uploadBundleMetadata_run. cbv zeta. cbn [opt_imagePath].
  rewrite Hexists, (js_or_falsy _ _ Hjwt Hnft). cbn [negb app].
  set (uploaded := [Console _; Console _; Console _; Console _; Console _;
                    Console _; Console _]).
  destruct (finalize_launch_run agent generated mintPubkey
              (fo_name options) (fo_symbol options)
              "ipfs://QmTestMetadata123456789"
              (tr1 ++ map Agent_upload uploaded)%list)
    as (v & new' & Hv & Htrace & Hclean & Hsent & Hdone).
  exists ([Agent_console
             (Line_finalizing mintPubkey (fo_name options) (fo_symbol options))]
            ++ map Agent_upload uploaded ++ new')%list.
  split; [rewrite Htrace; subst tr1; now rewrite <- !app_assoc |].
  split; [| split].
  - rewrite !uploads_of_app, uploads_of_upload, (uploads_of_filter _ Hclean).
    reflexivity.
  - rewrite !sent_transactions_app, sent_transactions_upload.
    cbn [sent_transactions app].
    intros t Hin. exists v.
    destruct Hsent as [Hnone | [blockhash Hone]].
    + rewrite Hnone in Hin. contradiction.
    + rewrite Hone in Hin. destruct Hin as [<- | []]. exists blockhash. reflexivity.
  - intros done Hok. exact (proj1 (Hdone done Hok)).
Qed.
End AgentFacts.

Lemma getStakingInfo_is_always_zero_witness :
  exists info : StakingInfo,
    getStakingInfo concat_findProgramAddress example_PublicKey_new example_agent
      (Key_text "mint") []
    = (Ok info,
       ([] ++ [Agent_rpc (Call_getAccountInfo
                 (concat_findProgramAddress
                    [Seed_text "user_stake_v1"; Seed_key "mint";
                     Seed_key (agent_publicKey example_agent)] BUNDLY_PROGRAM_ID))])%list)
    /\ staked info = 0 /\ rewards info = 0
    /\ (raw info <> None <->
        exists data,
          accountInfo (agent_chain example_agent)
            (deriveUserStakePda concat_findProgramAddress "mint"
               (agent_publicKey example_agent))
          = Ok (Some data)).
Proof.
  apply (getStakingInfo_is_always_zero concat_findProgramAddress
           example_PublicKey_new example_agent (Key_text "mint") "mint" []).
  reflexivity.
Defined.

Lemma finalize_requires_metadata_witness :
  finalize concat_findProgramAddress "token" "ata" "system" "rent"
    example_ToString example_network (example_env None)
    example_PublicKey_new example_serialize example_agent "generated"
    (Key_text "mint")
    {| fo_imagePath := Some "logo.png";
       fo_name := "Token";
       fo_symbol := "";
       fo_description := Some "A token";
       fo_metadataUri := None |} []
  = (Throw (Error_message
              "Either metadataUri OR (imagePath + name + symbol + description) required"),
     ([] ++ [Agent_console (Line_finalizing "mint" "Token" "")])%list).
Proof.
  apply (finalize_requires_metadata concat_findProgramAddress
           "token" "ata" "system" "rent"
           example_ToString example_network (example_env None)
           example_PublicKey_new example_serialize example_agent "generated"
           (Key_text "mint")
           {| fo_imagePath := Some "logo.png";
              fo_name := "Token";
              fo_symbol := "";
              fo_description := Some "A token";
              fo_metadataUri := None |} "mint" []).
  - reflexivity.
  - reflexivity.
  - right. right. left. reflexivity.
Defined.

Lemma finalize_sends_the_estimate_witness :
  let options := example_finalize_options (Some "ipfs://given") in
  let run :=
    finalize concat_findProgramAddress "token" "ata" "system" "rent"
      example_ToString example_network (example_env None)
      example_PublicKey_new example_serialize example_agent "generated"
      (Key_text "mint") options [] in
  exists (v : Z) (new : list AgentEvent),
    returned (calculateMinTokensForGraduation
                (provider_connection (agent_program example_agent))
                (deriveBundlePda concat_findProgramAddress "mint")
                (deriveEscrowPda concat_findProgramAddress "mint") "generated" [])
    = Some v
    /\ trace_of_agent run = ([] ++ new)%list
    /\ (sent_transactions new = []
        \/ exists tokenUri blockhash,
             sent_transactions new
             = [ finalize_transaction example_agent "generated"
                   (finalize_instruction concat_findProgramAddress
                      "token" "ata" "system" "rent" example_agent "mint" "generated"
                      (fo_name options) (fo_symbol options) tokenUri v)
                   blockhash ]
             /\ (falsy_text (fo_metadataUri options) = false ->
                 Some tokenUri = fo_metadataUri options))
    /\ (forall done, result_of_agent run = Ok done -> sent_transactions new <> [])
    /\ (falsy_text (fo_metadataUri options) = false -> uploads_of new = []).
Proof.
  apply (finalize_sends_the_estimate concat_findProgramAddress
           "token" "ata" "system" "rent"
           example_ToString example_network (example_env None)
           example_PublicKey_new example_serialize example_agent "generated"
           (Key_text "mint") (example_finalize_options (Some "ipfs://given")) "mint" []).
  reflexivity.
Defined.

Lemma finalize_without_key_launches_mock_witness :
  let options := example_finalize_options None in
  let run :=
    finalize concat_findProgramAddress "token" "ata" "system" "rent"
      example_ToString example_network (example_env None)
      example_PublicKey_new example_serialize example_agent "generated"
      (Key_text "mint") options [] in
  exists new : list AgentEvent,
    trace_of_agent run = ([] ++ new)%list
    /\ requests_of (uploads_of new) = []
    /\ (forall t, In t (sent_transactions new) ->
        exists v blockhash,
          t = finalize_transaction example_agent "generated"
                (finalize_instruction concat_findProgramAddress
                   "token" "ata" "system" "rent" example_agent "mint" "generated"
                   (fo_name options) (fo_symbol options)
                   "ipfs://QmTestMetadata123456789" v)
                blockhash)
    /\ (forall done,
          result_of_agent run = Ok done ->
          fin_metadataUri done = "ipfs://QmTestMetadata123456789").
Proof.
  apply (finalize_without_key_launches_mock concat_findProgramAddress
           "token" "ata" "system" "rent"
           example_ToString example_network (example_env None)
           example_PublicKey_new example_serialize example_agent "generated"
           (Key_text "mint") (example_finalize_options None) "mint" []
           "logo.png" "A token");
    try reflexivity; discriminate.
Defined.

(** The example run of [finalize], evaluated: one transaction is sent and it
    carries the estimate for an escrow of 50 SOL. *)
Example finalize_example_sends_one :
  sent_transactions
    (trace_of_agent
       (finalize concat_findProgramAddress "token" "ata" "system" "rent"
          example_ToString example_network (example_env None)
          example_PublicKey_new example_serialize example_agent "generated"
          (Key_text "mint") (example_finalize_options (Some "ipfs://given")) []))
  = [ finalize_transaction example_agent "generated"
        (finalize_instruction concat_findProgramAddress
           "token" "ata" "system" "rent" example_agent "mint" "generated"
           "Token" "TKN" "ipfs://given"
           (tokensOut (SOL_TO_SPEND 50000000000) * 90 / 100))
        "blockhash" ].
Proof. vm_compute. reflexivity. Qed.
